(** * Pitch-Lens deal pipeline: text extraction and the deal state machine

    A shallow embedding of [Backend/utils/ocr_utils.py] (class [PDFProcessor])
    and of the endpoints and the background task of [Backend/main.py], with
    the properties of the deal pipeline proved over it.

    Python values are an inductive type, dictionaries are association lists
    in insertion order, exceptions are values of type [exn] carried by
    [result], and the Deal Store is a finite map from deal identifiers to
    documents.  A string is a sequence of code points below 256.  Code that
    reads or writes the store is a program of type [prog]: it can be run in
    one piece by a store that answers every call ([exec]), in one piece by
    a store whose calls raise or are cancelled as a schedule says ([run]),
    or step by step among other programs ([step]). *)

From Stdlib Require Import ZArith Ascii String List DecimalString.
From Stdlib Require DecimalNat DecimalFacts.
From stdpp Require Import base option list strings gmap fin_maps sorting.

Open Scope string_scope.
Open Scope nat_scope.
Open Scope list_scope.
Open Scope stdpp_scope.
Set Warnings "-register-all,-clear-no-such-hyp".

(** ** Python values and exceptions *)

(** The values that flow through the pipeline: what [json.loads] returns,
    what the services exchange and what a deal document holds.  A [VNum]
    is a number (the code only tests numbers for truth), a [VTime] a
    [datetime]. *)
Inductive value : Type :=
| VNone
| VBool (b : bool)
| VNum (n : Z)
| VStr (s : string)
| VList (l : list value)
| VDict (d : list (string * value))
| VTime (t : nat).

(** The exceptions the code raises or meets, all of them instances of
    [Exception]. [UpstreamError] stands for whatever a client library
    raises (time-out, network, quota, bad JSON, a store that is down). *)
Inductive exn : Type :=
| KeyError (key : string)
| TypeError (msg : string)
| AttributeError (msg : string)
| UpstreamError (msg : string)
| HTTPException (status_code : Z) (detail : string).

Inductive result (A : Type) : Type :=
| Ok (a : A)
| Raise (e : exn).
Arguments Ok {A} a.
Arguments Raise {A} e.

#[global] Instance result_ret : MRet result := fun _ a => Ok a.
#[global] Instance result_bind : MBind result := fun _ _ f m =>
  match m with
  | Ok a => f a
  | Raise e => Raise e
  end.

(** ** Strings *)

Definition str_of_nat (n : nat) : string :=
  NilZero.string_of_uint (Nat.to_uint n).

Definition str_of_Z (z : Z) : string :=
  NilZero.string_of_int (Z.to_int z).

(** [str.isspace] on the code points below 256. *)
Definition is_space (c : ascii) : bool :=
  let n := nat_of_ascii c in
  ((9 <=? n) && (n <=? 13)) || ((28 <=? n) && (n <=? 32))
  || (n =? 133) || (n =? 160).

Fixpoint lstrip (s : string) : string :=
  match s with
  | EmptyString => EmptyString
  | String c s' => if is_space c then lstrip s' else s
  end.

Fixpoint rstrip (s : string) : string :=
  match s with
  | EmptyString => EmptyString
  | String c s' =>
      match rstrip s' with
      | EmptyString => if is_space c then EmptyString else String c EmptyString
      | r => String c r
      end
  end.

(** [s.strip()] *)
Definition strip (s : string) : string := rstrip (lstrip s).

(** [s.endswith(suffix)] *)
Fixpoint endswith (s suffix : string) : bool :=
  if String.eqb s suffix then true
  else match s with
       | EmptyString => false
       | String _ s' => endswith s' suffix
       end.

(** [sep.join(parts)] *)
Fixpoint join (sep : string) (parts : list string) : string :=
  match parts with
  | [] => ""
  | [p] => p
  | p :: ps => p +:+ sep +:+ join sep ps
  end.

Definition nonempty (s : string) : bool :=
  match s with EmptyString => false | _ => true end.

(** [str(e)]; an [HTTPException] prints as Starlette prints it. *)
Definition exn_str (e : exn) : string :=
  match e with
  | KeyError k => "'" +:+ k +:+ "'"
  | TypeError m => m
  | AttributeError m => m
  | UpstreamError m => m
  | HTTPException c d => str_of_Z c +:+ ": " +:+ d
  end.

(** ** Dictionaries and the operations Python applies to values *)

Abbreviation dict := (list (string * value)).

Fixpoint dict_get (d : dict) (k : string) : option value :=
  match d with
  | [] => None
  | (k', v) :: d' => if String.eqb k' k then Some v else dict_get d' k
  end.

(** [d[k] = v]: an existing key keeps its place, a new one goes last. *)
Fixpoint dict_set (d : dict) (k : string) (v : value) : dict :=
  match d with
  | [] => [(k, v)]
  | (k', v') :: d' =>
      if String.eqb k' k then (k', v) :: d' else (k', v') :: dict_set d' k v
  end.

Definition dict_has (d : dict) (k : string) : bool :=
  match dict_get d k with Some _ => true | None => false end.

Definition type_name (v : value) : string :=
  match v with
  | VNone => "NoneType"
  | VBool _ => "bool"
  | VNum _ => "int"
  | VStr _ => "str"
  | VList _ => "list"
  | VDict _ => "dict"
  | VTime _ => "datetime.datetime"
  end.

(** [v.get(k, default)] *)
Definition py_get (v : value) (k : string) (dflt : value) : result value :=
  match v with
  | VDict d => Ok (default dflt (dict_get d k))
  | _ => Raise (AttributeError
                  ("'" +:+ type_name v +:+ "' object has no attribute 'get'"))
  end.

(** [v[k]] for a string key. *)
Definition subscript (v : value) (k : string) : result value :=
  match v with
  | VDict d =>
      match dict_get d k with
      | Some x => Ok x
      | None => Raise (KeyError k)
      end
  | VStr _ => Raise (TypeError "string indices must be integers")
  | VList _ => Raise (TypeError "list indices must be integers or slices, not str")
  | _ => Raise (TypeError ("'" +:+ type_name v +:+ "' object is not subscriptable"))
  end.

(** [bool(v)] *)
Definition truthy (v : value) : bool :=
  match v with
  | VNone => false
  | VBool b => b
  | VNum n => negb (n =? 0)%Z
  | VStr s => nonempty s
  | VList l => match l with [] => false | _ => true end
  | VDict d => match d with [] => false | _ => true end
  | VTime _ => true
  end.

Fixpoint chars (s : string) : list value :=
  match s with
  | EmptyString => []
  | String c s' => VStr (String c EmptyString) :: chars s'
  end.

(** [for x in v]: the items a [for] loop visits. *)
Definition iter (v : value) : result (list value) :=
  match v with
  | VList l => Ok l
  | VDict d => Ok (map (fun kv => VStr (fst kv)) d)
  | VStr s => Ok (chars s)
  | _ => Raise (TypeError ("'" +:+ type_name v +:+ "' object is not iterable"))
  end.

(** An item handed to [str.join]. *)
Definition as_str (v : value) : result string :=
  match v with
  | VStr s => Ok s
  | _ => Raise (TypeError ("sequence item: expected str instance, "
                           +:+ type_name v +:+ " found"))
  end.

(** [v.strip()] *)
Definition py_strip (v : value) : result string :=
  match v with
  | VStr s => Ok (strip s)
  | _ => Raise (AttributeError
                  ("'" +:+ type_name v +:+ "' object has no attribute 'strip'"))
  end.

(** A loop that threads an accumulator and stops at the first exception. *)
Fixpoint for_each {A B} (f : B -> A -> result B) (acc : B) (l : list A)
  : result B :=
  match l with
  | [] => Ok acc
  | x :: l' => acc' ← f acc x; for_each f acc' l'
  end.

(** ** The services the pipeline calls

    The OCR, LLM, search, export and storage clients are external: each
    call either returns a value or raises. *)

(** An output artifact of the OCR job: its object name, what
    [json.loads(blob.download_as_text())] gives, and whether
    [blob.delete()] raises. *)
Record blob : Type := {
  name : string;
  download_as_json : result value;
  delete_raises : bool
}.

Record services : Type := {
  (** Steps 1 and 2 of [_extract_text_from_pdf] and the listing of the
      output prefix: the artifacts in the order [list_blobs] yields them. *)
  vision_ocr : value -> result (list blob);
  (** [GeminiSummarizer.summarize_pitch_deck] *)
  summarize_pitch_deck : string -> result value;
  (** [PublicDataGatherer.gather_data] *)
  gather_data : value -> value -> value -> result value;
  (** [GeminiSummarizer.generate_memo] *)
  summarizer_generate_memo : value -> value -> result value;
  (** [MemoExporter.create_memo_docx] *)
  create_memo_docx : string -> value -> result value;
  (** [GCSManager.upload_file], by destination path *)
  upload_file : string -> result value;
  (** [datetime.utcnow()] *)
  utcnow : nat
}.

Definition nl : string := String (ascii_of_nat 10) EmptyString.

Module PDFProcessor.

(** [sorted(blobs, key=lambda b: b.name)]: a stable sort on the names,
    compared as Python compares strings. *)
Fixpoint insert_by_name (b : blob) (l : list blob) : list blob :=
  match l with
  | [] => [b]
  | c :: l' =>
      if String.leb (name b) (name c) then b :: c :: l'
      else c :: insert_by_name b l'
  end.

Fixpoint sorted_by_name (l : list blob) : list blob :=
  match l with
  | [] => []
  | b :: l' => insert_by_name b (sorted_by_name l')
  end.

(** The fallback of the response loop: the text rebuilt from
    pages, blocks, paragraphs, words and symbols. *)
Definition word_symbols (word : value) : result string :=
  symbols ← py_get word "symbols" (VList []) ≫= iter;
  texts ← mapM (fun s => py_get s "text" (VStr "")) symbols;
  parts ← mapM as_str texts;
  Ok (join "" parts).

Definition paragraph_text (para : value) : result string :=
  items ← py_get para "words" (VList []) ≫= iter;
  words ← mapM word_symbols items;
  Ok (join " " words).

Definition reconstruct (resp : value) : result string :=
  pages ← py_get resp "pages" (VList []) ≫= iter;
  reconstructed ←
    for_each (fun acc page =>
      blocks ← py_get page "blocks" (VList []) ≫= iter;
      for_each (fun acc block =>
        paras ← py_get block "paragraphs" (VList []) ≫= iter;
        for_each (fun acc para =>
          t ← paragraph_text para; Ok (acc ++ [t])) acc paras)
        acc blocks)
      [] pages;
  Ok (strip (join nl reconstructed)).

(** The body of [for resp in data.get("responses", [])] up to the guard:
    the text of one page, before stripping. *)
Definition page_text_of (resp : value) : result value :=
  full ← py_get resp "fullTextAnnotation" (VDict []);
  page_text ← py_get full "text" (VStr "");
  if truthy page_text then Ok page_text
  else Ok (VStr (match reconstruct resp with
                 | Ok s => s
                 | Raise _ => ""
                 end)).

(** One turn of the response loop on the list [texts]. *)
Definition add_page (texts : list string) (resp : value)
  : result (list string) :=
  page_text ← page_text_of resp;
  stripped ← py_strip page_text;
  Ok (if nonempty stripped then texts ++ [stripped] else texts).

(** The body of [for blob in blobs] for a blob that is read. *)
Definition read_blob (texts : list string) (b : blob)
  : result (list string) :=
  data ← download_as_json b;
  responses ← py_get data "responses" (VList []) ≫= iter;
  for_each add_page texts responses.

(** [for blob in blobs]: the loop state is the list [texts] and the
    names of the artifacts deleted from the bucket so far; an exception
    leaves the loop at once. *)
Fixpoint read_blobs (blobs : list blob) (texts deleted : list string)
  : list string * result (list string) :=
  match blobs with
  | [] => (deleted, Ok texts)
  | b :: rest =>
      if negb (endswith (name b) ".json") then read_blobs rest texts deleted
      else
        match read_blob texts b with
        | Raise e => (deleted, Raise e)
        | Ok texts' =>
            read_blobs rest texts'
              (if delete_raises b then deleted else deleted ++ [name b])
        end
  end.

(** The [try] block of [_extract_text_from_pdf]. *)
Definition extract_try (sv : services) (gcs_path : value)
  : list string * result (list string) :=
  match vision_ocr sv gcs_path with
  | Raise e => ([], Raise e)
  | Ok listing =>
      match read_blobs (sorted_by_name listing) [] [] with
      | (deleted, Ok texts) =>
          (deleted, Ok (match texts with [] => [""] | _ => texts end))
      | r => r
      end
  end.

(** The names of the artifacts the call deletes from the bucket. *)
Definition deleted_artifacts (sv : services) (gcs_path : value)
  : list string :=
  fst (extract_try sv gcs_path).

Definition _extract_text_from_pdf (sv : services) (gcs_path : value)
  : list string :=
  match snd (extract_try sv gcs_path) with
  | Ok texts => texts
  | Raise _ => [""]
  end.

Definition enumerate {A} (l : list A) : list (nat * A) :=
  imap (fun i x => (i, x)) l.

(** The text handed to the summarizer. *)
Definition full_text_of (page_texts : list string) : string :=
  join (nl +:+ nl)
    (map (fun it => "Page " +:+ str_of_nat (fst it + 1) +:+ ": " +:+ snd it)
       (List.filter (fun it => nonempty (snd it)) (enumerate page_texts))).

Definition raw_of (page_texts : list string) : value :=
  VDict (map (fun it => (str_of_nat (fst it + 1), VStr (snd it)))
           (enumerate page_texts)).

Definition ocr_error_structure : value :=
  VDict [("raw", VDict [("1", VStr "")]);
         ("concise", VStr "Error in OCR processing.")].

Definition process_pdf (sv : services) (gcs_path : value) : value :=
  let body : result value :=
    let page_texts := _extract_text_from_pdf sv gcs_path in
    let full_text := full_text_of page_texts in
    concise_summary ← summarize_pitch_deck sv full_text;
    _ ← subscript concise_summary "founder_response";
    _ ← subscript concise_summary "sector_response";
    summary_res ← subscript concise_summary "summary_res";
    founder ← subscript concise_summary "founder_response";
    sector ← subscript concise_summary "sector_response";
    company ← subscript concise_summary "company_name_response";
    Ok (VDict [("raw", raw_of page_texts);
               ("concise", summary_res);
               ("founder_response", founder);
               ("sector_response", sector);
               ("company_name_response", company)])
  in
  match body with
  | Ok v => v
  | Raise _ => ocr_error_structure
  end.

End PDFProcessor.

(** ** The Deal Store *)

(** The writes the store accepts. *)
Inductive store_op : Type :=
| Created (deal_id : string) (doc : value)
| Updated (deal_id : string) (patch : dict)
| Deleted (deal_id : string).

(** A committed write, with the store as it stood right after it. *)
Record commit : Type := {
  op : store_op;
  after : gmap string value
}.

(** The state the endpoints and the background task act on: the Deal
    Store, the journal of its writes (oldest first) and the background
    tasks scheduled and not yet run. *)
Record world : Type := {
  db : gmap string value;
  journal : list commit;
  tasks : list (string * dict)
}.

(** Stateful code.  A program is the sequence of its accesses to the Deal
    Store and to the queue of background tasks, each with what the code
    does next; between two accesses it only computes and calls services.
    A call to the store either answers or raises the exception of the
    store client, and what follows is given that outcome.  A write made
    before an exception stays made. *)
Inductive prog (A : Type) : Type :=
| Ret (r : result A)
| Get (deal_id : string) (k : result value -> prog A)
| Put (o : store_op) (k : result unit -> prog A)
| Spawn (deal_id : string) (file_urls : dict) (k : prog A).
Arguments Ret {A} r.
Arguments Get {A} deal_id k.
Arguments Put {A} o k.
Arguments Spawn {A} deal_id file_urls k.

Fixpoint bind {A B} (p : prog A) (f : A -> prog B) : prog B :=
  match p with
  | Ret (Ok a) => f a
  | Ret (Raise e) => Ret (Raise e)
  | Get deal_id k => Get deal_id (fun r => bind (k r) f)
  | Put o k => Put o (fun r => bind (k r) f)
  | Spawn deal_id file_urls k => Spawn deal_id file_urls (bind k f)
  end.

#[global] Instance prog_ret : MRet prog := fun _ a => Ret (Ok a).
#[global] Instance prog_bind : MBind prog := fun _ _ f p => bind p f.

Definition lift {A} (r : result A) : prog A := Ret r.

Definition raise {A} (e : exn) : prog A := Ret (Raise e).

(** [try: p except Exception as e: h e] *)
Fixpoint try_catch {A} (p : prog A) (h : exn -> prog A) : prog A :=
  match p with
  | Ret (Ok a) => Ret (Ok a)
  | Ret (Raise e) => h e
  | Get deal_id k => Get deal_id (fun r => try_catch (k r) h)
  | Put o k => Put o (fun r => try_catch (k r) h)
  | Spawn deal_id file_urls k => Spawn deal_id file_urls (try_catch k h)
  end.

Fixpoint split_on (sep : ascii) (s : string) : list string :=
  match s with
  | EmptyString => [""]
  | String c s' =>
      if Ascii.eqb c sep then "" :: split_on sep s'
      else match split_on sep s' with
           | [] => [String c EmptyString]
           | w :: ws => String c w :: ws
           end
  end.

Module FirestoreManager.

(** Modelled from the spec: the field-path write of one field
    ([utils/firestore_utils.py] is not among the sources).  A dotted path
    names a field inside nested sub-documents; the fields beside it are
    kept, and a missing sub-document is created. *)
Fixpoint set_path (d : dict) (path : list string) (v : value) : dict :=
  match path with
  | [] => d
  | [k] => dict_set d k v
  | k :: rest =>
      let sub := match dict_get d k with
                 | Some (VDict sub) => sub
                 | _ => []
                 end in
      dict_set d k (VDict (set_path sub rest v))
  end.

(** Modelled from the spec: the partial update of
    [FirestoreManager.update_deal] is a merge of the patched field paths
    into the record, not an overwrite of the record. *)
Definition merge_patch (doc : value) (patch : dict) : value :=
  VDict (fold_left (fun d kv => set_path d (split_on "." (fst kv)) (snd kv))
           patch
           (match doc with VDict d => d | _ => [] end)).

(** Modelled from the spec: the effect of the operations of
    [FirestoreManager] on the keyed records.  The spec does not say what
    updating an absent record does; here the patch is merged into an empty
    record.  Nor does it say what creating a record does when the
    identifier is in use; here the new record replaces the old one. *)
Definition apply_op (s : gmap string value) (o : store_op)
  : gmap string value :=
  match o with
  | Created deal_id doc => <[deal_id := doc]> s
  | Updated deal_id patch =>
      <[deal_id := merge_patch (default (VDict []) (s !! deal_id)) patch]> s
  | Deleted deal_id => delete deal_id s
  end.

(** Modelled from the spec: a write to the Deal Store
    ([utils/firestore_utils.py] is not among the sources) changes the
    store and is durable; the journal keeps it with the store as it then
    stood. *)
Definition write (w : world) (o : store_op) : world :=
  {| db := apply_op (db w) o;
     journal := journal w ++ [{| op := o; after := apply_op (db w) o |}];
     tasks := tasks w |}.

(** Modelled from the spec: what [FirestoreManager.get_deal] returns, the
    record, or [None] when there is none. *)
Definition read (w : world) (deal_id : string) : value :=
  default VNone (db w !! deal_id).

(** Modelled from the spec: [FirestoreManager.get_deal]; the call returns
    what the store answers, or raises what the store client raises (the
    store I/O failure of the error taxonomy). *)
Definition get_deal (deal_id : string) : prog value :=
  Get deal_id (fun r => Ret r).

(** Modelled from the spec: [FirestoreManager.create_deal] persists the
    initial metadata as the [metadata] sub-document of a new record, or
    raises what the store client raises. *)
Definition create_deal (deal_id : string) (metadata : value) : prog unit :=
  Put (Created deal_id (VDict [("metadata", metadata)])) (fun r => Ret r).

(** Modelled from the spec: [FirestoreManager.update_deal], an update by
    field path, or the exception of the store client. *)
Definition update_deal (deal_id : string) (patch : dict) : prog unit :=
  Put (Updated deal_id patch) (fun r => Ret r).

(** Modelled from the spec: [FirestoreManager.delete_deal] removes the
    deal record, or raises what the store client raises. *)
Definition delete_deal (deal_id : string) : prog unit :=
  Put (Deleted deal_id) (fun r => Ret r).

End FirestoreManager.

Definition with_task (w : world) (deal_id : string) (file_urls : dict)
  : world :=
  {| db := db w; journal := journal w;
     tasks := tasks w ++ [(deal_id, file_urls)] |}.

(** A program run to its end without anything else happening in
    between, by a store that answers every call. *)
Fixpoint exec {A} (p : prog A) (w : world) : world * result A :=
  match p with
  | Ret r => (w, r)
  | Get deal_id k => exec (k (Ok (FirestoreManager.read w deal_id))) w
  | Put o k => exec (k (Ok tt)) (FirestoreManager.write w o)
  | Spawn deal_id file_urls k => exec k (with_task w deal_id file_urls)
  end.

(** What becomes of one call to the store: it answers, the store client
    raises an exception, or the program is cancelled while it waits (an
    [asyncio.CancelledError], which is not an [Exception]). *)
Inductive answer : Type :=
| Answers
| Fails (e : exn)
| Cancelled.

(** How a run ends: the program returns or raises, or it is cancelled. *)
Inductive outcome (A : Type) : Type :=
| Finished (r : result A)
| Aborted.
Arguments Finished {A} r.
Arguments Aborted {A}.

(** A program run to its end by a store whose calls fare as [schedule]
    says, one entry per call in the order of the calls; past the end of
    the schedule every call answers.  A call that raises leaves the store
    as it was, and a cancellation is caught by no [except Exception]
    clause: the run ends where it is.  The result comes with the part of
    the schedule not yet used. *)
Fixpoint run {A} (p : prog A) (schedule : list answer) (w : world)
  : world * outcome A * list answer :=
  match p with
  | Ret r => (w, Finished r, schedule)
  | Get deal_id k =>
      match schedule with
      | [] => run (k (Ok (FirestoreManager.read w deal_id))) [] w
      | Answers :: rest =>
          run (k (Ok (FirestoreManager.read w deal_id))) rest w
      | Fails e :: rest => run (k (Raise e)) rest w
      | Cancelled :: rest => (w, Aborted, rest)
      end
  | Put o k =>
      match schedule with
      | [] => run (k (Ok tt)) [] (FirestoreManager.write w o)
      | Answers :: rest => run (k (Ok tt)) rest (FirestoreManager.write w o)
      | Fails e :: rest => run (k (Raise e)) rest w
      | Cancelled :: rest => (w, Aborted, rest)
      end
  | Spawn deal_id file_urls k => run k schedule (with_task w deal_id file_urls)
  end.

(** A program applied to a world stands for that run. *)
Coercion exec : prog >-> Funclass.

(** Reading a field of a document by its path. *)
Fixpoint get_path (v : value) (path : list string) : option value :=
  match path with
  | [] => Some v
  | k :: rest =>
      match v with
      | VDict d =>
          match dict_get d k with
          | Some x => get_path x rest
          | None => None
          end
      | _ => None
      end
  end.

(** Two paths diverge when they differ at some position both reach: a
    write at one leaves what is at the other. *)
Fixpoint diverge (p q : list string) : bool :=
  match p, q with
  | a :: p', b :: q' => if String.eqb a b then diverge p' q' else true
  | _, _ => false
  end.

(** The fields of a record, and one entry of a patch applied to them. *)
Definition doc_fields (doc : value) : dict :=
  match doc with VDict d => d | _ => [] end.

Definition patch_step (d : dict) (kv : string * value) : dict :=
  FirestoreManager.set_path d (split_on "." (fst kv)) (snd kv).

(** A field of the record of a deal, [None] when the record or the field
    is absent. *)
Definition field (s : gmap string value) (deal_id : string)
    (path : list string) : option value :=
  match s !! deal_id with
  | Some doc => get_path doc path
  | None => None
  end.

(** [metadata.status] of a deal. *)
Definition status_of (s : gmap string value) (deal_id : string)
  : option value :=
  field s deal_id ["metadata"; "status"].

(** ** The endpoints and the background task of [main.py] *)

Import FirestoreManager.

Definition status_patch (status : string) : dict :=
  [("metadata.status", VStr status)].

(** The patch of the [except] clause of [process_deal]. *)
Definition error_patch (e : exn) : dict :=
  [("metadata.status", VStr "error");
   ("metadata.error", VStr (exn_str e))].

(** The patch [process_deal] writes when every stage has returned. *)
Definition processed_patch (extracted_text public_data : value) (now : nat)
    (company founders sector : value) : dict :=
  [("extracted_text", extracted_text);
   ("public_data", public_data);
   ("metadata.status", VStr "processed");
   ("metadata.processed_at", VTime now);
   ("metadata.company_name", company);
   ("metadata.founder_names", founders);
   ("metadata.sector", sector)].

(** The [if 'pitch_deck_url' in file_urls] block: the values of
    [extracted_text] and [temp_res] after it. *)
Definition extract_stage (sv : services) (file_urls : dict)
  : result (value * value) :=
  if dict_has file_urls "pitch_deck_url" then
    gcs_path ← subscript (VDict file_urls) "pitch_deck_url";
    let pdf_data := PDFProcessor.process_pdf sv gcs_path in
    raw ← subscript pdf_data "raw";
    concise ← subscript pdf_data "concise";
    Ok (VDict [("pitch_deck", VDict [("raw", raw); ("concise", concise)])],
        pdf_data)
  else Ok (VDict [], VDict []).

(** The [try] block of [process_deal]. *)
Definition process_deal_try (sv : services) (deal_id : string)
    (file_urls : dict) : prog unit :=
  _ ← update_deal deal_id (status_patch "processing");
  '(extracted_text, temp_res) ← lift (extract_stage sv file_urls);
  deal_data ← get_deal deal_id;
  metadata ← lift (subscript deal_data "metadata");
  company_name ← lift (py_get metadata "company_name" (VStr ""));
  company ← lift (subscript temp_res "company_name_response");
  founders ← lift (subscript temp_res "founder_response");
  sector ← lift (subscript temp_res "sector_response");
  public_data ← lift (gather_data sv company founders sector);
  company' ← lift (subscript temp_res "company_name_response");
  founders' ← lift (subscript temp_res "founder_response");
  sector' ← lift (subscript temp_res "sector_response");
  update_deal deal_id
    (processed_patch extracted_text public_data (utcnow sv)
       company' founders' sector').

Definition process_deal (sv : services) (deal_id : string)
    (file_urls : dict) : prog unit :=
  try_catch (process_deal_try sv deal_id file_urls)
    (fun e => update_deal deal_id (error_patch e)).

Definition is_processed (status : value) : bool :=
  match status with
  | VStr s => String.eqb s "processed"
  | _ => false
  end.

Definition memo_response (deal_id : string)
    (memo_text docx_url all_data : value) : value :=
  VDict [("deal_id", VStr deal_id); ("memo_text", memo_text);
         ("docx_url", docx_url); ("all_data", all_data)].

(** The [try] block of [generate_memo]. *)
Definition generate_memo_try (sv : services) (deal_id : string)
    (weightage : value) : prog value :=
  deal_data ← get_deal deal_id;
  if negb (truthy deal_data) then raise (HTTPException 404 "Deal not found")
  else
    metadata ← lift (py_get deal_data "metadata" (VDict []));
    status ← lift (py_get metadata "status" VNone);
    if negb (is_processed status)
    then raise (HTTPException 400 "Deal processing not complete")
    else
      _ ← update_deal deal_id [("metadata.weightage", weightage)];
      memo_text ← lift (summarizer_generate_memo sv deal_data weightage);
      docx_url ← lift (create_memo_docx sv deal_id memo_text);
      deal_data_to_Send ← get_deal deal_id;
      _ ← update_deal deal_id
            [("memo", VDict [("draft_v1", memo_text);
                             ("docx_url", docx_url);
                             ("generated_at", VTime (utcnow sv))])];
      mret (memo_response deal_id memo_text docx_url deal_data_to_Send).

Definition generate_memo (sv : services) (deal_id : string)
    (weightage : value) : prog value :=
  try_catch (generate_memo_try sv deal_id weightage)
    (fun e => raise (HTTPException 500 (exn_str e))).

(** [background_tasks.add_task(process_deal, deal_id, file_urls)] *)
Definition add_task (deal_id : string) (file_urls : dict) : prog unit :=
  Spawn deal_id file_urls (Ret (Ok tt)).

(** [file_urls] as [upload_deal] builds it: the pitch deck, when there is
    one, is stored in the bucket. *)
Definition store_files (sv : services) (deal_id : string)
    (pitch_deck : bool) : result dict :=
  if pitch_deck then
    url ← upload_file sv ("deals/" +:+ deal_id +:+ "/pitch_deck.pdf");
    Ok [("pitch_deck_url", url)]
  else Ok [].

Definition initial_metadata (sv : services) (deal_id : string) : value :=
  VDict [("deal_id", VStr deal_id);
         ("status", VStr "uploading");
         ("created_at", VTime (utcnow sv))].

(** The [try] block of [upload_deal]; [deal_id] is the identifier drawn
    from [uuid4], [pitch_deck] tells whether the uploaded file is truthy. *)
Definition upload_deal_try (sv : services) (deal_id : string)
    (pitch_deck : bool) : prog value :=
  let metadata := initial_metadata sv deal_id in
  _ ← create_deal deal_id metadata;
  file_urls ← lift (store_files sv deal_id pitch_deck);
  _ ← update_deal deal_id [("raw_files", VDict file_urls)];
  _ ← add_task deal_id file_urls;
  mret (VDict [("deal_id", VStr deal_id);
               ("status", VStr "uploaded");
               ("files", VDict file_urls);
               ("message",
                VStr "Files uploaded successfully. Processing started.")]).

Definition upload_deal (sv : services) (deal_id : string)
    (pitch_deck : bool) : prog value :=
  try_catch (upload_deal_try sv deal_id pitch_deck)
    (fun e => raise (HTTPException 500 (exn_str e))).

(** [delete_specific_deal] *)
Definition delete_specific_deal (deal_id : string) : prog value :=
  try_catch (
    deal ← get_deal deal_id;
    if negb (truthy deal) then raise (HTTPException 404 "Deal not found")
    else
      _ ← delete_deal deal_id;
      mret (VDict [("deal_id", VStr deal_id); ("status", VStr "deleted");
                   ("message", VStr "Deal deleted successfully")]))
    (fun e => raise (HTTPException 500 (exn_str e))).

(** The stages of [process_deal] between its first write and its last,
    given the record [get_deal] returns: the patch of the final commit, or
    the exception that leaves the [try] block. *)
Definition process_stages (sv : services) (file_urls : dict)
    (deal_data : value) : result dict :=
  '(extracted_text, temp_res) ← extract_stage sv file_urls;
  metadata ← subscript deal_data "metadata";
  company_name ← py_get metadata "company_name" (VStr "");
  company ← subscript temp_res "company_name_response";
  founders ← subscript temp_res "founder_response";
  sector ← subscript temp_res "sector_response";
  public_data ← gather_data sv company founders sector;
  company' ← subscript temp_res "company_name_response";
  founders' ← subscript temp_res "founder_response";
  sector' ← subscript temp_res "sector_response";
  Ok (processed_patch extracted_text public_data (utcnow sv)
        company' founders' sector').

(** ** The reading and downloading endpoints of [main.py] *)

(** [get_processing_status].  The response schema [ProcessingStatus] is
    declared in [models/schemas.py], which is not among the sources:
    [processing_status metadata] stands for [ProcessingStatus] applied to
    the entries of [metadata] as keyword arguments. *)
Definition get_processing_status (processing_status : value -> result value)
    (deal_id : string) : prog value :=
  try_catch (
    deal_data ← get_deal deal_id;
    if negb (truthy deal_data) then raise (HTTPException 404 "Deal not found")
    else
      metadata ← lift (py_get deal_data "metadata" (VDict []));
      lift (processing_status metadata))
    (fun e => raise (HTTPException 500 (exn_str e))).

(** [fetch_specific_deal] *)
Definition fetch_specific_deal (deal_id : string) : prog value :=
  try_catch (
    deal ← get_deal deal_id;
    if negb (truthy deal) then raise (HTTPException 404 "Deal not found")
    else mret deal)
    (fun e => raise (HTTPException 500 (exn_str e))).

(** [sub in s] for two strings. *)
Fixpoint is_substring (sub s : string) : bool :=
  if String.prefix sub s then true
  else match s with
       | EmptyString => false
       | String _ s' => is_substring sub s'
       end.

(** [k in v] for a string [k]. *)
Definition py_in (k : string) (v : value) : result bool :=
  match v with
  | VDict d => Ok (dict_has d k)
  | VList l =>
      Ok (existsb (fun x => match x with
                            | VStr s => String.eqb s k
                            | _ => false
                            end) l)
  | VStr s => Ok (is_substring k s)
  | _ => Raise (TypeError ("argument of type '" +:+ type_name v
                           +:+ "' is not iterable"))
  end.

(** [StreamingResponse(body, media_type=..., headers={"Content-Disposition":
    ...})] *)
Definition streaming_response (body : value) (media_type disposition : string)
  : value :=
  VDict [("body", body); ("media_type", VStr media_type);
         ("headers", VDict [("Content-Disposition", VStr disposition)])].

Definition docx_media_type : string :=
  "application/vnd.openxmlformats-officedocument.wordprocessingml.document".

(** [download_memo]; nothing in it is inside a [try].
    [download_file gs_url local_path] stands for
    [gcs_manager.download_file(gs_url, local_path)] followed by
    [open(local_path, "rb")]: the content of the file, or the exception of
    either. *)
Definition download_memo (download_file : value -> string -> result value)
    (deal_id : string) : prog value :=
  deal_data ← get_deal deal_id;
  missing ← lift (if negb (truthy deal_data) then Ok true
                  else present ← py_in "memo" deal_data; Ok (negb present));
  if (missing : bool) then raise (HTTPException 404 "Memo not found")
  else
    memo ← lift (subscript deal_data "memo");
    gs_url ← lift (subscript memo "docx_url");
    let local_path := "/tmp/" +:+ deal_id +:+ "_memo.docx" in
    body ← lift (download_file gs_url local_path);
    mret (streaming_response body docx_media_type
            ("attachment; filename=" +:+ deal_id +:+ "_memo.docx")).

(** The exceptions [download_pitch_deck] can meet: those of [exn], a failed
    [assert] and an index out of range. *)
Inductive download_exn : Type :=
| Plain (e : exn)
| AssertionError
| IndexError (msg : string).

(** [str(e)] *)
Definition download_exn_str (e : download_exn) : string :=
  match e with
  | Plain e => exn_str e
  | AssertionError => ""
  | IndexError msg => msg
  end.

Inductive attempt (A : Type) : Type :=
| Done (a : A)
| Failed (e : download_exn).
Arguments Done {A} a.
Arguments Failed {A} e.

(** [s[n:]] *)
Fixpoint drop_chars (n : nat) (s : string) : string :=
  match n, s with
  | 0, _ => s
  | S n', String _ s' => drop_chars n' s'
  | S _, EmptyString => EmptyString
  end.

(** [s.split(sep, 1)] *)
Fixpoint split_once (sep : ascii) (s : string) : list string :=
  match s with
  | EmptyString => [""]
  | String c s' =>
      if Ascii.eqb c sep then [""; s']
      else match split_once sep s' with
           | [] => [String c EmptyString]
           | w :: ws => String c w :: ws
           end
  end.

(** [s.split("/")[-1]] *)
Definition last_segment (s : string) : string :=
  default "" (last (split_on "/" s)).

Definition has_char (c : ascii) (s : string) : bool :=
  existsb (fun a => Ascii.eqb a c) (list_ascii_of_string s).

(** The [try] block of [download_pitch_deck] after the deal is fetched.
    [download_to_file bucket_name blob_name] stands for the download of the
    object through [storage.Client()]: the bytes, or the exception of the
    client. *)
Definition download_pitch_deck_try
    (download_to_file : string -> string -> result value) (deal : value)
  : attempt value :=
  if negb (truthy deal)
  then Failed (Plain (HTTPException 404 "Deal not found"))
  else
    match py_get deal "raw_files" (VDict [])
          ≫= fun raw_files => py_get raw_files "pitch_deck_url" VNone with
    | Raise e => Failed (Plain e)
    | Ok gcs_path =>
        if negb (truthy gcs_path)
        then Failed (Plain (HTTPException 404 "Pitch deck not found"))
        else
          match gcs_path with
          | VStr s =>
              if negb (String.prefix "gs://" s) then Failed AssertionError
              else
                match split_once "/" (drop_chars 5 s) with
                | bucket_name :: blob_name :: _ =>
                    match download_to_file bucket_name blob_name with
                    | Raise e => Failed (Plain e)
                    | Ok file_stream =>
                        Done (streaming_response file_stream "application/pdf"
                                ("attachment; filename="
                                 +:+ last_segment blob_name))
                    end
                | _ => Failed (IndexError "list index out of range")
                end
          | _ => Failed (Plain (AttributeError
                                  ("'" +:+ type_name gcs_path
                                   +:+ "' object has no attribute 'startswith'")))
          end
    end.

(** [download_pitch_deck]: whatever leaves the [try] block, the
    exception of the call to the store included, is answered as HTTP 500
    with its text. *)
Definition download_pitch_deck
    (download_to_file : string -> string -> result value) (deal_id : string)
  : prog value :=
  Get deal_id (fun r =>
    Ret (match match r with
               | Ok deal => download_pitch_deck_try download_to_file deal
               | Raise e => Failed (Plain e)
               end with
         | Done response => Ok response
         | Failed e => Raise (HTTPException 500 (download_exn_str e))
         end)).

(** The patch of the last write of [generate_memo]. *)
Definition memo_patch (sv : services) (memo_text docx_url : value) : dict :=
  [("memo", VDict [("draft_v1", memo_text);
                   ("docx_url", docx_url);
                   ("generated_at", VTime (utcnow sv))])].

(** A Vision response that has no [fullTextAnnotation], only the layout:
    pages of blocks of paragraphs of words of symbols. *)
Definition symbol_json (text : string) : value := VDict [("text", VStr text)].

Definition word_json (symbols : list string) : value :=
  VDict [("symbols", VList (map symbol_json symbols))].

Definition paragraph_json (words : list (list string)) : value :=
  VDict [("words", VList (map word_json words))].

Definition block_json (paragraphs : list (list (list string))) : value :=
  VDict [("paragraphs", VList (map paragraph_json paragraphs))].

Definition page_json (blocks : list (list (list (list string)))) : value :=
  VDict [("blocks", VList (map block_json blocks))].

Definition layout_response (pages : list (list (list (list (list string)))))
  : value :=
  VDict [("pages", VList (map page_json pages))].

(** The text of a paragraph: its words, each the concatenation of its
    symbols, separated by single spaces. *)
Definition paragraph_words (words : list (list string)) : string :=
  join " " (map (join "") words).

(** The four statuses of a deal. *)
Definition is_status (s : value) : Prop :=
  s = VStr "uploading" \/ s = VStr "processing" \/
  s = VStr "processed" \/ s = VStr "error".

(** Two listings of the same artifacts that differ at most in which
    deletions fail. *)
Definition same_artifact (a b : blob) : Prop :=
  name a = name b /\ download_as_json a = download_as_json b.

(** ** The system over time *)

Definition op_id (o : store_op) : string :=
  match o with
  | Created deal_id _ => deal_id
  | Updated deal_id _ => deal_id
  | Deleted deal_id => deal_id
  end.

(** The values of [metadata.status] of a deal over time: one entry per
    write to the store after which the deal has a status. *)
Definition status_history (deal_id : string) (w : world) : list value :=
  omap (fun c => status_of (after c) deal_id) (journal w).

(** The order on statuses: uploading < processing < processed, and error
    above uploading and processing; error and processed are below nothing
    but themselves. *)
Inductive status_le : relation value :=
| status_le_refl s : status_le s s
| uploading_le_processing : status_le (VStr "uploading") (VStr "processing")
| uploading_le_processed : status_le (VStr "uploading") (VStr "processed")
| uploading_le_error : status_le (VStr "uploading") (VStr "error")
| processing_le_processed : status_le (VStr "processing") (VStr "processed")
| processing_le_error : status_le (VStr "processing") (VStr "error").

Definition initial : world := {| db := ∅; journal := []; tasks := [] |}.

Definition without_task (w : world) (rest : list (string * dict)) : world :=
  {| db := db w; journal := journal w; tasks := rest |}.

(** A request being served or a background task being run: a program
    at some point of its execution. *)
Inductive thread : Type :=
| Thread {A : Type} (p : prog A).

(** The service at one moment: the world, the programs in flight and the
    identifiers [uuid4] has drawn so far. *)
Record system : Type := {
  state : world;
  pool : list thread;
  drawn : list string
}.

Definition start : system := {| state := initial; pool := []; drawn := [] |}.

(** One step of the service.  A request arrives (an upload, with the
    identifier [uuid4] draws for it, which nothing checks against the
    identifiers in use; a generate-memo; a delete; a status poll, a fetch
    or a download), a scheduled background task starts, or one program in
    flight makes its next access to the store, which answers or raises,
    or to the task queue, or returns, or is cancelled.  Programs
    interleave at every access. *)
Inductive step : system -> system -> Prop :=
| step_upload sv deal_id pitch_deck sys :
    step sys {| state := state sys;
                pool := pool sys ++ [Thread (upload_deal sv deal_id pitch_deck)];
                drawn := deal_id :: drawn sys |}
| step_generate_memo sv deal_id weightage sys :
    step sys {| state := state sys;
                pool := pool sys ++ [Thread (generate_memo sv deal_id weightage)];
                drawn := drawn sys |}
| step_delete deal_id sys :
    step sys {| state := state sys;
                pool := pool sys ++ [Thread (delete_specific_deal deal_id)];
                drawn := drawn sys |}
| step_status processing_status deal_id sys :
    step sys {| state := state sys;
                pool := pool sys
                        ++ [Thread (get_processing_status processing_status
                                      deal_id)];
                drawn := drawn sys |}
| step_fetch deal_id sys :
    step sys {| state := state sys;
                pool := pool sys ++ [Thread (fetch_specific_deal deal_id)];
                drawn := drawn sys |}
| step_download_memo download_file deal_id sys :
    step sys {| state := state sys;
                pool := pool sys
                        ++ [Thread (download_memo download_file deal_id)];
                drawn := drawn sys |}
| step_download_pitch_deck download_to_file deal_id sys :
    step sys {| state := state sys;
                pool := pool sys
                        ++ [Thread (download_pitch_deck download_to_file
                                      deal_id)];
                drawn := drawn sys |}
| step_start_task sv deal_id file_urls earlier later sys :
    tasks (state sys) = earlier ++ (deal_id, file_urls) :: later ->
    step sys {| state := without_task (state sys) (earlier ++ later);
                pool := pool sys ++ [Thread (process_deal sv deal_id file_urls)];
                drawn := drawn sys |}
| step_get {A} deal_id (k : result value -> prog A) before behind sys :
    pool sys = before ++ Thread (Get deal_id k) :: behind ->
    step sys {| state := state sys;
                pool := before
                        ++ Thread (k (Ok (FirestoreManager.read (state sys)
                                            deal_id)))
                        :: behind;
                drawn := drawn sys |}
| step_get_fails {A} deal_id (k : result value -> prog A) e before behind sys :
    pool sys = before ++ Thread (Get deal_id k) :: behind ->
    step sys {| state := state sys;
                pool := before ++ Thread (k (Raise e)) :: behind;
                drawn := drawn sys |}
| step_put {A} o (k : result unit -> prog A) before behind sys :
    pool sys = before ++ Thread (Put o k) :: behind ->
    step sys {| state := FirestoreManager.write (state sys) o;
                pool := before ++ Thread (k (Ok tt)) :: behind;
                drawn := drawn sys |}
| step_put_fails {A} o (k : result unit -> prog A) e before behind sys :
    pool sys = before ++ Thread (Put o k) :: behind ->
    step sys {| state := state sys;
                pool := before ++ Thread (k (Raise e)) :: behind;
                drawn := drawn sys |}
| step_spawn {A} deal_id file_urls (k : prog A) before behind sys :
    pool sys = before ++ Thread (Spawn deal_id file_urls k) :: behind ->
    step sys {| state := with_task (state sys) deal_id file_urls;
                pool := before ++ Thread k :: behind;
                drawn := drawn sys |}
| step_return {A} (r : result A) before behind sys :
    pool sys = before ++ Thread (Ret r) :: behind ->
    step sys {| state := state sys;
                pool := before ++ behind;
                drawn := drawn sys |}
| step_cancel t before behind sys :
    pool sys = before ++ t :: behind ->
    step sys {| state := state sys;
                pool := before ++ behind;
                drawn := drawn sys |}.

Inductive reachable : system -> Prop :=
| reachable_start : reachable start
| reachable_step sys sys' : reachable sys -> step sys sys' -> reachable sys'.

(** *** What a program in flight may still write *)

(** A write after which every deal has the status it had, or none. *)
Definition keeps_status (o : store_op) : Prop :=
  forall s other,
    status_of (FirestoreManager.apply_op s o) other = status_of s other \/
    status_of (FirestoreManager.apply_op s o) other = None.

(** A write that gives its deal the status [status]. *)
Definition sets_status (o : store_op) (status : string) : Prop :=
  forall s, status_of (FirestoreManager.apply_op s o) (op_id o)
            = Some (VStr status).

(** A program that changes no status and schedules nothing, whatever the
    store answers. *)
Inductive quiet {A} : prog A -> Prop :=
| quiet_ret r : quiet (Ret r)
| quiet_get deal_id k : (forall r, quiet (k r)) -> quiet (Get deal_id k)
| quiet_put o k :
    keeps_status o -> (forall r, quiet (k r)) -> quiet (Put o k).

(** A background task that has not yet given its deal its last status:
    it reads, and sets the status of its deal to [processed] or to
    [error]; once such a write is made it writes no status again, and
    when the write raises it may try another. *)
Inductive finishing {A} (deal_id : string) : prog A -> Prop :=
| finishing_ret r : finishing deal_id (Ret r)
| finishing_get other k :
    (forall r, finishing deal_id (k r)) -> finishing deal_id (Get other k)
| finishing_put o k status :
    op_id o = deal_id -> sets_status o status ->
    status = "processed" \/ status = "error" ->
    quiet (k (Ok tt)) ->
    (forall e, finishing deal_id (k (Raise e))) ->
    finishing deal_id (Put o k).

(** An upload after it has created its deal: it changes no status and
    at most once schedules the task of its deal. *)
Inductive announcing {A} (deal_id : string) : prog A -> Prop :=
| announcing_ret r : announcing deal_id (Ret r)
| announcing_get other k :
    (forall r, announcing deal_id (k r)) -> announcing deal_id (Get other k)
| announcing_put o k :
    keeps_status o -> (forall r, announcing deal_id (k r)) ->
    announcing deal_id (Put o k)
| announcing_spawn file_urls k :
    quiet k -> announcing deal_id (Spawn deal_id file_urls k).

(** The part a program in flight plays for the status of a deal. *)
Inductive role : Type :=
| Quiet
| Creating (deal_id : string)
| Announcing (deal_id : string)
| Starting (deal_id : string)
| Finishing (deal_id : string).

Definition plays (r : role) (t : thread) : Prop :=
  match t with
  | Thread p =>
      match r with
      | Quiet => quiet p
      | Creating deal_id =>
          exists o k, p = Put o k /\ op_id o = deal_id /\
                      sets_status o "uploading" /\
                      announcing deal_id (k (Ok tt)) /\
                      forall e, quiet (k (Raise e))
      | Announcing deal_id => announcing deal_id p
      | Starting deal_id =>
          exists o k, p = Put o k /\ op_id o = deal_id /\
                      sets_status o "processing" /\
                      forall r, finishing deal_id (k r)
      | Finishing deal_id => finishing deal_id p
      end
  end.

(** The deal whose status a role may still change. *)
Definition owner (r : role) : option string :=
  match r with
  | Quiet => None
  | Creating deal_id => Some deal_id
  | Announcing deal_id => Some deal_id
  | Starting deal_id => Some deal_id
  | Finishing deal_id => Some deal_id
  end.

(** The statuses the deal of a role can have had so far. *)
Definition allowed (r : role) (s : value) : Prop :=
  match r with
  | Quiet => True
  | Creating _ => False
  | Announcing _ => s = VStr "uploading"
  | Starting _ => s = VStr "uploading"
  | Finishing _ => s = VStr "uploading" \/ s = VStr "processing"
  end.

(** The deals that have an upload or a background task ahead of them or
    under way. *)
Definition holders (roles : list role) (queue : list (string * dict))
  : list string :=
  omap owner roles ++ map fst queue.

(** What holds of the world at every moment. *)
Record winv (w : world) : Prop := {
  winv_sorted :
    forall deal_id, Sorted status_le (status_history deal_id w);
  winv_current :
    forall deal_id s,
      status_of (db w) deal_id = Some s ->
      last (status_history deal_id w) = Some s
}.

(** What holds of the service at every moment, for some assignment of
    roles to the programs in flight. *)
Record sinv (sys : system) (roles : list role) : Prop := {
  sinv_plays : Forall2 plays roles (pool sys);
  sinv_world : winv (state sys);
  sinv_fresh :
    forall deal_id,
      deal_id ∉ drawn sys -> status_history deal_id (state sys) = [];
  sinv_nodup : NoDup (holders roles (tasks (state sys)));
  sinv_drawn :
    forall deal_id,
      deal_id ∈ holders roles (tasks (state sys)) -> deal_id ∈ drawn sys;
  sinv_roles :
    forall r deal_id,
      r ∈ roles -> owner r = Some deal_id ->
      Forall (allowed r) (status_history deal_id (state sys));
  sinv_tasks :
    forall deal_id file_urls,
      (deal_id, file_urls) ∈ tasks (state sys) ->
      Forall (fun s => s = VStr "uploading")
        (status_history deal_id (state sys))
}.

(** ** Pages of a document, as the response loop sees them *)

Definition is_json (b : blob) : bool := endswith (name b) ".json".

(** The stripped text of one page: empty for a page without text. *)
Definition stripped_page (resp : value) : result string :=
  PDFProcessor.page_text_of resp ≫= py_strip.

(** The stripped page texts of one artifact, in the order of its
    responses. *)
Definition blob_pages (b : blob) : result (list string) :=
  data ← download_as_json b;
  responses ← py_get data "responses" (VList []) ≫= iter;
  mapM stripped_page responses.

(** The stripped page texts of a sequence of artifacts, one after the
    other. *)
Definition pages_in_order (bs : list blob) : result (list string) :=
  pss ← mapM blob_pages bs; Ok (concat pss).

(** [texts if texts else [""]] *)
Definition or_single_empty (texts : list string) : list string :=
  match texts with
  | [] => [""]
  | _ => texts
  end.

Definition name_le (a b : blob) : Prop := String.le (name a) (name b).

(** ** Sample data *)

Definition page (text : string) : value :=
  VDict [("fullTextAnnotation", VDict [("text", VStr text)])].

Definition json_blob (n : string) (responses : list value) : blob :=
  {| name := n;
     download_as_json := Ok (VDict [("responses", VList responses)]);
     delete_raises := false |}.

Definition sample_summary : value :=
  VDict [("summary_res", VStr "A seed-stage payments company.");
         ("founder_response", VStr "A. Rao");
         ("sector_response", VStr "fintech");
         ("company_name_response", VStr "Paylane")].

(** Services that all answer; the OCR job yields [listing]. *)
Definition sample_services (listing : result (list blob)) : services :=
  {| vision_ocr := fun _ => listing;
     summarize_pitch_deck := fun _ => Ok sample_summary;
     gather_data := fun _ _ _ => Ok (VDict [("news", VList [])]);
     summarizer_generate_memo := fun _ _ => Ok (VStr "Investment memo");
     create_memo_docx := fun deal_id _ =>
       Ok (VStr ("gs://bucket/memos/" +:+ deal_id +:+ ".docx"));
     upload_file := fun path => Ok (VStr ("gs://bucket/" +:+ path));
     utcnow := 0 |}.

Definition deck : value := VStr "gs://bucket/deals/3fa9c1/pitch_deck.pdf".

(** A three-page deck whose second page is blank, in one artifact. *)
Definition blank_page_listing : list blob :=
  [json_blob "output-1-to-3.json" [page "A"; VDict []; page "B"]].

(** A twelve-page deck written as three artifacts, listed in the order
    they were created, beside an object that is not an OCR output. *)
Definition three_artifacts : list blob :=
  [json_blob "output-1-to-5.json" [page "p1"];
   json_blob "output-6-to-10.json" [page "p6"];
   {| name := "manifest.txt";
      download_as_json := Raise (UpstreamError "not JSON");
      delete_raises := false |};
   json_blob "output-11-to-12.json" [page "p11"]].

Definition three_artifacts_relisted : list blob :=
  [json_blob "output-11-to-12.json" [page "p11"];
   json_blob "output-6-to-10.json" [page "p6"];
   json_blob "output-1-to-5.json" [page "p1"]].

Definition ocr_timeout : result (list blob) :=
  Raise (UpstreamError "Operation did not complete within the designated timeout.").

(** The same services, with a search backend that fails. *)
Definition enrichment_down (listing : result (list blob)) : services :=
  {| vision_ocr := fun _ => listing;
     summarize_pitch_deck := fun _ => Ok sample_summary;
     gather_data := fun _ _ _ => Raise (UpstreamError "search quota exceeded");
     summarizer_generate_memo := fun _ _ => Ok (VStr "Investment memo");
     create_memo_docx := fun deal_id _ =>
       Ok (VStr ("gs://bucket/memos/" +:+ deal_id +:+ ".docx"));
     upload_file := fun path => Ok (VStr ("gs://bucket/" +:+ path));
     utcnow := 0 |}.

Definition two_pages : list blob :=
  [json_blob "output-1-to-2.json" [page "Paylane"; page "Team"]].

Definition deck_urls : dict := [("pitch_deck_url", deck)].

(** The world after one upload, before its background task has run. *)
Definition uploaded : world :=
  fst (upload_deal (sample_services (Ok two_pages)) "3fa9c1" true initial).

(** The same deal once its task has run, with every service answering,
    with the search backend failing, and with the OCR job timing out. *)
Definition processed : world :=
  fst (process_deal (sample_services (Ok two_pages)) "3fa9c1" deck_urls
         (without_task uploaded [])).

Definition failed_enrichment : world :=
  fst (process_deal (enrichment_down (Ok two_pages)) "3fa9c1" deck_urls
         (without_task uploaded [])).

Definition weights : value :=
  VDict [("team", VNum 30); ("market", VNum 30); ("product", VNum 40)].

(** Services whose summarizer is down. *)
Definition summarizer_down (listing : result (list blob)) : services :=
  {| vision_ocr := fun _ => listing;
     summarize_pitch_deck := fun _ => Raise (UpstreamError "model overloaded");
     gather_data := fun _ _ _ => Ok (VDict [("news", VList [])]);
     summarizer_generate_memo := fun _ _ =>
       Raise (UpstreamError "model overloaded");
     create_memo_docx := fun deal_id _ =>
       Ok (VStr ("gs://bucket/memos/" +:+ deal_id +:+ ".docx"));
     upload_file := fun path => Ok (VStr ("gs://bucket/" +:+ path));
     utcnow := 0 |}.

(** Services whose bucket refuses the upload. *)
Definition storage_down : services :=
  {| vision_ocr := fun _ => Ok [];
     summarize_pitch_deck := fun _ => Ok sample_summary;
     gather_data := fun _ _ _ => Ok (VDict [("news", VList [])]);
     summarizer_generate_memo := fun _ _ => Ok (VStr "Investment memo");
     create_memo_docx := fun deal_id _ =>
       Ok (VStr ("gs://bucket/memos/" +:+ deal_id +:+ ".docx"));
     upload_file := fun _ => Raise (UpstreamError "403 Forbidden");
     utcnow := 0 |}.

Ltac res_simpl := cbn [mbind mret result_bind result_ret].

Ltac prog_simpl :=
  cbn [exec bind try_catch mbind mret prog_bind prog_ret result_bind
       result_ret lift raise add_task
       FirestoreManager.get_deal FirestoreManager.update_deal
       FirestoreManager.create_deal FirestoreManager.delete_deal].

(** ** Extraction: lemmas *)

Section Extraction.

Import PDFProcessor.

Lemma filter_nonempty_app (l1 l2 : list string) :
  List.filter nonempty (l1 ++ l2)
  = List.filter nonempty l1 ++ List.filter nonempty l2.
Proof. apply List.filter_app. Qed.

Lemma add_page_stripped (texts : list string) (r : value) :
  add_page texts r
  = (s ← stripped_page r;
     Ok (if nonempty s then texts ++ [s] else texts)).
Proof.
  unfold add_page, stripped_page.
  destruct (page_text_of r) as [pt|e]; res_simpl; done.
Qed.

(** The response loop appends the non-blank stripped pages. *)
Lemma for_each_add_page (rs : list value) (texts : list string) :
  for_each add_page texts rs
  = (ps ← mapM stripped_page rs; Ok (texts ++ List.filter nonempty ps)).
Proof.
  revert texts. induction rs as [|r rs IH]; intros texts.
  - cbn. by rewrite app_nil_r.
  - change (for_each add_page texts (r :: rs))
      with (add_page texts r ≫= fun acc => for_each add_page acc rs).
    change (mapM stripped_page (r :: rs))
      with (stripped_page r ≫= fun y =>
            mapM stripped_page rs ≫= fun k => mret (y :: k)).
    rewrite add_page_stripped.
    destruct (stripped_page r) as [s|e]; res_simpl; [|done].
    rewrite IH. destruct (mapM stripped_page rs) as [ps|e]; res_simpl; [|done].
    destruct s; cbn [nonempty List.filter]; [done|].
    by rewrite <- app_assoc.
Qed.

Lemma read_blob_pages (b : blob) (texts : list string) :
  read_blob texts b
  = (ps ← blob_pages b; Ok (texts ++ List.filter nonempty ps)).
Proof.
  unfold read_blob, blob_pages.
  destruct (download_as_json b) as [data|e]; res_simpl; [|done].
  destruct (py_get data "responses" (VList [])) as [rs|e]; res_simpl; [|done].
  destruct (iter rs) as [items|e]; res_simpl; [|done].
  apply for_each_add_page.
Qed.

Lemma pages_in_order_cons (b : blob) (bs : list blob) :
  pages_in_order (b :: bs)
  = (ps ← blob_pages b; qs ← pages_in_order bs; Ok (ps ++ qs)).
Proof.
  unfold pages_in_order.
  change (mapM blob_pages (b :: bs))
    with (blob_pages b ≫= fun y =>
          mapM blob_pages bs ≫= fun k => mret (y :: k)).
  destruct (blob_pages b) as [ps|e]; res_simpl; [|done].
  destruct (mapM blob_pages bs) as [pss|e]; res_simpl; done.
Qed.

(** The blob loop reads the JSON artifacts in the order it is given
    them and skips the others. *)
Lemma read_blobs_pages (bs : list blob) (texts deleted : list string) :
  snd (read_blobs bs texts deleted)
  = (ps ← pages_in_order (List.filter is_json bs);
     Ok (texts ++ List.filter nonempty ps)).
Proof.
  revert texts deleted. induction bs as [|b bs IH]; intros texts deleted.
  - cbn. by rewrite app_nil_r.
  - cbn [read_blobs List.filter]. unfold is_json at 1.
    destruct (endswith (name b) ".json"); cbn [negb].
    + rewrite read_blob_pages, pages_in_order_cons.
      destruct (blob_pages b) as [ps|e]; res_simpl; [|done].
      rewrite IH.
      destruct (pages_in_order (List.filter is_json bs)) as [qs|e];
        res_simpl; [|done].
      by rewrite filter_nonempty_app, app_assoc.
    + apply IH.
Qed.

Lemma snd_extract_try sv p :
  snd (extract_try sv p)
  = (listing ← vision_ocr sv p;
     ps ← pages_in_order (List.filter is_json (sorted_by_name listing));
     Ok (or_single_empty (List.filter nonempty ps))).
Proof.
  unfold extract_try. destruct (vision_ocr sv p) as [listing|e]; [|done].
  res_simpl.
  pose proof (read_blobs_pages (sorted_by_name listing) [] []) as H.
  destruct (read_blobs (sorted_by_name listing) [] []) as [del [texts|e]];
    destruct (pages_in_order _) as [ps|e']; cbn in H;
    try discriminate; inversion H; subst; done.
Qed.

(** *** The sort on artifact names *)

#[local] Instance name_le_trans : Transitive name_le.
Proof. intros a b c Hab Hbc. unfold name_le in *. by etrans. Qed.

Lemma name_le_total (a b : blob) : name_le a b \/ name_le b a.
Proof. unfold name_le. destruct (total String.le (name a) (name b)); auto. Qed.

Lemma insert_by_name_perm (b : blob) (l : list blob) :
  insert_by_name b l ≡ₚ b :: l.
Proof.
  induction l as [|c l IH]; cbn [insert_by_name]; [done|].
  destruct (String.leb (name b) (name c)); [done|].
  rewrite IH. apply Permutation_swap.
Qed.

Lemma sorted_by_name_perm (l : list blob) : sorted_by_name l ≡ₚ l.
Proof.
  induction l as [|b l IH]; cbn [sorted_by_name]; [done|].
  by rewrite insert_by_name_perm, IH.
Qed.

Lemma insert_by_name_hd (a b : blob) (l : list blob) :
  name_le a b -> HdRel name_le a l -> HdRel name_le a (insert_by_name b l).
Proof.
  intros Hab Hl. destruct l as [|c l]; cbn [insert_by_name].
  - by constructor.
  - destruct (String.leb (name b) (name c)); constructor; [done|].
    by inversion Hl.
Qed.

Lemma insert_by_name_sorted (b : blob) (l : list blob) :
  Sorted name_le l -> Sorted name_le (insert_by_name b l).
Proof.
  induction 1 as [|c l Hs IH Hhd]; cbn [insert_by_name].
  - by repeat constructor.
  - destruct (String.leb (name b) (name c)) eqn:Hle.
    + constructor; [by constructor|]. constructor.
      unfold name_le, String.le. by rewrite Hle.
    + constructor; [done|]. apply insert_by_name_hd; [|done].
      destruct (name_le_total c b) as [H|H]; [done|].
      unfold name_le, String.le in H. by rewrite Hle in H.
Qed.

Lemma sorted_by_name_sorted (l : list blob) :
  StronglySorted name_le (sorted_by_name l).
Proof.
  apply Sorted_StronglySorted; [apply _|].
  induction l as [|b l IH]; cbn [sorted_by_name]; [constructor|].
  by apply insert_by_name_sorted.
Qed.

(** Filtering keeps a sorted list sorted. *)
Lemma filter_sorted (f : blob -> bool) (l : list blob) :
  StronglySorted name_le l -> StronglySorted name_le (List.filter f l).
Proof.
  induction 1 as [|b l Hs IH Hall]; cbn [List.filter]; [constructor|].
  destruct (f b); [|done]. constructor; [done|].
  rewrite Forall_forall in *. intros c Hc. apply Hall.
  apply list_elem_of_In in Hc. apply list_elem_of_In.
  apply List.filter_In in Hc. tauto.
Qed.

Lemma filter_perm (f : blob -> bool) (l1 l2 : list blob) :
  l1 ≡ₚ l2 -> List.filter f l1 ≡ₚ List.filter f l2.
Proof.
  induction 1 as [|x l1 l2 _ IH|x y l|l1 l2 l3 _ IH1 _ IH2];
    cbn [List.filter].
  - done.
  - destruct (f x); by rewrite IH.
  - destruct (f x), (f y); try done. apply Permutation_swap.
  - by etrans.
Qed.

(** With distinct names, which artifacts are read and in which order
    does not depend on the order of the listing. *)
Lemma read_order_unique (l1 l2 : list blob) :
  NoDup (map name (List.filter is_json l1)) ->
  List.filter is_json l1 ≡ₚ List.filter is_json l2 ->
  List.filter is_json (sorted_by_name l1)
  = List.filter is_json (sorted_by_name l2).
Proof.
  intros Hnd Hperm.
  assert (Hp1 : List.filter is_json (sorted_by_name l1)
                ≡ₚ List.filter is_json l1)
    by apply filter_perm, sorted_by_name_perm.
  assert (Hp2 : List.filter is_json (sorted_by_name l2)
                ≡ₚ List.filter is_json l2)
    by apply filter_perm, sorted_by_name_perm.
  apply (StronglySorted_unique_strong name_le).
  - intros x1 x2 Hx1 Hx2 H12 H21.
    assert (Hn : name x1 = name x2)
      by (apply (anti_symm String.le); done).
    rewrite Hp1 in Hx1. rewrite Hp2, <- Hperm in Hx2.
    clear -Hnd Hx1 Hx2 Hn.
    induction (List.filter is_json l1) as [|b l IH]; [by inversion Hx1|].
    cbn [map] in Hnd. apply NoDup_cons in Hnd as [Hnotin Hnd].
    apply elem_of_cons in Hx1 as [->|Hx1];
      apply elem_of_cons in Hx2 as [->|Hx2]; auto.
    + exfalso. apply Hnotin. rewrite Hn. by apply list_elem_of_fmap_2.
    + exfalso. apply Hnotin. rewrite <- Hn. by apply list_elem_of_fmap_2.
  - apply filter_sorted, sorted_by_name_sorted.
  - apply filter_sorted, sorted_by_name_sorted.
  - by rewrite Hp1, Hp2.
Qed.

End Extraction.

(** ** Extraction: the properties *)

(** C9: for every input [_extract_text_from_pdf] returns a list with a
    first page; when an exception occurs inside its [try] block, or when
    reading the artifacts yields no text at all, the result is exactly the
    one-element list holding the empty string. *)
Theorem extract_text_never_empty (sv : services) (gcs_path : value) :
  (exists first rest,
      PDFProcessor._extract_text_from_pdf sv gcs_path = first :: rest) /\
  (forall e, snd (PDFProcessor.extract_try sv gcs_path) = Raise e ->
             PDFProcessor._extract_text_from_pdf sv gcs_path = [""]) /\
  (forall listing,
      vision_ocr sv gcs_path = Ok listing ->
      snd (PDFProcessor.read_blobs (PDFProcessor.sorted_by_name listing) [] [])
      = Ok [] ->
      PDFProcessor._extract_text_from_pdf sv gcs_path = [""]).
Proof.
  unfold PDFProcessor._extract_text_from_pdf. split; [|split].
  - rewrite snd_extract_try.
    destruct (vision_ocr sv gcs_path) as [listing|e]; res_simpl; [|by eauto].
    destruct (pages_in_order _) as [ps|e]; res_simpl; [|by eauto].
    destruct (List.filter nonempty ps); cbn; eauto.
  - intros e He. by rewrite He.
  - intros listing Hocr Hread. unfold PDFProcessor.extract_try.
    rewrite Hocr.
    destruct (PDFProcessor.read_blobs _ [] []) as [del r].
    cbn [snd] in Hread. by subst r.
Qed.

Lemma extract_text_never_empty_witness :
  (snd (PDFProcessor.extract_try (sample_services ocr_timeout) deck)
   = Raise (UpstreamError
              "Operation did not complete within the designated timeout.")
   /\ PDFProcessor._extract_text_from_pdf (sample_services ocr_timeout) deck
      = [""]) /\
  (vision_ocr (sample_services (Ok [json_blob "output-1-to-1.json" [VDict []]]))
     deck = Ok [json_blob "output-1-to-1.json" [VDict []]]
   /\ PDFProcessor._extract_text_from_pdf
        (sample_services (Ok [json_blob "output-1-to-1.json" [VDict []]])) deck
      = [""]).
Proof.
  split; (split; [reflexivity|]).
  - exact (proj1 (proj2 (extract_text_never_empty
                           (sample_services ocr_timeout) deck))
             _ eq_refl).
  - exact (proj2 (proj2 (extract_text_never_empty
             (sample_services (Ok [json_blob "output-1-to-1.json" [VDict []]]))
             deck))
             _ eq_refl eq_refl).
Defined.

(** C4, as the code has it: a page without text contributes no entry to
    the returned sequence.  The result is the stripped texts of the pages
    that have text, in the order of the artifacts by name and of the
    responses inside each artifact; when no page has text it is the single
    empty string.  A blank page does not fail the batch. *)
Theorem extract_text_skips_blank_pages (sv : services) (gcs_path : value)
    (listing : list blob) (pages : list string) :
  vision_ocr sv gcs_path = Ok listing ->
  pages_in_order (List.filter is_json (PDFProcessor.sorted_by_name listing))
  = Ok pages ->
  PDFProcessor._extract_text_from_pdf sv gcs_path
  = or_single_empty (List.filter nonempty pages).
Proof.
  intros Hocr Hpages. unfold PDFProcessor._extract_text_from_pdf.
  rewrite snd_extract_try, Hocr. res_simpl. by rewrite Hpages.
Qed.

Lemma extract_text_skips_blank_pages_witness :
  PDFProcessor._extract_text_from_pdf
    (sample_services (Ok blank_page_listing)) deck
  = or_single_empty (List.filter nonempty ["A"; ""; "B"]).
Proof.
  apply (extract_text_skips_blank_pages
           (sample_services (Ok blank_page_listing)) deck blank_page_listing);
    reflexivity.
Defined.

(** C4, as stated, fails: of the three pages "A", blank, "B" the call
    returns two texts, and the second entry is "B", not the empty string. *)
Lemma blank_page_is_dropped :
  vision_ocr (sample_services (Ok blank_page_listing)) deck
  = Ok blank_page_listing /\
  pages_in_order
    (List.filter is_json (PDFProcessor.sorted_by_name blank_page_listing))
  = Ok ["A"; ""; "B"] /\
  PDFProcessor._extract_text_from_pdf
    (sample_services (Ok blank_page_listing)) deck = ["A"; "B"] /\
  PDFProcessor._extract_text_from_pdf
    (sample_services (Ok blank_page_listing)) deck <> ["A"; ""; "B"].
Proof. repeat split; try reflexivity. discriminate. Qed.

(** C8: the artifacts of the OCR job are read in the order of their names,
    compared as strings, whatever the order of the listing, and an artifact
    whose name does not end in [.json] is not read: the result depends
    only on the JSON artifacts, taken by ascending name. *)
Theorem artifacts_read_in_name_order (sv : services) (gcs_path : value)
    (listing : list blob) :
  vision_ocr sv gcs_path = Ok listing ->
  PDFProcessor.sorted_by_name listing ≡ₚ listing /\
  StronglySorted name_le (PDFProcessor.sorted_by_name listing) /\
  PDFProcessor._extract_text_from_pdf sv gcs_path
  = match pages_in_order
            (List.filter is_json (PDFProcessor.sorted_by_name listing)) with
    | Ok pages => or_single_empty (List.filter nonempty pages)
    | Raise _ => [""]
    end /\
  (forall sv' listing',
      vision_ocr sv' gcs_path = Ok listing' ->
      NoDup (map name (List.filter is_json listing)) ->
      List.filter is_json listing ≡ₚ List.filter is_json listing' ->
      PDFProcessor._extract_text_from_pdf sv' gcs_path
      = PDFProcessor._extract_text_from_pdf sv gcs_path).
Proof.
  intros Hocr. split; [apply sorted_by_name_perm|].
  split; [apply sorted_by_name_sorted|].
  assert (Hform : forall sv0 l0, vision_ocr sv0 gcs_path = Ok l0 ->
    PDFProcessor._extract_text_from_pdf sv0 gcs_path
    = match pages_in_order
              (List.filter is_json (PDFProcessor.sorted_by_name l0)) with
      | Ok pages => or_single_empty (List.filter nonempty pages)
      | Raise _ => [""]
      end).
  { intros sv0 l0 H0. unfold PDFProcessor._extract_text_from_pdf.
    rewrite snd_extract_try, H0. res_simpl.
    by destruct (pages_in_order _). }
  split; [by apply Hform|].
  intros sv' listing' Hocr' Hnd Hperm.
  rewrite (Hform _ _ Hocr), (Hform _ _ Hocr').
  by rewrite (read_order_unique listing listing').
Qed.

Lemma artifacts_read_in_name_order_witness :
  PDFProcessor._extract_text_from_pdf
    (sample_services (Ok three_artifacts)) deck = ["p1"; "p11"; "p6"] /\
  PDFProcessor._extract_text_from_pdf
    (sample_services (Ok three_artifacts_relisted)) deck
  = PDFProcessor._extract_text_from_pdf
      (sample_services (Ok three_artifacts)) deck.
Proof.
  pose proof (artifacts_read_in_name_order
                (sample_services (Ok three_artifacts)) deck three_artifacts
                eq_refl) as (_ & _ & Hread & Hany).
  split.
  - rewrite Hread. reflexivity.
  - apply (Hany (sample_services (Ok three_artifacts_relisted))
             three_artifacts_relisted eq_refl).
    + apply (bool_decide_unpack _). vm_compute. exact I.
    + exact (Permutation_rev (List.filter is_json three_artifacts)).
Defined.

(** ** The Deal Store: lemmas *)

Section Store.

Import FirestoreManager.

Lemma dict_get_set_eq (d : dict) (k : string) (v : value) :
  dict_get (dict_set d k v) k = Some v.
Proof.
  induction d as [|[k' v'] d IH]; cbn [dict_set dict_get].
  - by rewrite String.eqb_refl.
  - destruct (String.eqb k' k) eqn:E; cbn [dict_get]; by rewrite E.
Qed.

Lemma dict_get_set_ne (d : dict) (k k' : string) (v : value) :
  k <> k' -> dict_get (dict_set d k v) k' = dict_get d k'.
Proof.
  intros Hne. induction d as [|[k0 v0] d IH]; cbn [dict_set dict_get].
  - destruct (String.eqb k k') eqn:E; [|done].
    by apply String.eqb_eq in E.
  - destruct (String.eqb k0 k) eqn:E; cbn [dict_get]; [|by rewrite IH].
    apply String.eqb_eq in E. subst k0.
    destruct (String.eqb k k') eqn:E'; [|done].
    by apply String.eqb_eq in E'.
Qed.

Lemma get_path_nondict (v : value) (q : list string) :
  q <> [] -> (forall d, v <> VDict d) -> get_path v q = None.
Proof. destruct q; [done|]. intros _ H. destruct v; try done. by destruct (H d). Qed.

Lemma get_path_empty_dict (q : list string) : q <> [] -> get_path (VDict []) q = None.
Proof. by destruct q. Qed.

Lemma get_set_path_same (d : dict) (p : list string) (v : value) :
  p <> [] -> get_path (VDict (set_path d p v)) p = Some v.
Proof.
  revert d. induction p as [|k p IH]; intros d Hne; [done|].
  destruct p as [|k' p].
  - cbn [set_path get_path]. by rewrite dict_get_set_eq.
  - change (set_path d (k :: k' :: p) v)
      with (dict_set d k (VDict (set_path
              (match dict_get d k with Some (VDict sub) => sub | _ => [] end)
              (k' :: p) v))).
    cbn [get_path]. rewrite dict_get_set_eq. by apply IH.
Qed.

(** Writing at a path leaves what is stored at a diverging path alone. *)
Lemma get_set_path_diverge (d : dict) (p q : list string) (v : value) :
  diverge p q = true ->
  get_path (VDict (set_path d p v)) q = get_path (VDict d) q.
Proof.
  revert d q. induction p as [|a p IH]; intros d q Hdiv; [done|].
  destruct q as [|b q]; [done|]. cbn [diverge] in Hdiv.
  destruct (String.eqb a b) eqn:Eab.
  - apply String.eqb_eq in Eab. subst b.
    destruct p as [|a' p]; [done|].
    change (set_path d (a :: a' :: p) v)
      with (dict_set d a (VDict (set_path
              (match dict_get d a with Some (VDict sub) => sub | _ => [] end)
              (a' :: p) v))).
    cbn [get_path]. rewrite dict_get_set_eq.
    assert (Hq : q <> []) by (destruct q; [by destruct p|done]).
    rewrite IH by done.
    destruct (dict_get d a) as [x|].
    + destruct x; try (by rewrite get_path_empty_dict, get_path_nondict).
      done.
    + by apply get_path_empty_dict.
  - assert (Hne : a <> b) by (intros ->; by rewrite String.eqb_refl in Eab).
    destruct p as [|a' p].
    + cbn [set_path get_path]. by rewrite dict_get_set_ne.
    + change (set_path d (a :: a' :: p) v)
        with (dict_set d a (VDict (set_path
                (match dict_get d a with Some (VDict sub) => sub | _ => [] end)
                (a' :: p) v))).
      cbn [get_path]. by rewrite dict_get_set_ne.
Qed.

Lemma merge_patch_fold (doc : value) (patch : dict) :
  merge_patch doc patch = VDict (fold_left patch_step patch (doc_fields doc)).
Proof. reflexivity. Qed.

Lemma get_path_doc_fields (doc : value) (q : list string) :
  q <> [] -> get_path (VDict (doc_fields doc)) q = get_path doc q.
Proof.
  intros Hq. destruct doc; cbn [doc_fields]; try done;
    by rewrite get_path_empty_dict, get_path_nondict.
Qed.

(** A merge leaves every field alone whose path diverges from all the
    paths of the patch. *)
Lemma merge_patch_diverge (doc : value) (patch : dict) (q : list string) :
  forallb (fun kv => diverge (split_on "." (fst kv)) q) patch = true ->
  q <> [] ->
  get_path (merge_patch doc patch) q = get_path doc q.
Proof.
  intros Hall Hq. rewrite merge_patch_fold, <- (get_path_doc_fields doc q Hq).
  generalize (doc_fields doc) as d. clear doc.
  induction patch as [|kv patch IH]; intros d; [done|].
  cbn [forallb] in Hall. apply andb_prop in Hall as [Hkv Hall].
  cbn [fold_left]. rewrite IH by done. unfold patch_step.
  by apply get_set_path_diverge.
Qed.

(** The last entry of a patch for a path decides what is read there, when
    the later entries diverge from it. *)
Lemma merge_patch_written (doc : value) (before later : dict)
    (k : string) (v : value) :
  split_on "." k <> [] ->
  forallb (fun kv => diverge (split_on "." (fst kv)) (split_on "." k)) later
  = true ->
  get_path (merge_patch doc (before ++ (k, v) :: later)) (split_on "." k)
  = Some v.
Proof.
  intros Hk Hall. rewrite merge_patch_fold, fold_left_app. cbn [fold_left].
  generalize (fold_left patch_step before (doc_fields doc)) as d.
  intros d. unfold patch_step at 2. cbn [fst snd].
  assert (H : get_path (VDict (set_path d (split_on "." k) v)) (split_on "." k)
              = Some v) by by apply get_set_path_same.
  revert H. generalize (set_path d (split_on "." k) v) as d'. clear d.
  induction later as [|kv later IH]; intros d' H; [done|].
  cbn [forallb] in Hall. apply andb_prop in Hall as [Hkv Hall].
  cbn [fold_left]. apply IH; [done|]. unfold patch_step.
  by rewrite get_set_path_diverge.
Qed.

End Store.

(** ** The background task: lemmas *)

Section Process.

Import FirestoreManager.

(** Running a program is running its parts one after the other. *)
Lemma exec_bind {A B} (p : prog A) (f : A -> prog B) (w : world) :
  exec (bind p f) w
  = match exec p w with
    | (w', Ok a) => exec (f a) w'
    | (w', Raise e) => (w', Raise e)
    end.
Proof.
  revert w. induction p as [[a|e]|deal_id k IH|o k IH|deal_id file_urls k IH];
    intros w; cbn [bind exec]; auto.
Qed.

Lemma exec_try_catch {A} (p : prog A) (h : exn -> prog A) (w : world) :
  exec (try_catch p h) w
  = match exec p w with
    | (w', Raise e) => exec (h e) w'
    | r => r
    end.
Proof.
  revert w. induction p as [[a|e]|deal_id k IH|o k IH|deal_id file_urls k IH];
    intros w; cbn [try_catch exec]; auto.
Qed.

Lemma process_deal_try_eq sv deal_id file_urls w :
  process_deal_try sv deal_id file_urls w
  = let w1 := write w (Updated deal_id (status_patch "processing")) in
    match process_stages sv file_urls (default VNone (db w1 !! deal_id)) with
    | Ok patch => (write w1 (Updated deal_id patch), Ok tt)
    | Raise e => (w1, Raise e)
    end.
Proof.
  unfold process_deal_try, process_stages. prog_simpl. cbn zeta.
  set (w1 := write w (Updated deal_id (status_patch "processing"))).
  change (default VNone (db w1 !! deal_id)) with (read w1 deal_id).
  destruct (extract_stage sv file_urls) as [[extracted_text temp_res]|e];
    prog_simpl; [|reflexivity].
  destruct (subscript (read w1 deal_id) "metadata")
    as [metadata|e]; prog_simpl; [|reflexivity].
  destruct (py_get metadata "company_name" (VStr "")); prog_simpl;
    [|reflexivity].
  destruct (subscript temp_res "company_name_response") as [company|e];
    prog_simpl; [|reflexivity].
  destruct (subscript temp_res "founder_response") as [founders|e];
    prog_simpl; [|reflexivity].
  destruct (subscript temp_res "sector_response") as [sector|e];
    prog_simpl; [|reflexivity].
  destruct (gather_data sv company founders sector); prog_simpl; reflexivity.
Qed.

Lemma process_deal_eq sv deal_id file_urls w :
  process_deal sv deal_id file_urls w
  = let w1 := write w (Updated deal_id (status_patch "processing")) in
    match process_stages sv file_urls (default VNone (db w1 !! deal_id)) with
    | Ok patch => (write w1 (Updated deal_id patch), Ok tt)
    | Raise e => (write w1 (Updated deal_id (error_patch e)), Ok tt)
    end.
Proof.
  unfold process_deal. rewrite exec_try_catch, process_deal_try_eq. cbn zeta.
  by destruct (process_stages _ _ _).
Qed.

(** The same for a run by a store that fails or cancels: a handler runs
    with what is left of the schedule, and catches no cancellation. *)
Lemma run_try_catch {A} (p : prog A) (h : exn -> prog A)
    (schedule : list answer) (w : world) :
  run (try_catch p h) schedule w
  = match run p schedule w with
    | (w', Finished (Raise e), rest) => run (h e) rest w'
    | r => r
    end.
Proof.
  revert schedule w.
  induction p as [[a|e]|deal_id k IH|o k IH|deal_id file_urls k IH];
    intros schedule w; cbn [try_catch run]; auto.
  - by destruct schedule as [|[|e|] rest].
  - by destruct schedule as [|[|e|] rest].
Qed.

(** A run by a store that answers every call is the run in one piece. *)
Lemma run_answers {A} (p : prog A) (schedule : list answer) (w : world) :
  Forall (fun a => a = Answers) schedule ->
  exists rest,
    run p schedule w = (fst (exec p w), Finished (snd (exec p w)), rest).
Proof.
  revert schedule w.
  induction p as [r|deal_id k IH|o k IH|deal_id file_urls k IH];
    intros schedule w Hall; cbn [run exec].
  - by eexists.
  - destruct Hall as [|a rest -> Hall]; by apply IH.
  - destruct Hall as [|a rest -> Hall]; by apply IH.
  - by apply IH.
Qed.

(** The run of the [try] block of [process_deal], call by call: the write
    of [processing], the read of the record, the commit. *)
Lemma run_process_deal_try sv deal_id file_urls schedule w :
  run (process_deal_try sv deal_id file_urls) schedule w
  = match schedule with
    | Cancelled :: rest => (w, Aborted, rest)
    | Fails e :: rest => (w, Finished (Raise e), rest)
    | _ =>
        let w1 := write w (Updated deal_id (status_patch "processing")) in
        match extract_stage sv file_urls with
        | Raise e => (w1, Finished (Raise e), tl schedule)
        | Ok _ =>
            match tl schedule with
            | Cancelled :: rest => (w1, Aborted, rest)
            | Fails e :: rest => (w1, Finished (Raise e), rest)
            | _ =>
                match process_stages sv file_urls (read w1 deal_id) with
                | Raise e => (w1, Finished (Raise e), tl (tl schedule))
                | Ok patch =>
                    match tl (tl schedule) with
                    | Cancelled :: rest => (w1, Aborted, rest)
                    | Fails e :: rest => (w1, Finished (Raise e), rest)
                    | _ => (write w1 (Updated deal_id patch),
                            Finished (Ok tt), tl (tl (tl schedule)))
                    end
                end
            end
        end
    end.
Proof.
  assert (Hrest : forall (rest : list answer) w1,
    run (bind (lift (extract_stage sv file_urls)) (fun '(extracted_text, temp_res) =>
           deal_data ← get_deal deal_id;
           metadata ← lift (subscript deal_data "metadata");
           company_name ← lift (py_get metadata "company_name" (VStr ""));
           company ← lift (subscript temp_res "company_name_response");
           founders ← lift (subscript temp_res "founder_response");
           sector ← lift (subscript temp_res "sector_response");
           public_data ← lift (gather_data sv company founders sector);
           company' ← lift (subscript temp_res "company_name_response");
           founders' ← lift (subscript temp_res "founder_response");
           sector' ← lift (subscript temp_res "sector_response");
           update_deal deal_id
             (processed_patch extracted_text public_data (utcnow sv)
                company' founders' sector'))) rest w1
    = match extract_stage sv file_urls with
      | Raise e => (w1, Finished (Raise e), rest)
      | Ok _ =>
          match rest with
          | Cancelled :: rest' => (w1, Aborted, rest')
          | Fails e :: rest' => (w1, Finished (Raise e), rest')
          | _ =>
              match process_stages sv file_urls (read w1 deal_id) with
              | Raise e => (w1, Finished (Raise e), tl rest)
              | Ok patch =>
                  match tl rest with
                  | Cancelled :: rest' => (w1, Aborted, rest')
                  | Fails e :: rest' => (w1, Finished (Raise e), rest')
                  | _ => (write w1 (Updated deal_id patch),
                          Finished (Ok tt), tl (tl rest))
                  end
              end
          end
      end).
  { intros rest w1. unfold process_stages.
    destruct (extract_stage sv file_urls) as [[extracted_text temp_res]|e];
      prog_simpl; [|reflexivity].
    assert (Hstages : forall (rest' : list answer),
      run (bind (bind (Ret (Ok (read w1 deal_id))) (fun deal_data =>
             Ret (Ok deal_data))) (fun deal_data =>
             metadata ← lift (subscript deal_data "metadata");
             company_name ← lift (py_get metadata "company_name" (VStr ""));
             company ← lift (subscript temp_res "company_name_response");
             founders ← lift (subscript temp_res "founder_response");
             sector ← lift (subscript temp_res "sector_response");
             public_data ← lift (gather_data sv company founders sector);
             company' ← lift (subscript temp_res "company_name_response");
             founders' ← lift (subscript temp_res "founder_response");
             sector' ← lift (subscript temp_res "sector_response");
             update_deal deal_id
               (processed_patch extracted_text public_data (utcnow sv)
                  company' founders' sector'))) rest' w1
      = match
          (metadata ← subscript (read w1 deal_id) "metadata";
           company_name ← py_get metadata "company_name" (VStr "");
           company ← subscript temp_res "company_name_response";
           founders ← subscript temp_res "founder_response";
           sector ← subscript temp_res "sector_response";
           public_data ← gather_data sv company founders sector;
           company' ← subscript temp_res "company_name_response";
           founders' ← subscript temp_res "founder_response";
           sector' ← subscript temp_res "sector_response";
           Ok (processed_patch extracted_text public_data (utcnow sv)
                 company' founders' sector'))
        with
        | Raise e => (w1, Finished (Raise e), rest')
        | Ok patch =>
            match rest' with
            | Cancelled :: rest'' => (w1, Aborted, rest'')
            | Fails e :: rest'' => (w1, Finished (Raise e), rest'')
            | _ => (write w1 (Updated deal_id patch),
                    Finished (Ok tt), tl rest')
            end
        end).
    { intros rest'. prog_simpl.
      destruct (subscript (read w1 deal_id) "metadata")
        as [metadata|e]; prog_simpl; [|reflexivity].
      destruct (py_get metadata "company_name" (VStr "")); prog_simpl;
        [|reflexivity].
      destruct (subscript temp_res "company_name_response") as [company|e];
        prog_simpl; [|reflexivity].
      destruct (subscript temp_res "founder_response") as [founders|e];
        prog_simpl; [|reflexivity].
      destruct (subscript temp_res "sector_response") as [sector|e];
        prog_simpl; [|reflexivity].
      destruct (gather_data sv company founders sector); prog_simpl;
        [|reflexivity].
      by destruct rest' as [|[|e|] rest'']. }
    destruct rest as [|[|e|] rest']; cbn [run tl]; try reflexivity.
    - apply (Hstages []).
    - apply (Hstages rest'). }
  unfold process_deal_try. prog_simpl.
  destruct schedule as [|[|e|] rest]; cbn [run tl]; try reflexivity.
  - apply (Hrest [] _).
  - apply (Hrest rest _).
Qed.

(** The run of the whole task: the handler writes [error] when the [try]
    block raised, and nothing catches what that write raises. *)
Lemma run_process_deal sv deal_id file_urls schedule w :
  run (process_deal sv deal_id file_urls) schedule w
  = match run (process_deal_try sv deal_id file_urls) schedule w with
    | (w1, Finished (Raise e), rest) =>
        match rest with
        | Cancelled :: rest' => (w1, Aborted, rest')
        | Fails e' :: rest' => (w1, Finished (Raise e'), rest')
        | _ => (write w1 (Updated deal_id (error_patch e)),
                Finished (Ok tt), tl rest)
        end
    | r => r
    end.
Proof.
  unfold process_deal. rewrite run_try_catch.
  destruct (run (process_deal_try sv deal_id file_urls) schedule w)
    as [[w1 [[[]|e]|]] rest]; try reflexivity.
  by destruct rest as [|[|e'|] rest'].
Qed.

Lemma field_updated (s : gmap string value) deal_id patch q :
  field (apply_op s (Updated deal_id patch)) deal_id q
  = get_path (merge_patch (default (VDict []) (s !! deal_id)) patch) q.
Proof. unfold field. cbn [apply_op]. by rewrite lookup_insert_eq. Qed.

Lemma lookup_apply_op_ne (s : gmap string value) o deal_id :
  op_id o <> deal_id -> apply_op s o !! deal_id = s !! deal_id.
Proof.
  intros Hne. destruct o; cbn [apply_op op_id] in *.
  - by rewrite lookup_insert_ne.
  - by rewrite lookup_insert_ne.
  - by rewrite lookup_delete_ne.
Qed.

Lemma field_apply_op_ne (s : gmap string value) o deal_id q :
  op_id o <> deal_id -> field (apply_op s o) deal_id q = field s deal_id q.
Proof. intros Hne. unfold field. by rewrite lookup_apply_op_ne. Qed.

(** A field whose path diverges from the paths of the patch reads the
    same after an update. *)
Lemma field_updated_diverge (s : gmap string value) deal_id patch q :
  forallb (fun kv => diverge (split_on "." (fst kv)) q) patch = true ->
  q <> [] ->
  field (apply_op s (Updated deal_id patch)) deal_id q = field s deal_id q.
Proof.
  intros Hall Hq. rewrite field_updated, merge_patch_diverge by done.
  unfold field. destruct (s !! deal_id); [done|].
  by apply get_path_empty_dict.
Qed.

Lemma status_after_status_patch (s : gmap string value) deal_id status :
  status_of (apply_op s (Updated deal_id (status_patch status))) deal_id
  = Some (VStr status).
Proof.
  unfold status_of. rewrite field_updated.
  exact (merge_patch_written _ [] [] "metadata.status" _ ltac:(done) eq_refl).
Qed.

Lemma status_after_error_patch (s : gmap string value) deal_id e :
  status_of (apply_op s (Updated deal_id (error_patch e))) deal_id
  = Some (VStr "error").
Proof.
  unfold status_of. rewrite field_updated.
  exact (merge_patch_written _ [] [("metadata.error", _)] "metadata.status" _
           ltac:(done) eq_refl).
Qed.

Lemma error_after_error_patch (s : gmap string value) deal_id e :
  field (apply_op s (Updated deal_id (error_patch e))) deal_id
    ["metadata"; "error"]
  = Some (VStr (exn_str e)).
Proof.
  rewrite field_updated.
  exact (merge_patch_written _ [("metadata.status", _)] [] "metadata.error" _
           ltac:(done) eq_refl).
Qed.

(** After the first write of the task the record has a [metadata]
    sub-document. *)
Lemma metadata_after_status_patch (doc : value) status :
  exists m, subscript (merge_patch doc (status_patch status)) "metadata"
            = Ok (VDict m).
Proof.
  rewrite merge_patch_fold. cbn [status_patch fold_left].
  unfold patch_step. cbn [fst snd].
  change (split_on "." "metadata.status") with ["metadata"; "status"].
  cbn [set_path subscript]. rewrite dict_get_set_eq. eauto.
Qed.

Lemma deal_data_after_write (w : world) deal_id patch :
  default VNone (db (write w (Updated deal_id patch)) !! deal_id)
  = merge_patch (default (VDict []) (db w !! deal_id)) patch.
Proof. cbn [write db apply_op]. by rewrite lookup_insert_eq. Qed.

Lemma process_stages_ok sv file_urls deal_data patch :
  process_stages sv file_urls deal_data = Ok patch ->
  exists extracted_text temp_res public_data company founders sector,
    extract_stage sv file_urls = Ok (extracted_text, temp_res) /\
    subscript temp_res "company_name_response" = Ok company /\
    subscript temp_res "founder_response" = Ok founders /\
    subscript temp_res "sector_response" = Ok sector /\
    gather_data sv company founders sector = Ok public_data /\
    patch = processed_patch extracted_text public_data (utcnow sv)
              company founders sector.
Proof.
  unfold process_stages.
  destruct (extract_stage sv file_urls) as [[extracted_text temp_res]|e];
    res_simpl; [|done].
  destruct (subscript deal_data "metadata") as [metadata|e]; res_simpl; [|done].
  destruct (py_get metadata "company_name" (VStr "")); res_simpl; [|done].
  destruct (subscript temp_res "company_name_response") as [company|e]
    eqn:Hc; res_simpl; [|done].
  destruct (subscript temp_res "founder_response") as [founders|e]
    eqn:Hf; res_simpl; [|done].
  destruct (subscript temp_res "sector_response") as [sector|e]
    eqn:Hs; res_simpl; [|done].
  destruct (gather_data sv company founders sector) as [public_data|e] eqn:Hg;
    res_simpl; [|done].
  intros [= <-]. by exists extracted_text, temp_res, public_data, company,
    founders, sector.
Qed.

(** Without a pitch deck [temp_res] is the empty dictionary and the first
    subscript of the enrichment call raises. *)
Lemma process_stages_no_deck sv file_urls deal_data m :
  dict_has file_urls "pitch_deck_url" = false ->
  subscript deal_data "metadata" = Ok (VDict m) ->
  process_stages sv file_urls deal_data
  = Raise (KeyError "company_name_response").
Proof.
  intros Hno Hmeta. unfold process_stages, extract_stage.
  rewrite Hno. res_simpl. by rewrite Hmeta.
Qed.

(** The extraction stage itself never raises: both structures
    [process_pdf] can return hold [raw] and [concise]. *)
Lemma extract_stage_ok sv file_urls :
  exists extracted_text temp_res,
    extract_stage sv file_urls = Ok (extracted_text, temp_res).
Proof.
  unfold extract_stage. unfold dict_has.
  destruct (dict_get file_urls "pitch_deck_url") as [gcs_path|] eqn:Hurl;
    [|by eauto].
  cbn [subscript]. rewrite Hurl. res_simpl.
  unfold PDFProcessor.process_pdf.
  destruct (summarize_pitch_deck sv _) as [cs|e]; res_simpl; [|by eauto].
  repeat (match goal with
          | |- context [subscript cs ?k] =>
              destruct (subscript cs k); res_simpl; [|by eauto]
          end).
  by eauto.
Qed.

End Process.

(** ** The background task: the properties *)

Section ProcessProperties.

Import FirestoreManager.

Lemma status_history_write (w : world) (o : store_op) deal_id :
  status_history deal_id (write w o)
  = status_history deal_id w
    ++ match status_of (apply_op (db w) o) deal_id with
       | Some s => [s]
       | None => []
       end.
Proof.
  unfold status_history. cbn [write journal]. rewrite omap_app.
  by f_equal.
Qed.

Lemma journal_write (w : world) (o : store_op) :
  map op (journal (write w o)) = map op (journal w) ++ [o].
Proof. cbn [write journal]. by rewrite map_app. Qed.

End ProcessProperties.

(** C5, as stated, fails: the handler of the background task records the
    exception with a write to the store, and nothing guards that write.
    Here the enrichment raises inside the [try] block and the store
    refuses the write of the handler: the exception of the store leaves
    the task, the deal stays in [processing] and no error is recorded. *)
Lemma handler_write_failure_escapes_the_task :
  snd (fst (run (process_deal_try (enrichment_down (Ok two_pages)) "3fa9c1"
                   deck_urls)
              [Answers; Answers; Fails (UpstreamError "503 Service Unavailable")]
              (without_task uploaded [])))
  = Finished (Raise (UpstreamError "search quota exceeded")) /\
  snd (fst (run (process_deal (enrichment_down (Ok two_pages)) "3fa9c1"
                   deck_urls)
              [Answers; Answers; Fails (UpstreamError "503 Service Unavailable")]
              (without_task uploaded [])))
  = Finished (Raise (UpstreamError "503 Service Unavailable")) /\
  status_of
    (db (fst (fst (run (process_deal (enrichment_down (Ok two_pages))
                          "3fa9c1" deck_urls)
                     [Answers; Answers;
                      Fails (UpstreamError "503 Service Unavailable")]
                     (without_task uploaded []))))) "3fa9c1"
  = Some (VStr "processing") /\
  field
    (db (fst (fst (run (process_deal (enrichment_down (Ok two_pages))
                          "3fa9c1" deck_urls)
                     [Answers; Answers;
                      Fails (UpstreamError "503 Service Unavailable")]
                     (without_task uploaded []))))) "3fa9c1"
    ["metadata"; "error"]
  = None.
Proof. repeat split; vm_compute; reflexivity. Qed.

(** C5, as the code has it: whatever exception leaves the [try] block of
    the background task, raised by a stage or by the store, the handler
    catches it and writes [error] and the text of the exception to the
    deal.  When the store answers that write, the task returns normally
    and the deal has status [error] and the text in [metadata.error],
    where a status poll reads them.  When the store raises on that write,
    its exception leaves the task, and when the task is cancelled there,
    the task ends; either way the deal is as the [try] block left it.  A
    cancellation inside the [try] block is not caught either, and a
    [try] block that returns is the whole task. *)
Theorem process_exception_is_recorded (sv : services) (deal_id : string)
    (file_urls : dict) (schedule rest : list answer) (w w1 : world)
    (end_ : outcome unit) :
  run (process_deal_try sv deal_id file_urls) schedule w = (w1, end_, rest) ->
  (forall e,
      end_ = Finished (Raise e) ->
      (rest = [] \/ (exists rest', rest = Answers :: rest') ->
       run (process_deal sv deal_id file_urls) schedule w
       = (write w1 (Updated deal_id (error_patch e)), Finished (Ok tt),
          tl rest) /\
       status_of (db (write w1 (Updated deal_id (error_patch e)))) deal_id
       = Some (VStr "error") /\
       field (db (write w1 (Updated deal_id (error_patch e)))) deal_id
         ["metadata"; "error"]
       = Some (VStr (exn_str e))) /\
      (forall e' rest',
          rest = Fails e' :: rest' ->
          run (process_deal sv deal_id file_urls) schedule w
          = (w1, Finished (Raise e'), rest')) /\
      (forall rest',
          rest = Cancelled :: rest' ->
          run (process_deal sv deal_id file_urls) schedule w
          = (w1, Aborted, rest'))) /\
  (end_ = Aborted ->
   run (process_deal sv deal_id file_urls) schedule w = (w1, Aborted, rest)) /\
  (end_ = Finished (Ok tt) ->
   run (process_deal sv deal_id file_urls) schedule w
   = (w1, Finished (Ok tt), rest)).
Proof.
  intros Htry. rewrite run_process_deal, Htry.
  split; [|split; by intros ->]. intros e ->. split; [|split].
  - intros Hanswers. split.
    + by destruct Hanswers as [->|[rest' ->]].
    + cbn [FirestoreManager.write db].
      split; [apply status_after_error_patch|apply error_after_error_patch].
  - by intros e' rest' ->.
  - by intros rest' ->.
Qed.

Lemma process_exception_is_recorded_witness :
  run (process_deal_try (enrichment_down (Ok two_pages)) "3fa9c1" deck_urls)
    [] (without_task uploaded [])
  = (FirestoreManager.write (without_task uploaded [])
       (Updated "3fa9c1" (status_patch "processing")),
     Finished (Raise (UpstreamError "search quota exceeded")), []) /\
  status_of
    (db (FirestoreManager.write
           (FirestoreManager.write (without_task uploaded [])
              (Updated "3fa9c1" (status_patch "processing")))
           (Updated "3fa9c1"
              (error_patch (UpstreamError "search quota exceeded")))))
    "3fa9c1"
  = Some (VStr "error") /\
  field
    (db (FirestoreManager.write
           (FirestoreManager.write (without_task uploaded [])
              (Updated "3fa9c1" (status_patch "processing")))
           (Updated "3fa9c1"
              (error_patch (UpstreamError "search quota exceeded")))))
    "3fa9c1" ["metadata"; "error"]
  = Some (VStr "search quota exceeded").
Proof.
  assert (Htry :
    run (process_deal_try (enrichment_down (Ok two_pages)) "3fa9c1" deck_urls)
      [] (without_task uploaded [])
    = (FirestoreManager.write (without_task uploaded [])
         (Updated "3fa9c1" (status_patch "processing")),
       Finished (Raise (UpstreamError "search quota exceeded")), []))
    by reflexivity.
  split; [exact Htry|].
  exact (proj2 (proj1 (proj1 (process_exception_is_recorded
                                (enrichment_down (Ok two_pages)) "3fa9c1"
                                deck_urls [] [] (without_task uploaded []) _ _
                                Htry)
                         (UpstreamError "search quota exceeded") eq_refl)
                  (or_introl eq_refl))).
Defined.

(** C10: when [file_urls] has no key [pitch_deck_url], the enrichment call
    subscripts the empty [temp_res] and raises [KeyError]; the task writes
    [processing] and then [error], never [processed], and the deal ends
    with status [error]. *)
Theorem no_pitch_deck_ends_in_error (sv : services) (deal_id : string)
    (file_urls : dict) (w : world) :
  dict_has file_urls "pitch_deck_url" = false ->
  snd (process_deal_try sv deal_id file_urls w)
  = Raise (KeyError "company_name_response") /\
  status_of (db (fst (process_deal sv deal_id file_urls w))) deal_id
  = Some (VStr "error") /\
  field (db (fst (process_deal sv deal_id file_urls w))) deal_id
    ["metadata"; "error"]
  = Some (VStr "'company_name_response'") /\
  status_history deal_id (fst (process_deal sv deal_id file_urls w))
  = status_history deal_id w ++ [VStr "processing"; VStr "error"].
Proof.
  intros Hno.
  assert (Hstages :
    process_stages sv file_urls
      (default VNone
         (db (FirestoreManager.write w
                (Updated deal_id (status_patch "processing"))) !! deal_id))
    = Raise (KeyError "company_name_response")).
  { rewrite deal_data_after_write.
    destruct (metadata_after_status_patch
                (default (VDict []) (db w !! deal_id)) "processing")
      as [m Hm].
    by apply (process_stages_no_deck _ _ _ m). }
  rewrite process_deal_eq, process_deal_try_eq. cbn zeta.
  rewrite Hstages. cbn [fst snd]. split; [done|].
  rewrite !status_history_write. cbn [FirestoreManager.write db].
  rewrite status_after_error_patch, error_after_error_patch,
    status_after_status_patch.
  by rewrite <- app_assoc.
Qed.

Lemma no_pitch_deck_ends_in_error_witness :
  status_of
    (db (fst (process_deal (sample_services (Ok two_pages)) "3fa9c1" []
                (without_task uploaded [])))) "3fa9c1"
  = Some (VStr "error").
Proof.
  apply (no_pitch_deck_ends_in_error (sample_services (Ok two_pages))
           "3fa9c1" [] (without_task uploaded [])).
  reflexivity.
Defined.

(** What the final commit of the task leaves in the record. *)
Lemma processed_patch_fields (s : gmap string value) (deal_id : string)
    (extracted_text public_data : value) (now : nat)
    (company founders sector : value) :
  let s' := FirestoreManager.apply_op s
              (Updated deal_id
                 (processed_patch extracted_text public_data now
                    company founders sector)) in
  field s' deal_id ["extracted_text"] = Some extracted_text /\
  field s' deal_id ["public_data"] = Some public_data /\
  status_of s' deal_id = Some (VStr "processed") /\
  field s' deal_id ["metadata"; "processed_at"] = Some (VTime now) /\
  field s' deal_id ["metadata"; "company_name"] = Some company /\
  field s' deal_id ["metadata"; "founder_names"] = Some founders /\
  field s' deal_id ["metadata"; "sector"] = Some sector.
Proof.
  cbn zeta. unfold status_of. rewrite !field_updated.
  set (doc := default (VDict []) (s !! deal_id)).
  repeat split.
  - exact (merge_patch_written doc []
             [("public_data", public_data);
              ("metadata.status", VStr "processed");
              ("metadata.processed_at", VTime now);
              ("metadata.company_name", company);
              ("metadata.founder_names", founders);
              ("metadata.sector", sector)]
             "extracted_text" extracted_text ltac:(done) eq_refl).
  - exact (merge_patch_written doc [("extracted_text", extracted_text)]
             [("metadata.status", VStr "processed");
              ("metadata.processed_at", VTime now);
              ("metadata.company_name", company);
              ("metadata.founder_names", founders);
              ("metadata.sector", sector)]
             "public_data" public_data ltac:(done) eq_refl).
  - exact (merge_patch_written doc
             [("extracted_text", extracted_text);
              ("public_data", public_data)]
             [("metadata.processed_at", VTime now);
              ("metadata.company_name", company);
              ("metadata.founder_names", founders);
              ("metadata.sector", sector)]
             "metadata.status" (VStr "processed") ltac:(done) eq_refl).
  - exact (merge_patch_written doc
             [("extracted_text", extracted_text);
              ("public_data", public_data);
              ("metadata.status", VStr "processed")]
             [("metadata.company_name", company);
              ("metadata.founder_names", founders);
              ("metadata.sector", sector)]
             "metadata.processed_at" (VTime now) ltac:(done) eq_refl).
  - exact (merge_patch_written doc
             [("extracted_text", extracted_text);
              ("public_data", public_data);
              ("metadata.status", VStr "processed");
              ("metadata.processed_at", VTime now)]
             [("metadata.founder_names", founders);
              ("metadata.sector", sector)]
             "metadata.company_name" company ltac:(done) eq_refl).
  - exact (merge_patch_written doc
             [("extracted_text", extracted_text);
              ("public_data", public_data);
              ("metadata.status", VStr "processed");
              ("metadata.processed_at", VTime now);
              ("metadata.company_name", company)]
             [("metadata.sector", sector)]
             "metadata.founder_names" founders ltac:(done) eq_refl).
  - exact (merge_patch_written doc
             [("extracted_text", extracted_text);
              ("public_data", public_data);
              ("metadata.status", VStr "processed");
              ("metadata.processed_at", VTime now);
              ("metadata.company_name", company);
              ("metadata.founder_names", founders)]
             []
             "metadata.sector" sector ltac:(done) eq_refl).
Qed.

(** C7: when every stage of the background task returns, the task makes
    two writes and no more: the status [processing], and then one update
    whose patch carries [extracted_text], [public_data], the status
    [processed], [processed_at] and the three entity fields of the
    metadata together; after it all seven are read back from the record. *)
Theorem process_success_is_one_commit (sv : services) (deal_id : string)
    (file_urls : dict) (w : world) :
  snd (process_deal_try sv deal_id file_urls w) = Ok tt ->
  exists extracted_text public_data company founders sector,
    map op (journal (fst (process_deal sv deal_id file_urls w)))
    = map op (journal w)
      ++ [Updated deal_id (status_patch "processing");
          Updated deal_id
            (processed_patch extracted_text public_data (utcnow sv)
               company founders sector)] /\
    field (db (fst (process_deal sv deal_id file_urls w))) deal_id
      ["extracted_text"] = Some extracted_text /\
    field (db (fst (process_deal sv deal_id file_urls w))) deal_id
      ["public_data"] = Some public_data /\
    status_of (db (fst (process_deal sv deal_id file_urls w))) deal_id
    = Some (VStr "processed") /\
    field (db (fst (process_deal sv deal_id file_urls w))) deal_id
      ["metadata"; "processed_at"] = Some (VTime (utcnow sv)) /\
    field (db (fst (process_deal sv deal_id file_urls w))) deal_id
      ["metadata"; "company_name"] = Some company /\
    field (db (fst (process_deal sv deal_id file_urls w))) deal_id
      ["metadata"; "founder_names"] = Some founders /\
    field (db (fst (process_deal sv deal_id file_urls w))) deal_id
      ["metadata"; "sector"] = Some sector.
Proof.
  rewrite process_deal_eq, process_deal_try_eq. cbn zeta.
  destruct (process_stages _ _ _) as [patch|e] eqn:Hst; cbn [fst snd];
    [intros _|discriminate].
  apply process_stages_ok in Hst
    as (et & tr & pd & c & f & x & _ & _ & _ & _ & _ & ->).
  exists et, pd, c, f, x. split.
  - rewrite !journal_write. by rewrite <- app_assoc.
  - cbn [FirestoreManager.write db]. apply processed_patch_fields.
Qed.

Lemma process_success_is_one_commit_witness :
  exists extracted_text public_data company founders sector,
    map op (journal processed)
    = map op (journal uploaded)
      ++ [Updated "3fa9c1" (status_patch "processing");
          Updated "3fa9c1"
            (processed_patch extracted_text public_data 0
               company founders sector)].
Proof.
  destruct (process_success_is_one_commit
              (sample_services (Ok two_pages)) "3fa9c1" deck_urls
              (without_task uploaded []))
    as (et & pd & c & f & x & Hj & _).
  - vm_compute. reflexivity.
  - exists et, pd, c, f, x. exact Hj.
Defined.

(** C1, as the code has it: [extracted_text] is written by the final commit
    only, so when a stage fails it has not been persisted by this run.
    What a failure leaves is: status [error], and every field of the record
    other than [metadata.status] and [metadata.error] exactly as it was
    before the task ran, [extracted_text] included; the records of the
    other deals are untouched.  Nothing committed earlier is erased. *)
Theorem process_failure_keeps_committed_fields (sv : services)
    (deal_id : string) (file_urls : dict) (w : world) (e : exn) :
  snd (process_deal_try sv deal_id file_urls w) = Raise e ->
  status_of (db (fst (process_deal sv deal_id file_urls w))) deal_id
  = Some (VStr "error") /\
  (forall q,
      q <> [] ->
      diverge ["metadata"; "status"] q = true ->
      diverge ["metadata"; "error"] q = true ->
      field (db (fst (process_deal sv deal_id file_urls w))) deal_id q
      = field (db w) deal_id q) /\
  field (db (fst (process_deal sv deal_id file_urls w))) deal_id
    ["extracted_text"]
  = field (db w) deal_id ["extracted_text"] /\
  (forall other,
      other <> deal_id ->
      db (fst (process_deal sv deal_id file_urls w)) !! other
      = db w !! other).
Proof.
  rewrite process_deal_eq, process_deal_try_eq. cbn zeta.
  destruct (process_stages _ _ _) as [patch|e0]; cbn [fst snd];
    [discriminate|intros _].
  cbn [FirestoreManager.write db].
  assert (Hkeep : forall q, q <> [] ->
    diverge ["metadata"; "status"] q = true ->
    diverge ["metadata"; "error"] q = true ->
    field (FirestoreManager.apply_op
             (FirestoreManager.apply_op (db w)
                (Updated deal_id (status_patch "processing")))
             (Updated deal_id (error_patch e0))) deal_id q
    = field (db w) deal_id q).
  { intros q Hq Hs He.
    rewrite !field_updated_diverge; try done.
    - cbn [status_patch forallb fst].
      change (split_on "." "metadata.status") with ["metadata"; "status"].
      by rewrite Hs.
    - cbn [error_patch forallb fst].
      change (split_on "." "metadata.status") with ["metadata"; "status"].
      change (split_on "." "metadata.error") with ["metadata"; "error"].
      by rewrite Hs, He. }
  split; [apply status_after_error_patch|].
  split; [exact Hkeep|].
  split; [by apply Hkeep|].
  intros other Hne. by rewrite !lookup_apply_op_ne.
Qed.

Lemma process_failure_keeps_committed_fields_witness :
  status_of (db failed_enrichment) "3fa9c1" = Some (VStr "error") /\
  field (db failed_enrichment) "3fa9c1" ["raw_files"; "pitch_deck_url"]
  = field (db uploaded) "3fa9c1" ["raw_files"; "pitch_deck_url"] /\
  field (db failed_enrichment) "3fa9c1" ["extracted_text"]
  = field (db uploaded) "3fa9c1" ["extracted_text"].
Proof.
  destruct (process_failure_keeps_committed_fields
              (enrichment_down (Ok two_pages)) "3fa9c1" deck_urls
              (without_task uploaded [])
              (UpstreamError "search quota exceeded"))
    as (Hstatus & Hkeep & Htext & _).
  - vm_compute. reflexivity.
  - split; [exact Hstatus|]. split; [|exact Htext].
    apply (Hkeep ["raw_files"; "pitch_deck_url"]); [discriminate|reflexivity..].
Defined.

(** C1, as stated, fails: extraction and summarization succeed, the search
    backend raises, and the record of the deal ends with status [error]
    and without any [extracted_text]; no write of the run ever stored it. *)
Lemma enrichment_failure_leaves_no_extracted_text :
  (exists temp_res,
      extract_stage (enrichment_down (Ok two_pages)) deck_urls
      = Ok (VDict [("pitch_deck",
                    VDict [("raw", VDict [("1", VStr "Paylane");
                                          ("2", VStr "Team")]);
                           ("concise",
                            VStr "A seed-stage payments company.")])],
            temp_res) /\
      subscript temp_res "company_name_response" = Ok (VStr "Paylane")) /\
  snd (process_deal_try (enrichment_down (Ok two_pages)) "3fa9c1" deck_urls
         (without_task uploaded []))
  = Raise (UpstreamError "search quota exceeded") /\
  status_of (db failed_enrichment) "3fa9c1" = Some (VStr "error") /\
  field (db failed_enrichment) "3fa9c1" ["extracted_text"] = None /\
  omap (fun c => field (after c) "3fa9c1" ["extracted_text"])
    (journal failed_enrichment) = [].
Proof.
  split; [eexists; split; vm_compute; reflexivity|].
  repeat split; vm_compute; reflexivity.
Qed.

(** ** Memo generation *)

Lemma is_processed_inv (status : value) :
  is_processed status = true -> status = VStr "processed".
Proof.
  destruct status; try discriminate. cbn [is_processed].
  intros H. apply String.eqb_eq in H. by subst.
Qed.

(** A request for a deal whose status is not [processed] leaves the try
    block through an exception, which the [except] clause turns into a
    response with status code 500; the store is not written. *)
Lemma generate_memo_unprocessed (sv : services) (deal_id : string)
    (weightage : value) (w : world) :
  status_of (db w) deal_id <> Some (VStr "processed") ->
  exists detail,
    generate_memo sv deal_id weightage w
    = (w, Raise (HTTPException 500 detail)).
Proof.
  intros Hst. unfold generate_memo. rewrite exec_try_catch.
  unfold generate_memo_try. prog_simpl. unfold FirestoreManager.read.
  unfold status_of, field in Hst.
  destruct (db w !! deal_id) as [doc|]; cbn [from_option id truthy negb];
    prog_simpl; [|by eauto].
  destruct (truthy doc); cbn [negb]; prog_simpl; [|by eauto].
  destruct doc as [| | | | |d|]; cbn [py_get]; prog_simpl; try by eauto.
  cbn [get_path] in Hst.
  destruct (dict_get d "metadata") as [md|]; cbn [from_option id].
  - destruct md as [| | | | |m|]; cbn [py_get]; prog_simpl; try by eauto.
    cbn [get_path] in Hst.
    destruct (dict_get m "status") as [st|];
      cbn [from_option id is_processed negb]; prog_simpl; [|by eauto].
    destruct (is_processed st) eqn:Hp; cbn [negb]; prog_simpl; [|by eauto].
    apply is_processed_inv in Hp. by subst.
  - cbn [py_get dict_get from_option id is_processed negb]. prog_simpl.
    by eauto.
Qed.

(** A request for a processed deal, with the summarizer and the exporter
    answering, returns the four fields of the response. *)
Lemma generate_memo_processed (sv : services) (deal_id : string)
    (weightage : value) (w : world) (doc memo_text docx_url : value) :
  db w !! deal_id = Some doc ->
  status_of (db w) deal_id = Some (VStr "processed") ->
  summarizer_generate_memo sv doc weightage = Ok memo_text ->
  create_memo_docx sv deal_id memo_text = Ok docx_url ->
  exists all_data,
    snd (generate_memo sv deal_id weightage w)
    = Ok (memo_response deal_id memo_text docx_url all_data).
Proof.
  intros Hdoc Hst Hmemo Hdocx.
  unfold generate_memo. rewrite exec_try_catch.
  assert (Hread : FirestoreManager.read w deal_id = doc)
    by (unfold FirestoreManager.read; by rewrite Hdoc).
  unfold generate_memo_try. prog_simpl. rewrite !Hread. clear Hread.
  unfold status_of, field in Hst. rewrite Hdoc in Hst.
  destruct doc as [| | | | |d|]; try discriminate Hst.
  cbn [get_path] in Hst.
  destruct (dict_get d "metadata") as [md|] eqn:Hmd; [|discriminate].
  destruct md as [| | | | |m|]; try discriminate Hst.
  cbn [get_path] in Hst.
  destruct (dict_get m "status") as [st|] eqn:Hs; [|discriminate].
  injection Hst as ->.
  assert (Ht : truthy (VDict d) = true) by (by destruct d).
  rewrite Ht. cbn [negb py_get]. rewrite Hmd. cbn [from_option id py_get].
  prog_simpl. rewrite Hs.
  cbn [from_option id is_processed negb String.eqb Ascii.eqb Bool.eqb].
  prog_simpl. rewrite Hmemo. prog_simpl. rewrite Hdocx. prog_simpl.
  cbn [snd]. eauto.
Qed.

(** C2, at a deal that has just been uploaded: the request is answered
    with status code 500, not 400; the exception with code 400 raised in
    the [try] block is caught by the [except Exception] clause of the same
    function and re-raised with code 500.  The store is left as it was, so
    no memo is written. *)
Theorem generate_memo_before_processed_answers_500 :
  status_of (db uploaded) "3fa9c1" = Some (VStr "uploading") /\
  snd (generate_memo_try (sample_services (Ok two_pages)) "3fa9c1" weights
         uploaded)
  = Raise (HTTPException 400 "Deal processing not complete") /\
  generate_memo (sample_services (Ok two_pages)) "3fa9c1" weights uploaded
  = (uploaded,
     Raise (HTTPException 500 "400: Deal processing not complete")).
Proof. repeat split; vm_compute; reflexivity. Qed.

(** ** Extraction failures and the background task *)

Lemma process_pdf_after_extraction_error (sv : services) (gcs_path : value)
    (e : exn) (summary s f x c : value) :
  snd (PDFProcessor.extract_try sv gcs_path) = Raise e ->
  summarize_pitch_deck sv "" = Ok summary ->
  subscript summary "summary_res" = Ok s ->
  subscript summary "founder_response" = Ok f ->
  subscript summary "sector_response" = Ok x ->
  subscript summary "company_name_response" = Ok c ->
  PDFProcessor.process_pdf sv gcs_path
  = VDict [("raw", VDict [("1", VStr "")]);
           ("concise", s);
           ("founder_response", f);
           ("sector_response", x);
           ("company_name_response", c)].
Proof.
  intros He Hsum Hs Hf Hx Hc.
  unfold PDFProcessor.process_pdf, PDFProcessor._extract_text_from_pdf.
  rewrite He.
  change (PDFProcessor.full_text_of [""]) with "".
  rewrite Hsum. res_simpl. rewrite Hf, Hx, Hs, Hc. res_simpl.
  reflexivity.
Qed.

Lemma process_stages_with_deck (sv : services) (file_urls : dict)
    (gcs_path deal_data : value) (m : dict) (raw s f x c public_data : value) :
  dict_get file_urls "pitch_deck_url" = Some gcs_path ->
  PDFProcessor.process_pdf sv gcs_path
  = VDict [("raw", raw); ("concise", s); ("founder_response", f);
           ("sector_response", x); ("company_name_response", c)] ->
  subscript deal_data "metadata" = Ok (VDict m) ->
  gather_data sv c f x = Ok public_data ->
  process_stages sv file_urls deal_data
  = Ok (processed_patch
          (VDict [("pitch_deck", VDict [("raw", raw); ("concise", s)])])
          public_data (utcnow sv) c f x).
Proof.
  intros Hurl Hpdf Hmeta Hgather.
  unfold process_stages, extract_stage, dict_has. rewrite Hurl.
  cbn [subscript]. rewrite Hurl. res_simpl. rewrite Hpdf.
  cbn [subscript dict_get String.eqb Ascii.eqb Bool.eqb]. res_simpl.
  rewrite Hmeta. res_simpl. cbn [py_get]. res_simpl.
  cbn [subscript dict_get String.eqb Ascii.eqb Bool.eqb]. res_simpl.
  rewrite Hgather. res_simpl. reflexivity.
Qed.

(** C3: whatever exception is raised inside the [try] block of the
    extraction, [_extract_text_from_pdf] returns the single empty page
    instead of raising; the extraction stage of the background task
    raises nothing; [process_pdf] goes on to summarize the empty text, and
    the background task goes on to enrichment and to its final commit:
    with the summarizer and the search backend answering, the deal ends
    [processed], its raw text being the one empty page. *)
Theorem extraction_error_is_absorbed (sv : services) (gcs_path : value)
    (e : exn) :
  snd (PDFProcessor.extract_try sv gcs_path) = Raise e ->
  PDFProcessor._extract_text_from_pdf sv gcs_path = [""] /\
  (forall file_urls,
      exists extracted_text temp_res,
        extract_stage sv file_urls = Ok (extracted_text, temp_res)) /\
  forall summary s f x c,
    summarize_pitch_deck sv "" = Ok summary ->
    subscript summary "summary_res" = Ok s ->
    subscript summary "founder_response" = Ok f ->
    subscript summary "sector_response" = Ok x ->
    subscript summary "company_name_response" = Ok c ->
    PDFProcessor.process_pdf sv gcs_path
    = VDict [("raw", VDict [("1", VStr "")]);
             ("concise", s);
             ("founder_response", f);
             ("sector_response", x);
             ("company_name_response", c)] /\
    forall deal_id file_urls w public_data,
      dict_get file_urls "pitch_deck_url" = Some gcs_path ->
      gather_data sv c f x = Ok public_data ->
      snd (process_deal_try sv deal_id file_urls w) = Ok tt /\
      status_of (db (fst (process_deal sv deal_id file_urls w))) deal_id
      = Some (VStr "processed") /\
      field (db (fst (process_deal sv deal_id file_urls w))) deal_id
        ["extracted_text"]
      = Some (VDict [("pitch_deck",
                      VDict [("raw", VDict [("1", VStr "")]);
                             ("concise", s)])]).
Proof.
  intros He. split.
  { unfold PDFProcessor._extract_text_from_pdf. by rewrite He. }
  split; [apply extract_stage_ok|].
  intros summary s f x c Hsum Hs Hf Hx Hc.
  pose proof (process_pdf_after_extraction_error sv gcs_path e summary
                s f x c He Hsum Hs Hf Hx Hc) as Hpdf.
  split; [exact Hpdf|].
  intros deal_id file_urls w public_data Hurl Hgather.
  rewrite process_deal_eq, process_deal_try_eq. cbn zeta.
  rewrite deal_data_after_write.
  destruct (metadata_after_status_patch
              (default (VDict []) (db w !! deal_id)) "processing") as [m Hm].
  rewrite (process_stages_with_deck sv file_urls gcs_path _ m _ s f x c
             public_data Hurl Hpdf Hm Hgather).
  cbn [fst snd]. split; [done|]. cbn [FirestoreManager.write db].
  pose proof (processed_patch_fields
    (FirestoreManager.apply_op (db w)
       (Updated deal_id (status_patch "processing")))
    deal_id
    (VDict [("pitch_deck", VDict [("raw", VDict [("1", VStr "")]);
                                  ("concise", s)])])
    public_data (utcnow sv) c f x) as (Htext & _ & Hstatus & _).
  by split.
Qed.

Lemma extraction_error_is_absorbed_witness :
  PDFProcessor._extract_text_from_pdf (sample_services ocr_timeout) deck
  = [""] /\
  status_of
    (db (fst (process_deal (sample_services ocr_timeout) "3fa9c1" deck_urls
                (without_task uploaded [])))) "3fa9c1"
  = Some (VStr "processed").
Proof.
  destruct (extraction_error_is_absorbed (sample_services ocr_timeout) deck
              (UpstreamError
                 "Operation did not complete within the designated timeout.")
              eq_refl) as (Hsentinel & _ & Hgo).
  split; [exact Hsentinel|].
  destruct (Hgo sample_summary _ _ _ _ eq_refl eq_refl eq_refl eq_refl eq_refl)
    as [_ Hdeal].
  destruct (Hdeal "3fa9c1" deck_urls (without_task uploaded [])
              (VDict [("news", VList [])]) eq_refl eq_refl)
    as (_ & Hstatus & _).
  exact Hstatus.
Defined.

(** When it is the summarizer that raises, the handler of [process_pdf]
    returns a structure without the entity fields, and the background
    task ends in [error] at the enrichment call. *)
Lemma summarizer_failure_ends_in_error (sv : services) (deal_id : string)
    (file_urls : dict) (gcs_path : value) (w : world) (e : exn) :
  dict_get file_urls "pitch_deck_url" = Some gcs_path ->
  summarize_pitch_deck sv
    (PDFProcessor.full_text_of (PDFProcessor._extract_text_from_pdf sv gcs_path))
  = Raise e ->
  PDFProcessor.process_pdf sv gcs_path = PDFProcessor.ocr_error_structure /\
  snd (process_deal_try sv deal_id file_urls w)
  = Raise (KeyError "company_name_response") /\
  status_of (db (fst (process_deal sv deal_id file_urls w))) deal_id
  = Some (VStr "error").
Proof.
  intros Hurl Hsum.
  assert (Hpdf : PDFProcessor.process_pdf sv gcs_path
                 = PDFProcessor.ocr_error_structure).
  { unfold PDFProcessor.process_pdf. by rewrite Hsum. }
  split; [exact Hpdf|].
  rewrite process_deal_eq, process_deal_try_eq. cbn zeta.
  rewrite deal_data_after_write.
  destruct (metadata_after_status_patch
              (default (VDict []) (db w !! deal_id)) "processing") as [m Hm].
  assert (Hst : process_stages sv file_urls
                  (FirestoreManager.merge_patch
                     (default (VDict []) (db w !! deal_id))
                     (status_patch "processing"))
                = Raise (KeyError "company_name_response")).
  { unfold process_stages, extract_stage, dict_has. rewrite Hurl.
    cbn [subscript]. rewrite Hurl. res_simpl. rewrite Hpdf.
    unfold PDFProcessor.ocr_error_structure.
    cbn [subscript dict_get String.eqb Ascii.eqb Bool.eqb]. res_simpl.
    rewrite Hm. res_simpl. cbn [py_get]. res_simpl.
    cbn [subscript dict_get String.eqb Ascii.eqb Bool.eqb]. reflexivity. }
  rewrite Hst. cbn [fst snd FirestoreManager.write db].
  split; [done|]. apply status_after_error_patch.
Qed.

(** ** The system over time: writes and the history of statuses *)

Section Invariant.

Import FirestoreManager.

#[global] Instance status_le_trans : Transitive status_le.
Proof.
  intros a b c Hab Hbc.
  destruct Hab; [done|..]; inversion Hbc; subst; constructor.
Qed.

Lemma TlRel_last {A} (R : relation A) (x : A) (l : list A) :
  (forall y, last l = Some y -> R y x) -> TlRel R x l.
Proof.
  destruct l as [|y l _] using rev_ind; [constructor|].
  intros H. constructor. apply H. apply last_snoc.
Qed.

(** The history of a deal whose status a write leaves alone or removes
    grows by a repetition of its last entry, or not at all. *)
Lemma write_same (w : world) (o : store_op) deal_id :
  winv w ->
  status_of (apply_op (db w) o) deal_id = status_of (db w) deal_id \/
  status_of (apply_op (db w) o) deal_id = None ->
  Sorted status_le (status_history deal_id (write w o)) /\
  (forall s, status_of (db (write w o)) deal_id = Some s ->
             last (status_history deal_id (write w o)) = Some s) /\
  (forall P : value -> Prop,
      Forall P (status_history deal_id w) ->
      Forall P (status_history deal_id (write w o))).
Proof.
  intros Hw Hkeep. rewrite status_history_write. cbn [write db].
  destruct (status_of (apply_op (db w) o) deal_id) as [s|] eqn:Hs.
  - destruct Hkeep as [Hsame|?]; [|done].
    assert (Hlast : last (status_history deal_id w) = Some s)
      by (apply (winv_current _ Hw); congruence).
    split; [|split].
    + apply Sorted_snoc; [apply (winv_sorted _ Hw)|].
      apply TlRel_last. intros y Hy. rewrite Hlast in Hy.
      injection Hy as ->. constructor.
    + intros s' [= <-]. apply last_snoc.
    + intros P HP. apply Forall_app. split; [done|].
      constructor; [|constructor]. apply last_Some_elem_of in Hlast.
      by apply (proj1 (Forall_forall _ _) HP).
  - rewrite app_nil_r. split; [apply (winv_sorted _ Hw)|]. by split.
Qed.

Lemma write_other (w : world) (o : store_op) deal_id :
  deal_id <> op_id o ->
  status_of (apply_op (db w) o) deal_id = status_of (db w) deal_id.
Proof. intros Hne. unfold status_of. by rewrite field_apply_op_ne. Qed.

Lemma keeps_winv (w : world) (o : store_op) :
  winv w -> keeps_status o -> winv (write w o).
Proof.
  intros Hw Hkeep. split.
  - intros deal_id. by apply write_same.
  - intros deal_id. by apply write_same.
Qed.

(** The owner of a deal gives it a status not below its last one. *)
Lemma sets_winv (w : world) (o : store_op) (status : string) :
  winv w -> sets_status o status ->
  (forall s, last (status_history (op_id o) w) = Some s ->
             status_le s (VStr status)) ->
  winv (write w o) /\
  status_history (op_id o) (write w o)
  = status_history (op_id o) w ++ [VStr status].
Proof.
  intros Hw Hset Hle.
  assert (Hown : status_history (op_id o) (write w o)
                 = status_history (op_id o) w ++ [VStr status])
    by (by rewrite status_history_write, Hset).
  split; [|done]. split.
  - intros deal_id. destruct (decide (deal_id = op_id o)) as [->|Hne].
    + rewrite Hown. apply Sorted_snoc; [apply (winv_sorted _ Hw)|].
      by apply TlRel_last.
    + apply write_same; [done|]. left. by apply write_other.
  - intros deal_id. destruct (decide (deal_id = op_id o)) as [->|Hne].
    + intros s Hs. cbn [write db] in Hs. rewrite Hset in Hs.
      injection Hs as <-. rewrite Hown. apply last_snoc.
    + apply write_same; [done|]. left. by apply write_other.
Qed.

(** Any write leaves what has held of the history of another deal. *)
Lemma write_other_forall (w : world) (o : store_op) deal_id
    (P : value -> Prop) :
  winv w -> deal_id <> op_id o ->
  Forall P (status_history deal_id w) ->
  Forall P (status_history deal_id (write w o)).
Proof.
  intros Hw Hne. apply write_same; [done|]. left. by apply write_other.
Qed.

Lemma keeps_forall (w : world) (o : store_op) deal_id (P : value -> Prop) :
  winv w -> keeps_status o ->
  Forall P (status_history deal_id w) ->
  Forall P (status_history deal_id (write w o)).
Proof. intros Hw Hkeep. by apply write_same. Qed.

Lemma history_nil_forall (w : world) deal_id :
  status_history deal_id w = [] <->
  Forall (fun _ => False) (status_history deal_id w).
Proof.
  split; [by intros ->|]. destruct (status_history deal_id w); [done|].
  by inversion 1.
Qed.

(** *** The writes of the operations *)

Lemma updated_keeps_status deal_id patch :
  forallb (fun kv => diverge (split_on "." (fst kv)) ["metadata"; "status"])
    patch = true ->
  keeps_status (Updated deal_id patch).
Proof.
  intros Hdiv s other. left. unfold status_of.
  destruct (decide (other = deal_id)) as [->|Hne].
  - by apply field_updated_diverge.
  - by apply field_apply_op_ne.
Qed.

Lemma deleted_keeps_status deal_id : keeps_status (Deleted deal_id).
Proof.
  intros s other. unfold status_of, field. cbn [apply_op].
  destruct (decide (other = deal_id)) as [->|Hne].
  - right. by rewrite lookup_delete_eq.
  - left. by rewrite lookup_delete_ne.
Qed.

Lemma created_sets_status sv deal_id :
  sets_status
    (Created deal_id (VDict [("metadata", initial_metadata sv deal_id)]))
    "uploading".
Proof.
  intros s. unfold status_of, field. cbn [apply_op op_id].
  by rewrite lookup_insert_eq.
Qed.

Lemma status_patch_sets_status deal_id status :
  sets_status (Updated deal_id (status_patch status)) status.
Proof. intros s. apply status_after_status_patch. Qed.

Lemma error_patch_sets_status deal_id e :
  sets_status (Updated deal_id (error_patch e)) "error".
Proof. intros s. apply status_after_error_patch. Qed.

Lemma processed_patch_sets_status deal_id et pd now c f x :
  sets_status (Updated deal_id (processed_patch et pd now c f x)) "processed".
Proof. intros s. apply processed_patch_fields. Qed.

(** *** The parts the operations play *)

Ltac case_result :=
  match goal with
  | |- context [match ?r with Ok _ => _ | Raise _ => _ end] =>
      destruct r as [?|?]
  | |- context [let (_, _) := ?r in _] => destruct r as [? ?]
  | |- context [if ?b then _ else _] => destruct b
  end.

Ltac quiet_tac :=
  repeat first
    [ progress prog_simpl
    | apply quiet_ret
    | apply quiet_get; intros ?
    | apply quiet_put; [by apply updated_keeps_status|intros ?]
    | apply quiet_put; [apply deleted_keeps_status|intros ?]
    | case_result ].

Lemma generate_memo_quiet sv deal_id weightage :
  quiet (generate_memo sv deal_id weightage).
Proof. unfold generate_memo, generate_memo_try. quiet_tac. Qed.

Lemma delete_specific_deal_quiet deal_id :
  quiet (delete_specific_deal deal_id).
Proof. unfold delete_specific_deal. quiet_tac. Qed.

Lemma process_deal_starting sv deal_id file_urls :
  plays (Starting deal_id) (Thread (process_deal sv deal_id file_urls)).
Proof.
  unfold process_deal, process_deal_try. prog_simpl.
  eexists _, _. split; [reflexivity|]. split; [reflexivity|].
  split; [apply status_patch_sets_status|]. intros r.
  repeat first
    [ progress prog_simpl
    | apply finishing_ret
    | apply quiet_ret
    | apply finishing_get; intros ?
    | eapply finishing_put;
        [reflexivity|apply error_patch_sets_status|by right| |intros ?]
    | eapply finishing_put;
        [reflexivity|apply processed_patch_sets_status|by left| |intros ?]
    | case_result ].
Qed.

Lemma upload_deal_creating sv deal_id pitch_deck :
  plays (Creating deal_id) (Thread (upload_deal sv deal_id pitch_deck)).
Proof.
  unfold upload_deal, upload_deal_try. prog_simpl. cbn zeta.
  eexists _, _. split; [reflexivity|]. split; [reflexivity|].
  split; [apply created_sets_status|].
  split; [|intros e; prog_simpl; apply quiet_ret].
  repeat first
    [ progress prog_simpl
    | apply announcing_ret
    | apply announcing_put; [by apply updated_keeps_status|intros ?]
    | apply announcing_spawn
    | apply quiet_ret
    | case_result ].
Qed.

(** *** Roles and holders *)

Lemma pool_split (roles : list role) (before behind : list thread)
    (t : thread) :
  Forall2 plays roles (before ++ t :: behind) ->
  exists rs1 r rs2,
    roles = rs1 ++ r :: rs2 /\
    Forall2 plays rs1 before /\ plays r t /\ Forall2 plays rs2 behind.
Proof.
  intros H. apply Forall2_app_inv_r in H as (rs1 & rs2' & H1 & H2 & ->).
  apply Forall2_cons_inv_r in H2 as (r & rs2 & Hr & H2 & ->).
  by exists rs1, r, rs2.
Qed.

Lemma pool_join (rs1 rs2 : list role) (r : role) (before behind : list thread)
    (t : thread) :
  Forall2 plays rs1 before -> plays r t -> Forall2 plays rs2 behind ->
  Forall2 plays (rs1 ++ r :: rs2) (before ++ t :: behind).
Proof. intros H1 Hr H2. apply Forall2_app; [done|]. by constructor. Qed.

Lemma holders_role (rs1 rs2 : list role) (r : role)
    (queue : list (string * dict)) :
  holders (rs1 ++ r :: rs2) queue
  ≡ₚ option_list (owner r) ++ holders (rs1 ++ rs2) queue.
Proof.
  unfold holders. rewrite !omap_app. cbn [omap list_omap].
  destruct (owner r) as [deal_id|]; cbn [option_list option_rect app].
  - rewrite <- !app_assoc. cbn [app]. symmetry. apply Permutation_middle.
  - done.
Qed.

Lemma holders_task (roles : list role) (earlier later : list (string * dict))
    deal_id file_urls :
  holders roles (earlier ++ (deal_id, file_urls) :: later)
  ≡ₚ deal_id :: holders roles (earlier ++ later).
Proof.
  unfold holders. rewrite !map_app. cbn [map fst].
  rewrite (app_assoc _ (map fst earlier)). symmetry.
  rewrite (app_assoc _ (map fst earlier)). apply Permutation_middle.
Qed.

(** The deal of a role has no other holder. *)
Lemma other_holders (rs1 rs2 : list role) (r : role)
    (queue : list (string * dict)) deal_id :
  NoDup (holders (rs1 ++ r :: rs2) queue) ->
  owner r = Some deal_id ->
  (forall r', r' ∈ rs1 ++ rs2 -> owner r' <> Some deal_id) /\
  (forall file_urls, (deal_id, file_urls) ∉ queue).
Proof.
  intros Hnd Hr. rewrite holders_role, Hr in Hnd.
  cbn [option_list option_rect app] in Hnd.
  apply NoDup_cons in Hnd as [Hnotin _]. split.
  - intros r' Hin Hr'. apply Hnotin. unfold holders.
    apply elem_of_app. left. apply list_elem_of_omap. by exists r'.
  - intros file_urls Hin. apply Hnotin. unfold holders.
    apply elem_of_app. right.
    by apply (list_elem_of_fmap_2 fst _ (deal_id, file_urls)).
Qed.

(** *** Every step keeps the invariant *)

Lemma sinv_start : sinv start [].
Proof.
  split.
  - constructor.
  - split; [intros deal_id; constructor|].
    intros deal_id s H. unfold status_of, field in H.
    cbn [start state initial db] in H. by rewrite lookup_empty in H.
  - done.
  - constructor.
  - intros deal_id H. by apply elem_of_nil in H.
  - intros r deal_id H. by apply elem_of_nil in H.
  - intros deal_id file_urls H. by apply elem_of_nil in H.
Qed.

(** A write that keeps every status, by a program in any role. *)
Lemma sinv_keeps_put (sys : system) (roles : list role) (o : store_op)
    (pool' : list thread) :
  sinv sys roles -> keeps_status o -> Forall2 plays roles pool' ->
  sinv {| state := write (state sys) o; pool := pool'; drawn := drawn sys |}
    roles.
Proof.
  intros Hinv Hkeep Hplays.
  pose proof (sinv_world _ _ Hinv) as Hw. split; cbn [state pool drawn].
  - done.
  - by apply keeps_winv.
  - intros deal_id Hfresh. apply history_nil_forall.
    apply keeps_forall; [done..|]. apply history_nil_forall.
    by apply (sinv_fresh _ _ Hinv).
  - apply (sinv_nodup _ _ Hinv).
  - apply (sinv_drawn _ _ Hinv).
  - intros r deal_id Hr Hown. apply keeps_forall; [done..|].
    by apply (sinv_roles _ _ Hinv).
  - intros deal_id file_urls Hin. apply keeps_forall; [done..|].
    by apply (sinv_tasks _ _ Hinv _ file_urls).
Qed.

(** The write by which the program that holds a deal gives it its next
    status, and takes its next role. *)
Lemma sinv_owner_put (sys : system) (rs1 rs2 : list role) (r r' : role)
    (o : store_op) (status : string) (pool' : list thread) :
  sinv sys (rs1 ++ r :: rs2) ->
  owner r = Some (op_id o) ->
  sets_status o status ->
  (forall s, allowed r s -> status_le s (VStr status)) ->
  (owner r' = Some (op_id o) /\
   (forall s, allowed r s -> allowed r' s) /\
   allowed r' (VStr status)) \/ r' = Quiet ->
  Forall2 plays (rs1 ++ r' :: rs2) pool' ->
  sinv {| state := write (state sys) o; pool := pool'; drawn := drawn sys |}
    (rs1 ++ r' :: rs2).
Proof.
  intros Hinv Hown Hset Hle Hnext Hplays.
  pose proof (sinv_world _ _ Hinv) as Hw.
  assert (Hr : r ∈ rs1 ++ r :: rs2) by set_solver.
  pose proof (sinv_roles _ _ Hinv r _ Hr Hown) as Hhist.
  destruct (other_holders _ _ _ _ _ (sinv_nodup _ _ Hinv) Hown)
    as [Hroles Hqueue].
  destruct (sets_winv (state sys) o status Hw Hset) as [Hw' Hnew].
  { intros s Hlast. apply Hle. apply last_Some_elem_of in Hlast.
    by apply (proj1 (Forall_forall _ _) Hhist). }
  assert (Hdrawn : op_id o ∈ drawn sys).
  { apply (sinv_drawn _ _ Hinv). rewrite holders_role, Hown. set_solver. }
  assert (Hsub : forall deal_id,
    deal_id ∈ holders (rs1 ++ r' :: rs2) (tasks (state sys)) ->
    deal_id ∈ holders (rs1 ++ r :: rs2) (tasks (state sys))).
  { intros deal_id. rewrite !holders_role, Hown.
    destruct Hnext as [(-> & _)| ->]; set_solver. }
  split; cbn [state pool drawn].
  - done.
  - done.
  - intros deal_id Hfresh. apply history_nil_forall.
    apply write_other_forall; [done|by intros ->|].
    apply history_nil_forall. by apply (sinv_fresh _ _ Hinv).
  - pose proof (sinv_nodup _ _ Hinv) as Hnd.
    rewrite holders_role, Hown in Hnd. rewrite holders_role.
    destruct Hnext as [(-> & _)| ->]; [done|].
    cbn [owner option_list option_rect app] in *.
    by apply NoDup_cons in Hnd as [_ Hnd].
  - intros deal_id Hin. apply (sinv_drawn _ _ Hinv). by apply Hsub.
  - intros r0 deal_id Hr0 Hown0.
    apply elem_of_app in Hr0 as [Hr0|Hr0];
      [|apply elem_of_cons in Hr0 as [->|Hr0]].
    + assert (deal_id <> op_id o)
        by (intros ->; apply (Hroles r0); [set_solver|done]).
      apply write_other_forall; [done..|].
      apply (sinv_roles _ _ Hinv); [set_solver|done].
    + destruct Hnext as [(Hown' & Hmono & Hlast)| ->]; [|done].
      assert (deal_id = op_id o) as -> by congruence.
      rewrite Hnew. apply Forall_app. split.
      * eapply Forall_impl; [exact Hhist|]. exact Hmono.
      * by repeat constructor.
    + assert (deal_id <> op_id o)
        by (intros ->; apply (Hroles r0); [set_solver|done]).
      apply write_other_forall; [done..|].
      apply (sinv_roles _ _ Hinv); [set_solver|done].
  - intros deal_id file_urls Hin. cbn [write tasks] in Hin.
    assert (deal_id <> op_id o) by (intros ->; by apply (Hqueue file_urls)).
    apply write_other_forall; [done..|].
    by apply (sinv_tasks _ _ Hinv _ file_urls).
Qed.

(** A request arrives or a task starts: a program joins the pool. *)
Lemma sinv_join (sys : system) (roles : list role) (r : role) (t : thread)
    (queue : list (string * dict)) (ids : list string) :
  sinv sys roles ->
  plays r t ->
  NoDup (holders (roles ++ [r]) queue) ->
  (forall deal_id, deal_id ∈ holders (roles ++ [r]) queue -> deal_id ∈ ids) ->
  (forall deal_id, deal_id ∉ ids -> deal_id ∉ drawn sys) ->
  (forall deal_id, owner r = Some deal_id ->
                   Forall (allowed r) (status_history deal_id (state sys))) ->
  (forall deal_id file_urls,
      (deal_id, file_urls) ∈ queue ->
      (deal_id, file_urls) ∈ tasks (state sys)) ->
  sinv {| state := without_task (state sys) queue;
          pool := pool sys ++ [t];
          drawn := ids |}
    (roles ++ [r]).
Proof.
  intros Hinv Hplays Hnd Hids Hfresh Hr Hqueue.
  split; cbn [state pool drawn without_task tasks].
  - apply Forall2_app; [apply (sinv_plays _ _ Hinv)|]. by repeat constructor.
  - destruct (sinv_world _ _ Hinv) as [Hs Hc]. by split.
  - intros deal_id Hnew. apply (sinv_fresh _ _ Hinv). by apply Hfresh.
  - done.
  - done.
  - intros r0 deal_id Hr0 Hown. apply elem_of_app in Hr0 as [Hr0|Hr0].
    + by apply (sinv_roles _ _ Hinv).
    + apply list_elem_of_singleton in Hr0 as ->. by apply Hr.
  - intros deal_id file_urls Hin.
    apply (sinv_tasks _ _ Hinv deal_id file_urls). by apply Hqueue.
Qed.

Lemma without_task_same (w : world) :
  without_task w (tasks w) = w.
Proof. by destruct w. Qed.

Lemma holders_quiet (roles : list role) (queue : list (string * dict)) :
  holders (roles ++ [Quiet]) queue = holders roles queue.
Proof. unfold holders. rewrite omap_app. cbn. by rewrite app_nil_r. Qed.

Lemma sinv_join_quiet (sys : system) (roles : list role) (t : thread) :
  sinv sys roles -> plays Quiet t ->
  sinv {| state := state sys; pool := pool sys ++ [t]; drawn := drawn sys |}
    (roles ++ [Quiet]).
Proof.
  intros Hinv Hplays.
  rewrite <- (without_task_same (state sys)) at 1.
  apply sinv_join; try done.
  - rewrite holders_quiet. apply (sinv_nodup _ _ Hinv).
  - intros deal_id. rewrite holders_quiet. apply (sinv_drawn _ _ Hinv).
Qed.

Lemma get_processing_status_quiet processing_status deal_id :
  quiet (get_processing_status processing_status deal_id).
Proof. unfold get_processing_status. quiet_tac. Qed.

Lemma fetch_specific_deal_quiet deal_id : quiet (fetch_specific_deal deal_id).
Proof. unfold fetch_specific_deal. quiet_tac. Qed.

Lemma download_memo_quiet download_file deal_id :
  quiet (download_memo download_file deal_id).
Proof. unfold download_memo. quiet_tac. Qed.

Lemma download_pitch_deck_quiet download_to_file deal_id :
  quiet (download_pitch_deck download_to_file deal_id).
Proof. unfold download_pitch_deck. apply quiet_get. intros r. apply quiet_ret. Qed.

(** What a program is after a read, whatever the store answered. *)
Lemma plays_get {A} (r : role) deal_id (k : result value -> prog A) res :
  plays r (Thread (Get deal_id k)) -> plays r (Thread (k res)).
Proof.
  destruct r; cbn [plays].
  - inversion 1; subst. auto.
  - by intros (o & k' & Heq & _).
  - inversion 1; subst. auto.
  - by intros (o & k' & Heq & _).
  - inversion 1; subst. auto.
Qed.

(** What a program is after a write that raised: the role it goes on
    with holds the same deal or none, and allows what the old one did. *)
Lemma plays_put_fails {A} (r : role) o (k : result unit -> prog A) e :
  plays r (Thread (Put o k)) ->
  exists r',
    plays r' (Thread (k (Raise e))) /\
    ((owner r' = owner r /\ forall s, allowed r s -> allowed r' s) \/
     r' = Quiet).
Proof.
  destruct r as [|id|id|id|id]; cbn [plays].
  - intros Hr. exists Quiet. split; [|by right].
    cbn. inversion Hr; subst. auto.
  - intros (o' & k' & [= -> ->] & _ & _ & _ & Hfail).
    exists Quiet. split; [cbn; auto|by right].
  - intros Hr. exists (Announcing id). split; [|by left].
    cbn. inversion Hr; subst. auto.
  - intros (o' & k' & [= -> ->] & _ & _ & Hk).
    exists (Finishing id). split; [cbn; auto|]. left. split; [done|].
    intros s ->. by left.
  - intros Hr. exists (Finishing id). split; [|by left].
    cbn. inversion Hr; subst. auto.
Qed.

(** A program goes on in another role, the store being as it was. *)
Lemma sinv_retype (sys : system) (rs1 rs2 : list role) (r r' : role)
    (pool' : list thread) :
  sinv sys (rs1 ++ r :: rs2) ->
  (owner r' = owner r /\ forall s, allowed r s -> allowed r' s) \/ r' = Quiet ->
  Forall2 plays (rs1 ++ r' :: rs2) pool' ->
  sinv {| state := state sys; pool := pool'; drawn := drawn sys |}
    (rs1 ++ r' :: rs2).
Proof.
  intros Hinv Hnext Hplays.
  assert (Hsub : forall deal_id,
    deal_id ∈ holders (rs1 ++ r' :: rs2) (tasks (state sys)) ->
    deal_id ∈ holders (rs1 ++ r :: rs2) (tasks (state sys))).
  { intros deal_id. rewrite !holders_role.
    destruct Hnext as [[-> _]| ->]; set_solver. }
  destruct Hinv as [_ Hw Hfresh Hnd Hdrawn Hroles Hq].
  split; cbn [state pool drawn]; try done.
  - rewrite holders_role in *.
    destruct Hnext as [[-> _]| ->]; [done|].
    cbn [owner option_list option_rect app].
    by apply NoDup_app in Hnd as (_ & _ & Hnd).
  - intros deal_id Hin. apply Hdrawn. by apply Hsub.
  - intros r0 deal_id Hr0 Hown.
    apply elem_of_app in Hr0 as [Hr0|Hr0];
      [|apply elem_of_cons in Hr0 as [->|Hr0]].
    + apply (Hroles r0 deal_id); [set_solver|done].
    + destruct Hnext as [[Hsame Hmono]| ->]; [|done].
      eapply Forall_impl; [|exact Hmono].
      apply (Hroles r deal_id); [set_solver|congruence].
    + apply (Hroles r0 deal_id); [set_solver|done].
Qed.

(** A program leaves the pool: it has returned or it is cancelled. *)
Lemma sinv_leave (sys : system) (rs1 rs2 : list role) (r : role)
    (pool' : list thread) :
  sinv sys (rs1 ++ r :: rs2) ->
  Forall2 plays (rs1 ++ rs2) pool' ->
  sinv {| state := state sys; pool := pool'; drawn := drawn sys |}
    (rs1 ++ rs2).
Proof.
  intros Hinv Hplays.
  assert (Hsub : forall id,
    id ∈ holders (rs1 ++ rs2) (tasks (state sys)) ->
    id ∈ holders (rs1 ++ r :: rs2) (tasks (state sys))).
  { intros id. rewrite holders_role. set_solver. }
  destruct Hinv as [_ Hw Hfresh Hnd Hdrawn Hroles Hq].
  split; cbn [state pool drawn]; try done.
  - rewrite holders_role in Hnd. by apply NoDup_app in Hnd as (_ & _ & Hnd).
  - intros id Hin. apply Hdrawn. by apply Hsub.
  - intros r1 id Hr0 Hown. apply (Hroles r1 id); [set_solver|done].
Qed.

(** Every step in which [uuid4] draws no identifier a second time keeps
    the invariant. *)
Lemma sinv_step (sys sys' : system) (roles : list role) :
  sinv sys roles -> step sys sys' -> NoDup (drawn sys') ->
  exists roles', sinv sys' roles'.
Proof.
  intros Hinv Hstep Hids.
  destruct Hstep as [sv deal_id pitch_deck sys
    |sv deal_id weightage sys|deal_id sys
    |processing_status deal_id sys|deal_id sys
    |download_file deal_id sys|download_to_file deal_id sys
    |sv deal_id file_urls earlier later sys Htasks
    |A deal_id k before behind sys Hpool
    |A deal_id k e before behind sys Hpool
    |A o k before behind sys Hpool
    |A o k e before behind sys Hpool
    |A deal_id file_urls k before behind sys Hpool
    |A r before behind sys Hpool
    |t before behind sys Hpool].
  - (* an upload arrives *)
    cbn [drawn] in Hids. apply NoDup_cons in Hids as [Hnew _].
    exists (roles ++ [Creating deal_id]).
    assert (Hnot : deal_id ∉ holders roles (tasks (state sys))).
    { intros Hin. apply Hnew. by apply (sinv_drawn _ _ Hinv). }
    rewrite <- (without_task_same (state sys)) at 1.
    apply sinv_join; try done.
    + apply upload_deal_creating.
    + rewrite (holders_role roles []), app_nil_r.
      cbn [owner option_list option_rect app].
      apply NoDup_cons. split; [done|apply (sinv_nodup _ _ Hinv)].
    + intros id. rewrite (holders_role roles []), app_nil_r.
      cbn [owner option_list option_rect app].
      intros Hin. apply elem_of_cons in Hin as [->|Hin]; [set_solver|].
      apply elem_of_cons. right. by apply (sinv_drawn _ _ Hinv).
    + intros id Hid Hin. apply Hid. apply elem_of_cons. by right.
    + intros id [= <-]. rewrite (sinv_fresh _ _ Hinv) by done. constructor.
  - (* a generate-memo request arrives *)
    exists (roles ++ [Quiet]). apply sinv_join_quiet; [done|].
    apply generate_memo_quiet.
  - (* a delete request arrives *)
    exists (roles ++ [Quiet]). apply sinv_join_quiet; [done|].
    apply delete_specific_deal_quiet.
  - (* a status poll arrives *)
    exists (roles ++ [Quiet]). apply sinv_join_quiet; [done|].
    apply get_processing_status_quiet.
  - (* a fetch arrives *)
    exists (roles ++ [Quiet]). apply sinv_join_quiet; [done|].
    apply fetch_specific_deal_quiet.
  - (* a memo download arrives *)
    exists (roles ++ [Quiet]). apply sinv_join_quiet; [done|].
    apply download_memo_quiet.
  - (* a pitch-deck download arrives *)
    exists (roles ++ [Quiet]). apply sinv_join_quiet; [done|].
    apply download_pitch_deck_quiet.
  - (* a background task starts *)
    exists (roles ++ [Starting deal_id]).
    pose proof (sinv_nodup _ _ Hinv) as Hnd. rewrite Htasks in Hnd.
    rewrite holders_task in Hnd.
    apply sinv_join; try done.
    + apply process_deal_starting.
    + rewrite (holders_role roles []), app_nil_r. done.
    + intros id. rewrite (holders_role roles []), app_nil_r.
      cbn [owner option_list option_rect app]. intros Hin.
      apply (sinv_drawn _ _ Hinv). by rewrite Htasks, holders_task.
    + intros id [= <-]. apply (sinv_tasks _ _ Hinv deal_id file_urls).
      rewrite Htasks. set_solver.
    + intros id urls Hin. rewrite Htasks. set_solver.
  - (* a program reads the store *)
    pose proof (sinv_plays _ _ Hinv) as Hplays. rewrite Hpool in Hplays.
    apply pool_split in Hplays as (rs1 & r & rs2 & -> & H1 & Hr & H2).
    exists (rs1 ++ r :: rs2). apply (sinv_retype sys rs1 rs2 r r); [done|..].
    + by left.
    + apply pool_join; [done| |done]. by apply (plays_get r deal_id k).
  - (* a read raises *)
    pose proof (sinv_plays _ _ Hinv) as Hplays. rewrite Hpool in Hplays.
    apply pool_split in Hplays as (rs1 & r & rs2 & -> & H1 & Hr & H2).
    exists (rs1 ++ r :: rs2). apply (sinv_retype sys rs1 rs2 r r); [done|..].
    + by left.
    + apply pool_join; [done| |done]. by apply (plays_get r deal_id k).
  - (* a program writes to the store *)
    pose proof (sinv_plays _ _ Hinv) as Hplays. rewrite Hpool in Hplays.
    apply pool_split in Hplays as (rs1 & r & rs2 & -> & H1 & Hr & H2).
    destruct r as [|id|id|id|id]; cbn [plays] in Hr.
    + exists (rs1 ++ Quiet :: rs2). inversion Hr; subst.
      apply sinv_keeps_put; [done..|]. apply pool_join; [done| |done].
      cbn. auto.
    + exists (rs1 ++ Announcing id :: rs2).
      destruct Hr as (o' & k' & [= -> ->] & <- & Hset & Hk & _).
      apply (sinv_owner_put sys rs1 rs2 (Creating (op_id o'))
               (Announcing (op_id o')) o' "uploading"); try done.
      * left. by repeat split.
      * by apply pool_join.
    + exists (rs1 ++ Announcing id :: rs2). inversion Hr; subst.
      apply sinv_keeps_put; [done..|]. apply pool_join; [done| |done].
      cbn. auto.
    + exists (rs1 ++ Finishing id :: rs2).
      destruct Hr as (o' & k' & [= -> ->] & <- & Hset & Hk).
      apply (sinv_owner_put sys rs1 rs2 (Starting (op_id o'))
               (Finishing (op_id o')) o' "processing"); try done.
      * intros s ->. constructor.
      * left. split; [done|]. split; [by left|by right].
      * apply pool_join; [done| |done]. cbn. auto.
    + exists (rs1 ++ Quiet :: rs2).
      inversion Hr as [| |o' k' status Hid Hset Hst Hk Hfail]; subst.
      apply (sinv_owner_put sys rs1 rs2 (Finishing (op_id o)) Quiet o status);
        try done.
      * intros s [-> | ->]; destruct Hst as [-> | ->]; constructor.
      * by right.
      * by apply pool_join.
  - (* a write raises *)
    pose proof (sinv_plays _ _ Hinv) as Hplays. rewrite Hpool in Hplays.
    apply pool_split in Hplays as (rs1 & r & rs2 & -> & H1 & Hr & H2).
    destruct (plays_put_fails r o k e Hr) as (r' & Hr' & Hnext).
    exists (rs1 ++ r' :: rs2). apply (sinv_retype sys rs1 rs2 r r'); [done..|].
    by apply pool_join.
  - (* an upload schedules its task *)
    pose proof (sinv_plays _ _ Hinv) as Hplays. rewrite Hpool in Hplays.
    apply pool_split in Hplays as (rs1 & r & rs2 & -> & H1 & Hr & H2).
    destruct r as [|id|id|id|id]; cbn [plays] in Hr.
    + inversion Hr.
    + by destruct Hr as (o & k' & Heq & _).
    + exists (rs1 ++ Quiet :: rs2). inversion Hr as [| | |urls k' Hk]; subst.
      assert (Hin : Announcing deal_id ∈ rs1 ++ Announcing deal_id :: rs2)
        by set_solver.
      pose proof (sinv_roles _ _ Hinv _ deal_id Hin eq_refl) as Hhist.
      pose proof (sinv_nodup _ _ Hinv) as Hnd.
      assert (Hperm :
        holders (rs1 ++ Quiet :: rs2)
          (tasks (state sys) ++ [(deal_id, file_urls)])
        ≡ₚ holders (rs1 ++ Announcing deal_id :: rs2) (tasks (state sys))).
      { rewrite !holders_role. cbn [owner option_list option_rect app].
        rewrite <- (app_nil_r (tasks (state sys) ++ [(deal_id, file_urls)])).
        rewrite <- app_assoc. cbn [app]. rewrite holders_task.
        by rewrite app_nil_r. }
      destruct Hinv as [_ Hw Hfresh _ Hdrawn Hroles Hq].
      split; cbn [state pool drawn with_task tasks db journal].
      * by apply pool_join.
      * destruct Hw as [Hs Hc]. by split.
      * done.
      * by rewrite Hperm.
      * intros id. rewrite Hperm. apply Hdrawn.
      * intros r0 id Hr0 Hown. apply (Hroles r0 id); [|done].
        apply elem_of_app in Hr0 as [?|Hr0]; [set_solver|].
        apply elem_of_cons in Hr0 as [->|?]; [done|set_solver].
      * intros id urls Hin'. apply elem_of_app in Hin' as [?|Hin'].
        -- by apply (Hq id urls).
        -- apply list_elem_of_singleton in Hin'. by injection Hin' as -> ->.
    + by destruct Hr as (o & k' & Heq & _).
    + inversion Hr.
  - (* a program returns *)
    pose proof (sinv_plays _ _ Hinv) as Hplays. rewrite Hpool in Hplays.
    apply pool_split in Hplays as (rs1 & r0 & rs2 & -> & H1 & Hr & H2).
    exists (rs1 ++ rs2). apply (sinv_leave sys rs1 rs2 r0); [done|].
    by apply Forall2_app.
  - (* a program is cancelled *)
    pose proof (sinv_plays _ _ Hinv) as Hplays. rewrite Hpool in Hplays.
    apply pool_split in Hplays as (rs1 & r0 & rs2 & -> & H1 & Hr & H2).
    exists (rs1 ++ rs2). apply (sinv_leave sys rs1 rs2 r0); [done|].
    by apply Forall2_app.
Qed.

(** A step adds at most one identifier to those drawn. *)
Lemma step_drawn (sys sys' : system) :
  step sys sys' ->
  drawn sys' = drawn sys \/ exists deal_id, drawn sys' = deal_id :: drawn sys.
Proof. destruct 1; cbn [drawn]; eauto. Qed.

Lemma sinv_reachable (sys : system) :
  reachable sys -> NoDup (drawn sys) -> exists roles, sinv sys roles.
Proof.
  induction 1 as [|sys sys' _ IH Hstep]; intros Hids;
    [exists []; apply sinv_start|].
  destruct IH as [roles IH].
  { destruct (step_drawn _ _ Hstep) as [Heq|[deal_id Heq]];
      rewrite Heq in Hids; [done|].
    by apply NoDup_cons in Hids as [_ Hids]. }
  by apply (sinv_step sys sys' roles).
Qed.

End Invariant.

(** ** The system over time: the properties *)





(** A program in flight may run to its end with nothing in between: the
    run in one piece is one of the interleavings. *)
Lemma run_to_end {A} (p : prog A) (sys : system) (before behind : list thread) :
  pool sys = before ++ Thread p :: behind ->
  rtc step sys {| state := fst (exec p (state sys));
                  pool := before ++ behind;
                  drawn := drawn sys |}.
Proof.
  revert sys. induction p as [r|deal_id k IH|o k IH|deal_id file_urls k IH];
    intros sys Hpool.
  - apply rtc_once. by apply (step_return r before behind).
  - eapply rtc_l; [by apply (step_get deal_id k before behind)|].
    by apply (IH _ {| state := state sys; pool := _; drawn := drawn sys |}).
  - eapply rtc_l; [by apply (step_put o k before behind)|].
    by apply (IH _ {| state := _; pool := _; drawn := drawn sys |}).
  - eapply rtc_l; [by apply (step_spawn deal_id file_urls k before behind)|].
    by apply (IH {| state := _; pool := _; drawn := drawn sys |}).
Qed.

(** So is its run by a store that fails or cancels as a schedule says. *)
Lemma run_steps {A} (p : prog A) (schedule : list answer) (sys : system)
    (before behind : list thread) :
  pool sys = before ++ Thread p :: behind ->
  rtc step sys {| state := fst (fst (run p schedule (state sys)));
                  pool := before ++ behind;
                  drawn := drawn sys |}.
Proof.
  revert schedule sys.
  induction p as [r|deal_id k IH|o k IH|deal_id file_urls k IH];
    intros schedule sys Hpool.
  - apply rtc_once. by apply (step_return r before behind).
  - destruct schedule as [|[|e|] rest]; cbn [run fst].
    + eapply rtc_l; [by apply (step_get deal_id k before behind)|].
      by apply (IH _ [] {| state := state sys; pool := _; drawn := drawn sys |}).
    + eapply rtc_l; [by apply (step_get deal_id k before behind)|].
      by apply (IH _ rest
                  {| state := state sys; pool := _; drawn := drawn sys |}).
    + eapply rtc_l; [by apply (step_get_fails deal_id k e before behind)|].
      by apply (IH _ rest
                  {| state := state sys; pool := _; drawn := drawn sys |}).
    + apply rtc_once. by apply (step_cancel (Thread (Get deal_id k)) before behind).
  - destruct schedule as [|[|e|] rest]; cbn [run fst].
    + eapply rtc_l; [by apply (step_put o k before behind)|].
      by apply (IH _ [] {| state := _; pool := _; drawn := drawn sys |}).
    + eapply rtc_l; [by apply (step_put o k before behind)|].
      by apply (IH _ rest {| state := _; pool := _; drawn := drawn sys |}).
    + eapply rtc_l; [by apply (step_put_fails o k e before behind)|].
      by apply (IH _ rest
                  {| state := state sys; pool := _; drawn := drawn sys |}).
    + apply rtc_once. by apply (step_cancel (Thread (Put o k)) before behind).
  - eapply rtc_l; [by apply (step_spawn deal_id file_urls k before behind)|].
    by apply (IH schedule {| state := _; pool := _; drawn := drawn sys |}).
Qed.

Lemma reachable_rtc (sys sys' : system) :
  reachable sys -> rtc step sys sys' -> reachable sys'.
Proof.
  intros Hreach Hsteps. induction Hsteps as [|sys sys1 sys2 Hstep _ IH];
    [done|].
  apply IH. by apply (reachable_step sys).
Qed.

Lemma uploaded_reachable :
  reachable {| state := uploaded; pool := []; drawn := ["3fa9c1"] |}.
Proof.
  eapply reachable_rtc;
    [|exact (run_to_end
               (upload_deal (sample_services (Ok two_pages)) "3fa9c1" true)
               {| state := initial;
                  pool := [] ++ [Thread (upload_deal
                                   (sample_services (Ok two_pages))
                                   "3fa9c1" true)];
                  drawn := ["3fa9c1"] |} [] [] eq_refl)].
  apply (reachable_step start); [constructor|].
  apply (step_upload _ "3fa9c1" true start).
Qed.

Lemma task_run_reachable (sv : services) (schedule : list answer) :
  reachable {| state := fst (fst (run (process_deal sv "3fa9c1" deck_urls)
                                    schedule (without_task uploaded [])));
               pool := []; drawn := ["3fa9c1"] |}.
Proof.
  eapply reachable_rtc;
    [|exact (run_steps (process_deal sv "3fa9c1" deck_urls) schedule
               {| state := without_task uploaded ([] ++ []);
                  pool := [] ++ [Thread (process_deal sv "3fa9c1" deck_urls)];
                  drawn := ["3fa9c1"] |} [] [] eq_refl)].
  apply (reachable_step
           {| state := uploaded; pool := []; drawn := ["3fa9c1"] |});
    [apply uploaded_reachable|].
  exact (step_start_task sv "3fa9c1" deck_urls [] []
           {| state := uploaded; pool := []; drawn := ["3fa9c1"] |} eq_refl).
Qed.





(** ** Strings: stripping and page numbers *)

Section Strings.

Lemma rstrip_idemp (s : string) : rstrip (rstrip s) = rstrip s.
Proof.
  induction s as [|c s IH]; [done|]. cbn [rstrip].
  destruct (rstrip s) as [|d r] eqn:Hr.
  - destruct (is_space c) eqn:Hc; [done|]. cbn [rstrip]. by rewrite Hc.
  - change (rstrip (String c (String d r)))
      with (match rstrip (String d r) with
            | EmptyString =>
                if is_space c then EmptyString else String c EmptyString
            | r' => String c r'
            end).
    by rewrite IH.
Qed.

Lemma lstrip_head (s : string) :
  lstrip s = "" \/ exists c t, lstrip s = String c t /\ is_space c = false.
Proof.
  induction s as [|c s IH]; [by left|]. cbn [lstrip].
  destruct (is_space c) eqn:Hc; [done|]. right. by exists c, s.
Qed.

Lemma rstrip_head (c : ascii) (t : string) :
  is_space c = false -> exists t', rstrip (String c t) = String c t'.
Proof.
  intros Hc. cbn [rstrip]. destruct (rstrip t) as [|d r].
  - rewrite Hc. by eexists.
  - by eexists.
Qed.

(** Stripping a stripped string changes nothing. *)
Lemma strip_idemp (s : string) : strip (strip s) = strip s.
Proof.
  unfold strip. destruct (lstrip_head s) as [->|(c & t & -> & Hc)]; [done|].
  destruct (rstrip_head c t Hc) as [t' Ht']. rewrite Ht'.
  cbn [lstrip]. rewrite Hc, <- Ht'. apply rstrip_idemp.
Qed.

Lemma to_uint_nonnil (n : nat) : Nat.to_uint n <> Decimal.Nil.
Proof.
  rewrite <- (DecimalNat.Unsigned.of_to n), DecimalNat.Unsigned.to_of.
  apply DecimalFacts.unorm_nonnil.
Qed.

(** Two numbers with the same decimal writing are equal. *)
Lemma str_of_nat_inj (n m : nat) : str_of_nat n = str_of_nat m -> n = m.
Proof.
  unfold str_of_nat. intros H. apply DecimalNat.Unsigned.to_uint_inj.
  assert (Hn := NilZero.usu (Nat.to_uint n) (to_uint_nonnil n)).
  assert (Hm := NilZero.usu (Nat.to_uint m) (to_uint_nonnil m)).
  rewrite H in Hn. congruence.
Qed.

Lemma join_cons_nonempty (sep p : string) (ps : list string) :
  p <> "" -> join sep (p :: ps) <> "".
Proof.
  intros Hp. destruct ps as [|q ps]; cbn [join]; [done|].
  destruct p; [done|]. discriminate.
Qed.

End Strings.

(** ** Extraction: what the returned texts look like *)

Section ExtractedTexts.

Import PDFProcessor.

Lemma mapM_result_Forall {A B} (f : A -> result B) (P : B -> Prop)
    (l : list A) (ys : list B) :
  (forall x y, f x = Ok y -> P y) ->
  mapM f l = Ok ys -> Forall P ys.
Proof.
  intros Hf. revert ys. induction l as [|x l IH]; intros ys H.
  - injection H as <-. constructor.
  - change (mapM f (x :: l))
      with (f x ≫= fun y => mapM f l ≫= fun k => mret (y :: k)) in H.
    destruct (f x) as [y|e] eqn:Hx; [|discriminate].
    destruct (mapM f l) as [k|e]; [|discriminate].
    injection H as <-. constructor; eauto.
Qed.

Lemma stripped_page_stripped (resp : value) (s : string) :
  stripped_page resp = Ok s -> strip s = s.
Proof.
  unfold stripped_page. destruct (page_text_of resp) as [pt|e]; [|done].
  res_simpl. destruct pt; try done. cbn [py_strip].
  intros [= <-]. apply strip_idemp.
Qed.

Lemma blob_pages_stripped (b : blob) (ps : list string) :
  blob_pages b = Ok ps -> Forall (fun t => strip t = t) ps.
Proof.
  unfold blob_pages. destruct (download_as_json b) as [data|e]; [|done].
  res_simpl. destruct (py_get data "responses" (VList [])) as [rs|e]; [|done].
  res_simpl. destruct (iter rs) as [items|e]; [|done]. res_simpl.
  apply mapM_result_Forall. apply stripped_page_stripped.
Qed.

Lemma pages_in_order_stripped (bs : list blob) (ps : list string) :
  pages_in_order bs = Ok ps -> Forall (fun t => strip t = t) ps.
Proof.
  unfold pages_in_order.
  destruct (mapM blob_pages bs) as [pss|e] eqn:H; [|done]. res_simpl.
  intros [= <-]. apply Forall_concat.
  revert H. apply mapM_result_Forall. apply blob_pages_stripped.
Qed.

Lemma filter_nonempty_Forall (P : string -> Prop) (ps : list string) :
  Forall P ps ->
  Forall (fun t => t <> "" /\ P t) (List.filter nonempty ps).
Proof.
  induction 1 as [|t ps Ht _ IH]; cbn [List.filter]; [constructor|].
  destruct t as [|c t]; cbn [nonempty]; [done|]. by constructor.
Qed.

(** The shape of every result of [_extract_text_from_pdf]. *)
Lemma extract_text_shape (sv : services) (gcs_path : value) :
  _extract_text_from_pdf sv gcs_path = [""] \/
  exists first rest,
    _extract_text_from_pdf sv gcs_path = first :: rest /\
    Forall (fun t => t <> "" /\ strip t = t) (first :: rest).
Proof.
  unfold _extract_text_from_pdf. rewrite snd_extract_try.
  destruct (vision_ocr sv gcs_path) as [listing|e]; res_simpl; [|by left].
  destruct (pages_in_order _) as [ps|e] eqn:Hps; res_simpl; [|by left].
  apply pages_in_order_stripped, filter_nonempty_Forall in Hps.
  destruct (List.filter nonempty ps) as [|t ts]; [by left|].
  right. by exists t, ts.
Qed.

Lemma filter_enumerate_nil (g : nat -> nat) (l : list string) :
  List.filter (fun it : nat * string => nonempty (snd it))
    (imap (fun i x => (g i, x)) l) = []
  <-> Forall (fun t => t = "") l.
Proof.
  revert g. induction l as [|t l IH]; intros g.
  - cbn. split; [constructor|done].
  - rewrite imap_cons. cbn [List.filter snd].
    destruct t as [|c t]; cbn [nonempty].
    + change ((fun i x => (g i, x)) ∘ S) with (fun i (x : string) => (g (S i), x)).
      rewrite (IH (fun i => g (S i))). split; [by constructor|].
      by inversion 1.
    + split; [done|]. by inversion 1.
Qed.

Lemma full_text_of_empty (page_texts : list string) :
  full_text_of page_texts = "" <-> Forall (fun t => t = "") page_texts.
Proof.
  unfold full_text_of, enumerate.
  rewrite <- (filter_enumerate_nil (fun i => i)).
  destruct (List.filter _ _) as [|it its]; [done|].
  split; [|done]. intros H. exfalso. revert H. cbn [map].
  by apply join_cons_nonempty.
Qed.

Lemma raw_of_lookup_from (k i : nat) (l : list string) :
  dict_get (map (fun it : nat * string =>
                   (str_of_nat (fst it + 1), VStr (snd it)))
              (imap (fun j x => (k + j, x)) l))
    (str_of_nat (k + i + 1))
  = VStr <$> l !! i.
Proof.
  revert k i. induction l as [|t l IH]; intros k i; [done|].
  rewrite imap_cons. cbn [map dict_get fst snd].
  destruct i as [|i].
  - rewrite Nat.add_0_r, String.eqb_refl. done.
  - destruct (String.eqb_spec (str_of_nat (k + 0 + 1))
                (str_of_nat (k + S i + 1))) as [Heq|_].
    + apply str_of_nat_inj in Heq. lia.
    + rewrite (imap_ext _ (fun j x => (S k + j, x)))
        by (intros; cbn; f_equal; lia).
      replace (k + S i + 1) with (S k + i + 1) by lia. apply IH.
Qed.

Lemma raw_of_lookup_none (k n : nat) (l : list string) :
  n < k + 1 \/ k + length l < n ->
  dict_get (map (fun it : nat * string =>
                   (str_of_nat (fst it + 1), VStr (snd it)))
              (imap (fun j x => (k + j, x)) l))
    (str_of_nat n)
  = None.
Proof.
  revert k. induction l as [|t l IH]; intros k Hn; [done|].
  rewrite imap_cons. cbn [map dict_get fst snd].
  destruct (String.eqb_spec (str_of_nat (k + 0 + 1)) (str_of_nat n)) as [Heq|_].
  - apply str_of_nat_inj in Heq. cbn [length] in Hn. lia.
  - rewrite (imap_ext _ (fun j x => (S k + j, x)))
      by (intros; cbn; f_equal; lia).
    apply IH. cbn [length] in Hn. lia.
Qed.

End ExtractedTexts.

(** X1: every text [_extract_text_from_pdf] returns is stripped of leading
    and trailing white space and is not empty, unless the whole result is
    the single empty string. *)
Theorem extracted_texts_are_stripped (sv : services) (gcs_path : value) :
  PDFProcessor._extract_text_from_pdf sv gcs_path = [""] \/
  Forall (fun t => t <> "" /\ strip t = t)
    (PDFProcessor._extract_text_from_pdf sv gcs_path).
Proof.
  destruct (extract_text_shape sv gcs_path) as [H|(t & ts & -> & H)]; auto.
Qed.

(** X2: the text [process_pdf] hands to the summarizer is empty exactly
    when every page text is empty; for the page texts of
    [_extract_text_from_pdf] that is exactly when the extraction returned
    the single empty string, so the summarizer is asked about an empty
    document after a failed or fruitless extraction and at no other time. *)
Theorem summarizer_input_is_empty_iff_no_text :
  (forall page_texts,
      PDFProcessor.full_text_of page_texts = ""
      <-> Forall (fun t => t = "") page_texts) /\
  (forall sv gcs_path,
      PDFProcessor.full_text_of (PDFProcessor._extract_text_from_pdf sv gcs_path)
      = ""
      <-> PDFProcessor._extract_text_from_pdf sv gcs_path = [""]).
Proof.
  split; [apply full_text_of_empty|]. intros sv gcs_path.
  destruct (extract_text_shape sv gcs_path) as [->|(t & ts & -> & H)].
  - done.
  - rewrite full_text_of_empty. split.
    + intros Hall. apply Forall_cons in Hall as [-> _].
      apply Forall_cons in H as [[Ht _] _]. done.
    + intros [= -> ->]. by repeat constructor.
Qed.

(** X3: the [raw] mapping [process_pdf] builds numbers the pages from 1:
    the key [str(i + 1)] holds the text at index [i], and no other decimal
    key is present. *)
Theorem raw_pages_are_numbered_from_one (page_texts : list string) :
  (forall i t,
      page_texts !! i = Some t ->
      subscript (PDFProcessor.raw_of page_texts) (str_of_nat (i + 1))
      = Ok (VStr t)) /\
  (forall n,
      n = 0 \/ length page_texts < n ->
      subscript (PDFProcessor.raw_of page_texts) (str_of_nat n)
      = Raise (KeyError (str_of_nat n))).
Proof.
  unfold PDFProcessor.raw_of, PDFProcessor.enumerate. split.
  - intros i t Hi. cbn [subscript].
    rewrite (imap_ext _ (fun j x => (0 + j, x))) by done.
    change (i + 1) with (0 + i + 1). rewrite raw_of_lookup_from, Hi. done.
  - intros n Hn. cbn [subscript].
    rewrite (imap_ext _ (fun j x => (0 + j, x))) by done.
    rewrite raw_of_lookup_none; [done|]. lia.
Qed.

Lemma raw_pages_are_numbered_from_one_witness :
  subscript (PDFProcessor.raw_of ["Paylane"; "Team"]) "2" = Ok (VStr "Team") /\
  subscript (PDFProcessor.raw_of ["Paylane"; "Team"]) "3"
  = Raise (KeyError "3").
Proof.
  split.
  - apply (proj1 (raw_pages_are_numbered_from_one ["Paylane"; "Team"]) 1).
    reflexivity.
  - apply (proj2 (raw_pages_are_numbered_from_one ["Paylane"; "Team"]) 3).
    right. cbn. lia.
Defined.

(** ** Extraction: the fallback of the response loop *)

Section Fallback.

Import PDFProcessor.

Lemma mapM_map_ok {A B C} (f : B -> result C) (g : A -> B) (h : A -> C)
    (l : list A) :
  (forall x, f (g x) = Ok (h x)) -> mapM f (map g l) = Ok (map h l).
Proof.
  intros Hf. induction l as [|x l IH]; [done|].
  change (mapM f (map g (x :: l)))
    with (f (g x) ≫= fun y => mapM f (map g l) ≫= fun k => mret (y :: k)).
  by rewrite Hf, IH.
Qed.

Lemma for_each_map_ok {A B C} (f : list C -> B -> result (list C))
    (g : A -> B) (h : A -> list C) (l : list A) (acc : list C) :
  (forall acc x, f acc (g x) = Ok (acc ++ h x)) ->
  for_each f acc (map g l) = Ok (acc ++ concat (map h l)).
Proof.
  intros Hf. revert acc. induction l as [|x l IH]; intros acc.
  - cbn. by rewrite app_nil_r.
  - cbn [map for_each concat]. rewrite Hf. res_simpl.
    by rewrite IH, app_assoc.
Qed.

Lemma word_symbols_json (symbols : list string) :
  word_symbols (word_json symbols) = Ok (join "" symbols).
Proof.
  unfold word_symbols, word_json. cbn [py_get dict_get String.eqb].
  cbn. rewrite (mapM_map_ok _ symbol_json VStr) by done. res_simpl.
  rewrite <- (map_id symbols) at 2.
  by rewrite (mapM_map_ok as_str VStr id).
Qed.

Lemma paragraph_text_json (words : list (list string)) :
  paragraph_text (paragraph_json words) = Ok (paragraph_words words).
Proof.
  unfold paragraph_text, paragraph_json, paragraph_words. cbn.
  by rewrite (mapM_map_ok _ word_json (join "")) by apply word_symbols_json.
Qed.

Lemma concat_singletons {A B} (f : A -> B) (l : list A) :
  concat (map (fun x => [f x]) l) = map f l.
Proof. induction l as [|x l IH]; [done|]. cbn. by rewrite IH. Qed.

Lemma reconstruct_layout (pages : list (list (list (list (list string))))) :
  reconstruct (layout_response pages)
  = Ok (strip (join nl (map paragraph_words (concat (concat pages))))).
Proof.
  unfold reconstruct, layout_response. cbn [py_get dict_get String.eqb].
  cbn -[for_each strip join nl].
  rewrite (for_each_map_ok _ page_json
             (fun page => map paragraph_words (concat page))).
  - res_simpl. cbn [app]. do 3 f_equal.
    induction pages as [|page pages IH]; [done|].
    cbn [map concat]. by rewrite IH, concat_app, map_app.
  - intros acc page. unfold page_json. cbn -[for_each].
    rewrite (for_each_map_ok _ block_json (map paragraph_words)).
    + by rewrite concat_map.
    + intros acc' block. unfold block_json. cbn -[for_each].
      rewrite (for_each_map_ok _ paragraph_json
                 (fun para => [paragraph_words para])).
      * by rewrite concat_singletons.
      * intros acc'' para. by rewrite paragraph_text_json.
Qed.

End Fallback.

(** X4: for a response without [fullTextAnnotation] the response loop
    rebuilds the text of the page from its layout: one line per paragraph,
    in the order of the pages, blocks and paragraphs, each line the words
    of the paragraph separated by single spaces and each word the
    concatenation of its symbols; the whole is stripped, and appended
    unless it is empty. *)
Theorem fallback_rebuilds_text_from_layout (texts : list string)
    (pages : list (list (list (list (list string))))) :
  PDFProcessor.add_page texts (layout_response pages)
  = Ok (if nonempty (strip (join nl (map paragraph_words
                                       (concat (concat pages)))))
        then texts ++ [strip (join nl (map paragraph_words
                                         (concat (concat pages))))]
        else texts).
Proof.
  rewrite add_page_stripped. unfold stripped_page, PDFProcessor.page_text_of.
  rewrite reconstruct_layout. cbn [py_get layout_response dict_get].
  cbn -[strip join nl nonempty]. cbn [nonempty]. res_simpl. cbn [py_strip].
  by rewrite strip_idemp.
Qed.

(** X5: a response without [fullTextAnnotation] never fails the batch,
    whatever else it holds: the response loop goes on with the texts it
    had, plus at most the rebuilt text; when the layout cannot be walked
    the page counts as blank. *)
Theorem unreadable_layout_is_a_blank_page (texts : list string) (d : dict) :
  dict_get d "fullTextAnnotation" = None ->
  (exists texts', PDFProcessor.add_page texts (VDict d) = Ok texts') /\
  (forall e, PDFProcessor.reconstruct (VDict d) = Raise e ->
             PDFProcessor.add_page texts (VDict d) = Ok texts).
Proof.
  intros Hfull. rewrite add_page_stripped.
  unfold stripped_page, PDFProcessor.page_text_of. cbn [py_get].
  rewrite Hfull. cbn [from_option id]. res_simpl. cbn [py_get dict_get].
  cbn [from_option id]. res_simpl. cbn [truthy nonempty].
  split.
  - destruct (PDFProcessor.reconstruct (VDict d)); cbn [py_strip]; res_simpl;
      eauto.
  - intros e ->. reflexivity.
Qed.

Lemma unreadable_layout_is_a_blank_page_witness :
  PDFProcessor.reconstruct (VDict [("pages", VNum 7)])
  = Raise (TypeError "'int' object is not iterable") /\
  PDFProcessor.add_page ["A"] (VDict [("pages", VNum 7)]) = Ok ["A"].
Proof.
  split; [reflexivity|].
  exact (proj2 (unreadable_layout_is_a_blank_page ["A"] [("pages", VNum 7)]
                  eq_refl) _ eq_refl).
Defined.

(** ** Extraction: the clean-up of the artifacts *)

Section CleanUp.

Import PDFProcessor.

Lemma insert_by_name_same (a b : blob) (l l' : list blob) :
  same_artifact a b -> Forall2 same_artifact l l' ->
  Forall2 same_artifact (insert_by_name a l) (insert_by_name b l').
Proof.
  intros Hab. induction 1 as [|c c' l l' Hc Hl IH]; cbn [insert_by_name].
  - constructor; [done|constructor].
  - rewrite <- (proj1 Hab), <- (proj1 Hc).
    destruct (String.leb (name a) (name c)).
    + constructor; [done|]. by constructor.
    + by constructor.
Qed.

Lemma sorted_by_name_same (l l' : list blob) :
  Forall2 same_artifact l l' ->
  Forall2 same_artifact (sorted_by_name l) (sorted_by_name l').
Proof.
  induction 1 as [|a b l l' Hab _ IH]; cbn [sorted_by_name]; [constructor|].
  by apply insert_by_name_same.
Qed.

Lemma filter_is_json_same (l l' : list blob) :
  Forall2 same_artifact l l' ->
  Forall2 same_artifact (List.filter is_json l) (List.filter is_json l').
Proof.
  induction 1 as [|a b l l' Hab _ IH]; cbn [List.filter]; [constructor|].
  assert (Hjson : is_json b = is_json a)
    by (unfold is_json; by rewrite (proj1 Hab)).
  rewrite Hjson. destruct (is_json a); [by constructor|done].
Qed.

Lemma pages_in_order_same (l l' : list blob) :
  Forall2 same_artifact l l' -> pages_in_order l = pages_in_order l'.
Proof.
  induction 1 as [|a b l l' Hab _ IH]; [done|].
  rewrite !pages_in_order_cons, IH. unfold blob_pages.
  by rewrite (proj2 Hab).
Qed.

Lemma fst_extract_try (sv : services) (gcs_path : value) :
  deleted_artifacts sv gcs_path
  = match vision_ocr sv gcs_path with
    | Ok listing => fst (read_blobs (sorted_by_name listing) [] [])
    | Raise _ => []
    end.
Proof.
  unfold deleted_artifacts, extract_try.
  destruct (vision_ocr sv gcs_path) as [listing|e]; [|done].
  by destruct (read_blobs _ [] []) as [deleted [texts|e]].
Qed.

(** What the blob loop deletes: artifacts it has read, one by one. *)
Lemma read_blobs_deleted (bs : list blob) (texts deleted : list string)
    (n : string) :
  n ∈ fst (read_blobs bs texts deleted) ->
  n ∈ deleted \/
  exists b, b ∈ bs /\ name b = n /\ is_json b = true /\
            delete_raises b = false /\ exists ps, blob_pages b = Ok ps.
Proof.
  revert texts deleted. induction bs as [|b bs IH]; intros texts deleted.
  - cbn. auto.
  - cbn [read_blobs]. change (endswith (name b) ".json") with (is_json b).
    destruct (is_json b) eqn:Hjson; cbn [negb].
    + rewrite read_blob_pages.
      destruct (blob_pages b) as [ps|e] eqn:Hps; res_simpl; [|by left].
      intros Hin. apply IH in Hin as [Hin|(b' & Hb' & H)].
      * destruct (delete_raises b) eqn:Hdel; [by left|].
        apply elem_of_app in Hin as [Hin|Hin]; [by left|].
        apply list_elem_of_singleton in Hin as ->. right.
        exists b. repeat split; try done; [set_solver|by eauto].
      * right. exists b'. split; [set_solver|done].
    + intros Hin. apply IH in Hin as [Hin|(b' & Hb' & H)]; [by left|].
      right. exists b'. split; [set_solver|done].
Qed.

Lemma read_blobs_deleted_all (bs : list blob) (texts deleted ps : list string) :
  pages_in_order (List.filter is_json bs) = Ok ps ->
  fst (read_blobs bs texts deleted)
  = deleted
    ++ map name
         (List.filter (fun b => is_json b && negb (delete_raises b)) bs).
Proof.
  revert texts deleted ps. induction bs as [|b bs IH]; intros texts deleted ps.
  - cbn. by rewrite app_nil_r.
  - cbn [read_blobs List.filter].
    change (endswith (name b) ".json") with (is_json b).
    destruct (is_json b) eqn:Hjson; cbn [negb andb].
    + rewrite pages_in_order_cons, read_blob_pages.
      destruct (blob_pages b) as [qs|e]; res_simpl; [|done].
      destruct (pages_in_order (List.filter is_json bs)) as [rs|e] eqn:Hrs;
        res_simpl; [|done].
      intros _. rewrite (IH _ _ rs) by done.
      destruct (delete_raises b); cbn [negb map]; [done|].
      by rewrite <- app_assoc.
    + apply IH.
Qed.

End CleanUp.

(** X6: a deletion that fails changes nothing in the result: two runs over
    the same artifacts, with the same names and contents, return the same
    texts whichever deletions raise. *)
Theorem deletion_failures_do_not_change_the_texts (sv sv' : services)
    (gcs_path : value) (listing listing' : list blob) :
  vision_ocr sv gcs_path = Ok listing ->
  vision_ocr sv' gcs_path = Ok listing' ->
  Forall2 same_artifact listing listing' ->
  PDFProcessor._extract_text_from_pdf sv gcs_path
  = PDFProcessor._extract_text_from_pdf sv' gcs_path.
Proof.
  intros Hocr Hocr' Hsame. unfold PDFProcessor._extract_text_from_pdf.
  rewrite !snd_extract_try, Hocr, Hocr'. res_simpl.
  by rewrite (pages_in_order_same _ _
                (filter_is_json_same _ _ (sorted_by_name_same _ _ Hsame))).
Qed.

Lemma deletion_failures_do_not_change_the_texts_witness :
  PDFProcessor._extract_text_from_pdf (sample_services (Ok two_pages)) deck
  = PDFProcessor._extract_text_from_pdf
      (sample_services
         (Ok [{| name := "output-1-to-2.json";
                 download_as_json :=
                   Ok (VDict [("responses",
                               VList [page "Paylane"; page "Team"])]);
                 delete_raises := true |}])) deck.
Proof.
  apply (deletion_failures_do_not_change_the_texts _ _ deck two_pages
           [{| name := "output-1-to-2.json";
               download_as_json :=
                 Ok (VDict [("responses",
                             VList [page "Paylane"; page "Team"])]);
               delete_raises := true |}]); try reflexivity.
  repeat constructor.
Defined.

(** X7: the call deletes from the bucket only JSON artifacts of its own
    listing that it has read without an exception and whose deletion did
    not fail; when every JSON artifact can be read it deletes all of them
    whose deletion does not fail, in the order of their names, and an
    object that is not a JSON artifact is never deleted. *)
Theorem only_read_artifacts_are_deleted (sv : services) (gcs_path : value)
    (listing : list blob) :
  vision_ocr sv gcs_path = Ok listing ->
  (forall n,
      n ∈ PDFProcessor.deleted_artifacts sv gcs_path ->
      exists b, b ∈ listing /\ name b = n /\ is_json b = true /\
                delete_raises b = false /\ exists ps, blob_pages b = Ok ps) /\
  (forall ps,
      pages_in_order (List.filter is_json (PDFProcessor.sorted_by_name listing))
      = Ok ps ->
      PDFProcessor.deleted_artifacts sv gcs_path
      = map name
          (List.filter (fun b => is_json b && negb (delete_raises b))
             (PDFProcessor.sorted_by_name listing))).
Proof.
  intros Hocr. rewrite fst_extract_try, Hocr. split.
  - intros n Hin. apply read_blobs_deleted in Hin as [Hin|(b & Hb & H)].
    + by apply elem_of_nil in Hin.
    + exists b. split; [|done]. by rewrite <- (sorted_by_name_perm listing).
  - intros ps Hps. by rewrite (read_blobs_deleted_all _ _ _ ps).
Qed.

Lemma only_read_artifacts_are_deleted_witness :
  PDFProcessor.deleted_artifacts (sample_services (Ok three_artifacts)) deck
  = ["output-1-to-5.json"; "output-11-to-12.json"; "output-6-to-10.json"].
Proof.
  rewrite (proj2 (only_read_artifacts_are_deleted
                    (sample_services (Ok three_artifacts)) deck
                    three_artifacts eq_refl) ["p1"; "p11"; "p6"] eq_refl).
  reflexivity.
Defined.

(** ** Extraction: page numbers and failures half-way *)

Section HalfWay.

Import PDFProcessor.

(** The blob loop on artifacts that can all be read, followed by one that
    cannot. *)
Lemma read_blobs_stops (before after : list blob) (b : blob) (e : exn)
    (texts deleted ps : list string) :
  pages_in_order (List.filter is_json before) = Ok ps ->
  is_json b = true -> blob_pages b = Raise e ->
  read_blobs (before ++ b :: after) texts deleted
  = (deleted
     ++ map name
          (List.filter (fun a => is_json a && negb (delete_raises a)) before),
     Raise e).
Proof.
  intros Hps Hjson Hb. revert texts deleted ps Hps.
  induction before as [|a before IH]; intros texts deleted ps Hps.
  - cbn [app List.filter map read_blobs].
    change (endswith (name b) ".json") with (is_json b). rewrite Hjson.
    cbn [negb]. rewrite read_blob_pages, Hb, app_nil_r. reflexivity.
  - cbn [app List.filter read_blobs] in *.
    change (endswith (name a) ".json") with (is_json a).
    destruct (is_json a) eqn:Ha; cbn [negb andb].
    + rewrite pages_in_order_cons in Hps. rewrite read_blob_pages.
      destruct (blob_pages a) as [qs|e']; [|discriminate]. res_simpl.
      destruct (pages_in_order (List.filter is_json before)) as [rs|e'] eqn:Hrs;
        [|discriminate].
      rewrite (IH _ _ rs eq_refl).
      destruct (delete_raises a); cbn [negb map]; [done|].
      by rewrite <- app_assoc.
    + by apply (IH _ _ ps).
Qed.

End HalfWay.



(** X9: an artifact that cannot be read ends the extraction: the texts
    read from the artifacts before it are discarded and the call returns
    the single empty string, while those artifacts stay deleted from the
    bucket; the failing artifact and the ones after it are not deleted. *)
Theorem unreadable_artifact_discards_the_texts_read (sv : services)
    (gcs_path : value) (listing before after : list blob) (b : blob)
    (e : exn) (ps : list string) :
  vision_ocr sv gcs_path = Ok listing ->
  PDFProcessor.sorted_by_name listing = before ++ b :: after ->
  pages_in_order (List.filter is_json before) = Ok ps ->
  is_json b = true ->
  blob_pages b = Raise e ->
  PDFProcessor._extract_text_from_pdf sv gcs_path = [""] /\
  PDFProcessor.deleted_artifacts sv gcs_path
  = map name
      (List.filter (fun a => is_json a && negb (delete_raises a)) before).
Proof.
  intros Hocr Hsorted Hps Hjson Hb.
  unfold PDFProcessor._extract_text_from_pdf, PDFProcessor.deleted_artifacts,
    PDFProcessor.extract_try.
  rewrite Hocr, Hsorted, (read_blobs_stops _ _ _ e _ _ ps) by done.
  done.
Qed.

Lemma unreadable_artifact_discards_the_texts_read_witness :
  PDFProcessor._extract_text_from_pdf
    (sample_services
       (Ok [json_blob "output-1-to-5.json" [page "p1"];
            {| name := "output-6-to-10.json";
               download_as_json := Raise (UpstreamError "truncated JSON");
               delete_raises := false |}])) deck
  = [""] /\
  PDFProcessor.deleted_artifacts
    (sample_services
       (Ok [json_blob "output-1-to-5.json" [page "p1"];
            {| name := "output-6-to-10.json";
               download_as_json := Raise (UpstreamError "truncated JSON");
               delete_raises := false |}])) deck
  = ["output-1-to-5.json"].
Proof.
  exact (unreadable_artifact_discards_the_texts_read
           (sample_services
              (Ok [json_blob "output-1-to-5.json" [page "p1"];
                   {| name := "output-6-to-10.json";
                      download_as_json :=
                        Raise (UpstreamError "truncated JSON");
                      delete_raises := false |}])) deck _
           [json_blob "output-1-to-5.json" [page "p1"]] []
           {| name := "output-6-to-10.json";
              download_as_json := Raise (UpstreamError "truncated JSON");
              delete_raises := false |}
           (UpstreamError "truncated JSON") ["p1"]
           eq_refl eq_refl eq_refl eq_refl eq_refl).
Defined.

(** ** The endpoints: lemmas *)

Section Endpoints.

Import FirestoreManager.

Lemma upload_deal_eq sv deal_id pitch_deck w :
  upload_deal sv deal_id pitch_deck w
  = match store_files sv deal_id pitch_deck with
    | Ok file_urls =>
        (with_task
           (write (write w (Created deal_id
                              (VDict [("metadata",
                                       initial_metadata sv deal_id)])))
              (Updated deal_id [("raw_files", VDict file_urls)]))
           deal_id file_urls,
         Ok (VDict [("deal_id", VStr deal_id);
                    ("status", VStr "uploaded");
                    ("files", VDict file_urls);
                    ("message",
                     VStr "Files uploaded successfully. Processing started.")]))
    | Raise e =>
        (write w (Created deal_id
                    (VDict [("metadata", initial_metadata sv deal_id)])),
         Raise (HTTPException 500 (exn_str e)))
    end.
Proof.
  unfold upload_deal, upload_deal_try. prog_simpl. cbn zeta.
  destruct (store_files sv deal_id pitch_deck); prog_simpl; reflexivity.
Qed.

Lemma delete_specific_deal_eq deal_id w :
  delete_specific_deal deal_id w
  = if truthy (read w deal_id)
    then (write w (Deleted deal_id),
          Ok (VDict [("deal_id", VStr deal_id); ("status", VStr "deleted");
                     ("message", VStr "Deal deleted successfully")]))
    else (w, Raise (HTTPException 500 "404: Deal not found")).
Proof.
  unfold delete_specific_deal. prog_simpl.
  destruct (truthy (read w deal_id)); cbn [negb]; prog_simpl; reflexivity.
Qed.

(** A record that has a field under [metadata]. *)
Lemma metadata_field_inv (s : gmap string value) deal_id k v :
  field s deal_id ["metadata"; k] = Some v ->
  exists d m, s !! deal_id = Some (VDict d) /\
              dict_get d "metadata" = Some (VDict m) /\
              dict_get m k = Some v.
Proof.
  unfold field. destruct (s !! deal_id) as [doc|]; [|done].
  destruct doc as [| | | | |d|]; try done. cbn [get_path].
  destruct (dict_get d "metadata") as [md|] eqn:Hmd; [|done].
  destruct md as [| | | | |m|]; try done. cbn [get_path].
  destruct (dict_get m k) as [x|] eqn:Hk; [|done].
  intros [= <-]. by exists d, m.
Qed.

Lemma dict_get_truthy (d : dict) k v :
  dict_get d k = Some v -> truthy (VDict d) = true.
Proof. by destruct d. Qed.

(** The run of [generate_memo] on a deal whose status is [processed]. *)
Lemma generate_memo_eq sv deal_id weightage w doc :
  db w !! deal_id = Some doc ->
  status_of (db w) deal_id = Some (VStr "processed") ->
  generate_memo sv deal_id weightage w
  = match summarizer_generate_memo sv doc weightage with
    | Raise e =>
        (write w (Updated deal_id [("metadata.weightage", weightage)]),
         Raise (HTTPException 500 (exn_str e)))
    | Ok memo_text =>
        match create_memo_docx sv deal_id memo_text with
        | Raise e =>
            (write w (Updated deal_id [("metadata.weightage", weightage)]),
             Raise (HTTPException 500 (exn_str e)))
        | Ok docx_url =>
            (write (write w (Updated deal_id
                               [("metadata.weightage", weightage)]))
               (Updated deal_id (memo_patch sv memo_text docx_url)),
             Ok (memo_response deal_id memo_text docx_url
                   (merge_patch doc [("metadata.weightage", weightage)])))
        end
    end.
Proof.
  intros Hdoc Hst.
  destruct (metadata_field_inv _ _ _ _ Hst) as (d & m & Hd & Hmd & Hs).
  assert (doc = VDict d) as -> by congruence.
  assert (Hread : read w deal_id = VDict d) by (unfold read; by rewrite Hd).
  unfold generate_memo, generate_memo_try. prog_simpl. rewrite !Hread.
  rewrite (dict_get_truthy _ _ _ Hmd). cbn [negb py_get]. rewrite Hmd.
  cbn [from_option id py_get]. prog_simpl. rewrite Hs.
  cbn [from_option id is_processed negb String.eqb Ascii.eqb Bool.eqb].
  prog_simpl.
  destruct (summarizer_generate_memo sv (VDict d) weightage) as [memo_text|e];
    prog_simpl; [|reflexivity].
  destruct (create_memo_docx sv deal_id memo_text) as [docx_url|e];
    prog_simpl; [|reflexivity].
  unfold read, memo_patch. rewrite deal_data_after_write, Hdoc. reflexivity.
Qed.

Lemma field_after_weightage (s : gmap string value) deal_id weightage q :
  q <> [] -> diverge ["metadata"; "weightage"] q = true ->
  field (apply_op s (Updated deal_id [("metadata.weightage", weightage)]))
    deal_id q
  = field s deal_id q.
Proof.
  intros Hq Hdiv. apply field_updated_diverge; [|done].
  cbn [forallb fst].
  change (split_on "." "metadata.weightage") with ["metadata"; "weightage"].
  by rewrite Hdiv.
Qed.

Lemma weightage_after_weightage (s : gmap string value) deal_id weightage :
  field (apply_op s (Updated deal_id [("metadata.weightage", weightage)]))
    deal_id ["metadata"; "weightage"]
  = Some weightage.
Proof.
  rewrite field_updated.
  exact (merge_patch_written _ [] [] "metadata.weightage" _ ltac:(done) eq_refl).
Qed.

Lemma field_after_memo (s : gmap string value) deal_id sv memo_text docx_url q :
  q <> [] -> diverge ["memo"] q = true ->
  field (apply_op s (Updated deal_id (memo_patch sv memo_text docx_url)))
    deal_id q
  = field s deal_id q.
Proof.
  intros Hq Hdiv. apply field_updated_diverge; [|done].
  cbn [memo_patch forallb fst].
  change (split_on "." "memo") with ["memo"]. by rewrite Hdiv.
Qed.

Lemma memo_after_memo (s : gmap string value) deal_id sv memo_text docx_url :
  field (apply_op s (Updated deal_id (memo_patch sv memo_text docx_url)))
    deal_id ["memo"]
  = Some (VDict [("draft_v1", memo_text);
                 ("docx_url", docx_url);
                 ("generated_at", VTime (utcnow sv))]).
Proof.
  rewrite field_updated.
  exact (merge_patch_written _ [] [] "memo" _ ltac:(done) eq_refl).
Qed.

Lemma status_after_weightage (s : gmap string value) deal_id weightage :
  status_of (apply_op s (Updated deal_id [("metadata.weightage", weightage)]))
    deal_id
  = status_of s deal_id.
Proof. by apply field_after_weightage. Qed.

Lemma status_after_memo (s : gmap string value) deal_id sv memo_text docx_url :
  status_of (apply_op s (Updated deal_id (memo_patch sv memo_text docx_url)))
    deal_id
  = status_of s deal_id.
Proof. by apply field_after_memo. Qed.

Lemma status_after_raw_files (s : gmap string value) deal_id file_urls :
  status_of (apply_op s (Updated deal_id [("raw_files", file_urls)])) deal_id
  = status_of s deal_id.
Proof. by apply field_updated_diverge. Qed.

Lemma status_after_created (s : gmap string value) sv deal_id :
  status_of
    (apply_op s
       (Created deal_id (VDict [("metadata", initial_metadata sv deal_id)])))
    deal_id
  = Some (VStr "uploading").
Proof. apply (created_sets_status sv deal_id s). Qed.

End Endpoints.

(** ** The endpoints: the properties *)

(** X10: an upload whose file reaches the bucket answers with the new
    identifier and the URL of the file, leaves a record that holds the
    initial metadata with status [uploading] and the URL under
    [raw_files], schedules exactly one background task, for that deal with
    those URLs, and touches no other deal.  The status [uploaded] of the
    response is not the status of the record. *)
Theorem upload_records_the_deal_and_schedules_its_task (sv : services)
    (deal_id : string) (w : world) (url : value) :
  upload_file sv ("deals/" +:+ deal_id +:+ "/pitch_deck.pdf") = Ok url ->
  snd (upload_deal sv deal_id true w)
  = Ok (VDict [("deal_id", VStr deal_id);
               ("status", VStr "uploaded");
               ("files", VDict [("pitch_deck_url", url)]);
               ("message",
                VStr "Files uploaded successfully. Processing started.")]) /\
  db (fst (upload_deal sv deal_id true w)) !! deal_id
  = Some (VDict [("metadata", initial_metadata sv deal_id);
                 ("raw_files", VDict [("pitch_deck_url", url)])]) /\
  status_of (db (fst (upload_deal sv deal_id true w))) deal_id
  = Some (VStr "uploading") /\
  tasks (fst (upload_deal sv deal_id true w))
  = tasks w ++ [(deal_id, [("pitch_deck_url", url)])] /\
  (forall other,
      other <> deal_id ->
      db (fst (upload_deal sv deal_id true w)) !! other = db w !! other).
Proof.
  intros Hup. rewrite upload_deal_eq. unfold store_files. rewrite Hup.
  res_simpl. cbn [fst snd with_task db tasks FirestoreManager.write].
  assert (Hdoc :
    FirestoreManager.apply_op
      (FirestoreManager.apply_op (db w)
         (Created deal_id (VDict [("metadata", initial_metadata sv deal_id)])))
      (Updated deal_id [("raw_files", VDict [("pitch_deck_url", url)])])
    !! deal_id
    = Some (VDict [("metadata", initial_metadata sv deal_id);
                   ("raw_files", VDict [("pitch_deck_url", url)])])).
  { cbn [FirestoreManager.apply_op]. rewrite lookup_insert_eq.
    by rewrite lookup_insert_eq. }
  split; [done|]. split; [exact Hdoc|]. split; [|split; [done|]].
  - unfold status_of, field. by rewrite Hdoc.
  - intros other Hne. by rewrite !lookup_apply_op_ne.
Qed.

Lemma upload_records_the_deal_and_schedules_its_task_witness :
  tasks uploaded = [("3fa9c1", deck_urls)] /\
  status_of (db uploaded) "3fa9c1" = Some (VStr "uploading").
Proof.
  destruct (upload_records_the_deal_and_schedules_its_task
              (sample_services (Ok two_pages)) "3fa9c1" initial deck eq_refl)
    as (_ & _ & Hstatus & Htasks & _).
  split; [exact Htasks|exact Hstatus].
Defined.

(** X11: when the bucket refuses the file, the upload answers 500 with the
    text of the exception; the record created before stays, with status
    [uploading] and no [raw_files], and no background task is scheduled
    for it. *)
Theorem failed_upload_leaves_the_deal_uploading (sv : services)
    (deal_id : string) (w : world) (e : exn) :
  upload_file sv ("deals/" +:+ deal_id +:+ "/pitch_deck.pdf") = Raise e ->
  snd (upload_deal sv deal_id true w)
  = Raise (HTTPException 500 (exn_str e)) /\
  db (fst (upload_deal sv deal_id true w)) !! deal_id
  = Some (VDict [("metadata", initial_metadata sv deal_id)]) /\
  status_of (db (fst (upload_deal sv deal_id true w))) deal_id
  = Some (VStr "uploading") /\
  field (db (fst (upload_deal sv deal_id true w))) deal_id ["raw_files"]
  = None /\
  tasks (fst (upload_deal sv deal_id true w)) = tasks w.
Proof.
  intros Hup. rewrite upload_deal_eq. unfold store_files. rewrite Hup.
  res_simpl. cbn [fst snd db tasks FirestoreManager.write].
  unfold status_of, field. cbn [FirestoreManager.apply_op].
  rewrite lookup_insert_eq. done.
Qed.

Lemma failed_upload_leaves_the_deal_uploading_witness :
  snd (upload_deal storage_down "3fa9c1" true initial)
  = Raise (HTTPException 500 "403 Forbidden") /\
  tasks (fst (upload_deal storage_down "3fa9c1" true initial)) = [].
Proof.
  destruct (failed_upload_leaves_the_deal_uploading storage_down "3fa9c1"
              initial (UpstreamError "403 Forbidden") eq_refl)
    as (Hanswer & _ & _ & _ & Htasks).
  split; [exact Hanswer|exact Htasks].
Defined.

(** X12: deleting a deal that has a record removes that record and no
    other, and leaves the queue of background tasks as it was, so a task
    scheduled for the deal is not cancelled; deleting a deal that has no
    record writes nothing and is answered 500, the 404 raised inside the
    [try] block being caught by its own [except] clause. *)
Theorem delete_removes_the_record_and_nothing_else (deal_id : string)
    (w : world) :
  (forall doc,
      db w !! deal_id = Some doc -> truthy doc = true ->
      snd (delete_specific_deal deal_id w)
      = Ok (VDict [("deal_id", VStr deal_id); ("status", VStr "deleted");
                   ("message", VStr "Deal deleted successfully")]) /\
      db (fst (delete_specific_deal deal_id w)) !! deal_id = None /\
      (forall other,
          other <> deal_id ->
          db (fst (delete_specific_deal deal_id w)) !! other = db w !! other) /\
      tasks (fst (delete_specific_deal deal_id w)) = tasks w) /\
  (db w !! deal_id = None ->
   delete_specific_deal deal_id w
   = (w, Raise (HTTPException 500 "404: Deal not found"))).
Proof.
  rewrite delete_specific_deal_eq. unfold FirestoreManager.read. split.
  - intros doc Hdoc Htruthy. rewrite Hdoc. cbn [from_option id].
    rewrite Htruthy. cbn [fst snd FirestoreManager.write db tasks
                          FirestoreManager.apply_op].
    split; [done|]. split; [apply lookup_delete_eq|]. split; [|done].
    intros other Hne. by rewrite lookup_delete_ne.
  - intros Hnone. by rewrite Hnone.
Qed.

Lemma delete_removes_the_record_and_nothing_else_witness :
  db (fst (delete_specific_deal "3fa9c1" uploaded)) !! "3fa9c1" = None /\
  tasks (fst (delete_specific_deal "3fa9c1" uploaded))
  = [("3fa9c1", deck_urls)] /\
  delete_specific_deal "3fa9c1" initial
  = (initial, Raise (HTTPException 500 "404: Deal not found")).
Proof.
  destruct (delete_removes_the_record_and_nothing_else "3fa9c1" uploaded)
    as [Hthere _].
  destruct (Hthere _ eq_refl eq_refl) as (_ & Hgone & _ & Htasks).
  split; [exact Hgone|]. split; [exact Htasks|].
  apply (proj2 (delete_removes_the_record_and_nothing_else "3fa9c1" initial)).
  reflexivity.
Defined.

(** X13: memo generation on a processed deal, with the summarizer and the
    exporter answering.  The weightage is stored under [metadata], the
    memo sub-document is replaced as a whole by the new draft, its URL and
    the time, the status stays [processed], and every other field and
    every other deal is as before.  The [all_data] of the response is the
    record as read before the memo is saved: it holds the new weightage
    but the memo of the previous call, if any. *)
Theorem generate_memo_stores_the_memo (sv : services) (deal_id : string)
    (weightage : value) (w : world) (doc memo_text docx_url : value) :
  db w !! deal_id = Some doc ->
  status_of (db w) deal_id = Some (VStr "processed") ->
  summarizer_generate_memo sv doc weightage = Ok memo_text ->
  create_memo_docx sv deal_id memo_text = Ok docx_url ->
  snd (generate_memo sv deal_id weightage w)
  = Ok (memo_response deal_id memo_text docx_url
          (FirestoreManager.merge_patch doc
             [("metadata.weightage", weightage)])) /\
  field (db (fst (generate_memo sv deal_id weightage w))) deal_id ["memo"]
  = Some (VDict [("draft_v1", memo_text);
                 ("docx_url", docx_url);
                 ("generated_at", VTime (utcnow sv))]) /\
  field (db (fst (generate_memo sv deal_id weightage w))) deal_id
    ["metadata"; "weightage"]
  = Some weightage /\
  status_of (db (fst (generate_memo sv deal_id weightage w))) deal_id
  = Some (VStr "processed") /\
  get_path (FirestoreManager.merge_patch doc
              [("metadata.weightage", weightage)]) ["memo"]
  = field (db w) deal_id ["memo"] /\
  (forall q,
      q <> [] -> diverge ["memo"] q = true ->
      diverge ["metadata"; "weightage"] q = true ->
      field (db (fst (generate_memo sv deal_id weightage w))) deal_id q
      = field (db w) deal_id q) /\
  (forall other,
      other <> deal_id ->
      db (fst (generate_memo sv deal_id weightage w)) !! other
      = db w !! other) /\
  tasks (fst (generate_memo sv deal_id weightage w)) = tasks w.
Proof.
  intros Hdoc Hst Hmemo Hdocx.
  rewrite (generate_memo_eq _ _ _ _ doc Hdoc Hst), Hmemo, Hdocx.
  cbn [fst snd FirestoreManager.write db tasks].
  assert (Hkeep : forall q,
    q <> [] -> diverge ["memo"] q = true ->
    diverge ["metadata"; "weightage"] q = true ->
    field (FirestoreManager.apply_op
             (FirestoreManager.apply_op (db w)
                (Updated deal_id [("metadata.weightage", weightage)]))
             (Updated deal_id (memo_patch sv memo_text docx_url))) deal_id q
    = field (db w) deal_id q).
  { intros q Hq Hm Hw.
    by rewrite field_after_memo, field_after_weightage. }
  split; [done|]. split; [apply memo_after_memo|].
  split; [by rewrite field_after_memo, weightage_after_weightage|].
  split; [unfold status_of; by rewrite Hkeep|].
  split.
  - rewrite <- (field_after_weightage (db w) deal_id weightage ["memo"])
      by done.
    rewrite field_updated. by rewrite Hdoc.
  - split; [exact Hkeep|]. split; [|done].
    intros other Hne. by rewrite !lookup_apply_op_ne.
Qed.

Lemma generate_memo_stores_the_memo_witness :
  field (db (fst (generate_memo (sample_services (Ok two_pages)) "3fa9c1"
                    weights processed))) "3fa9c1" ["memo"; "docx_url"]
  = Some (VStr "gs://bucket/memos/3fa9c1.docx") /\
  status_of (db (fst (generate_memo (sample_services (Ok two_pages)) "3fa9c1"
                        weights processed))) "3fa9c1"
  = Some (VStr "processed").
Proof.
  destruct (generate_memo_stores_the_memo (sample_services (Ok two_pages))
              "3fa9c1" weights processed _ (VStr "Investment memo")
              (VStr "gs://bucket/memos/3fa9c1.docx")
              eq_refl eq_refl eq_refl eq_refl)
    as (_ & Hmemo & _ & Hstatus & _).
  split; [|exact Hstatus].
  unfold field in *.
  destruct (db (fst (generate_memo (sample_services (Ok two_pages)) "3fa9c1"
                       weights processed)) !! "3fa9c1") as [d|];
    [|discriminate Hmemo].
  destruct d as [| | | | |fields|]; try discriminate Hmemo.
  cbn [get_path] in *.
  destruct (dict_get fields "memo") as [memo|]; [|discriminate Hmemo].
  cbn [get_path] in Hmemo. injection Hmemo as ->. reflexivity.
Defined.

(** X14: when the summarizer or the exporter raises on a processed deal,
    the request is answered 500 with the text of the exception; the
    weightage written before the call stays in the record, no memo is
    written and the status stays [processed]. *)
Theorem failed_memo_generation_keeps_the_weightage (sv : services)
    (deal_id : string) (weightage : value) (w : world) (doc : value)
    (e : exn) :
  db w !! deal_id = Some doc ->
  status_of (db w) deal_id = Some (VStr "processed") ->
  summarizer_generate_memo sv doc weightage = Raise e \/
  (exists memo_text,
      summarizer_generate_memo sv doc weightage = Ok memo_text /\
      create_memo_docx sv deal_id memo_text = Raise e) ->
  snd (generate_memo sv deal_id weightage w)
  = Raise (HTTPException 500 (exn_str e)) /\
  field (db (fst (generate_memo sv deal_id weightage w))) deal_id
    ["metadata"; "weightage"]
  = Some weightage /\
  field (db (fst (generate_memo sv deal_id weightage w))) deal_id ["memo"]
  = field (db w) deal_id ["memo"] /\
  status_of (db (fst (generate_memo sv deal_id weightage w))) deal_id
  = Some (VStr "processed").
Proof.
  intros Hdoc Hst Hfail.
  rewrite (generate_memo_eq _ _ _ _ doc Hdoc Hst).
  assert (Hrun :
    match summarizer_generate_memo sv doc weightage with
    | Ok memo_text =>
        match create_memo_docx sv deal_id memo_text with
        | Ok docx_url =>
            (FirestoreManager.write
               (FirestoreManager.write w
                  (Updated deal_id [("metadata.weightage", weightage)]))
               (Updated deal_id (memo_patch sv memo_text docx_url)),
             Ok (memo_response deal_id memo_text docx_url
                   (FirestoreManager.merge_patch doc
                      [("metadata.weightage", weightage)])))
        | Raise e0 =>
            (FirestoreManager.write w
               (Updated deal_id [("metadata.weightage", weightage)]),
             Raise (HTTPException 500 (exn_str e0)))
        end
    | Raise e0 =>
        (FirestoreManager.write w
           (Updated deal_id [("metadata.weightage", weightage)]),
         Raise (HTTPException 500 (exn_str e0)))
    end
    = (FirestoreManager.write w
         (Updated deal_id [("metadata.weightage", weightage)]),
       Raise (HTTPException 500 (exn_str e)))).
  { destruct Hfail as [->|(memo_text & -> & ->)]; reflexivity. }
  rewrite Hrun. cbn [fst snd FirestoreManager.write db].
  split; [done|]. split; [apply weightage_after_weightage|].
  split; [by apply field_after_weightage|].
  unfold status_of. by rewrite field_after_weightage.
Qed.

Lemma failed_memo_generation_keeps_the_weightage_witness :
  snd (generate_memo (summarizer_down (Ok two_pages)) "3fa9c1" weights
         processed)
  = Raise (HTTPException 500 "model overloaded") /\
  field (db (fst (generate_memo (summarizer_down (Ok two_pages)) "3fa9c1"
                    weights processed))) "3fa9c1" ["metadata"; "weightage"]
  = Some weights /\
  field (db (fst (generate_memo (summarizer_down (Ok two_pages)) "3fa9c1"
                    weights processed))) "3fa9c1" ["memo"]
  = None.
Proof.
  destruct (failed_memo_generation_keeps_the_weightage
              (summarizer_down (Ok two_pages)) "3fa9c1" weights processed _
              (UpstreamError "model overloaded") eq_refl eq_refl
              (or_introl eq_refl))
    as (Hanswer & Hweights & Hmemo & _).
  split; [exact Hanswer|]. split; [exact Hweights|].
  rewrite Hmemo. reflexivity.
Defined.

(** X15: memo generation refuses a deal that is not processed without
    writing anything, and always with status code 500: for a deal without
    a record the detail is the text of the 404 raised inside the [try]
    block, for a deal with any other status the text of the 400. *)
Theorem generate_memo_refuses_without_writing (sv : services)
    (deal_id : string) (weightage : value) (w : world) :
  (db w !! deal_id = None ->
   generate_memo sv deal_id weightage w
   = (w, Raise (HTTPException 500 "404: Deal not found"))) /\
  (forall s,
      status_of (db w) deal_id = Some s -> s <> VStr "processed" ->
      generate_memo sv deal_id weightage w
      = (w, Raise (HTTPException 500 "400: Deal processing not complete"))).
Proof.
  unfold generate_memo, generate_memo_try. prog_simpl.
  unfold FirestoreManager.read. split.
  - intros ->. reflexivity.
  - intros s Hst Hne.
    destruct (metadata_field_inv _ _ _ _ Hst) as (d & m & Hd & Hmd & Hs).
    rewrite Hd. cbn [from_option id].
    rewrite (dict_get_truthy _ _ _ Hmd). cbn [negb py_get]. rewrite Hmd.
    cbn [from_option id py_get]. prog_simpl. rewrite Hs.
    cbn [from_option id].
    destruct (is_processed s) eqn:Hp; [by apply is_processed_inv in Hp|].
    reflexivity.
Qed.

Lemma generate_memo_refuses_without_writing_witness :
  generate_memo (sample_services (Ok two_pages)) "3fa9c1" weights
    failed_enrichment
  = (failed_enrichment,
     Raise (HTTPException 500 "400: Deal processing not complete")) /\
  generate_memo (sample_services (Ok two_pages)) "3fa9c1" weights initial
  = (initial, Raise (HTTPException 500 "404: Deal not found")).
Proof.
  split.
  - apply (proj2 (generate_memo_refuses_without_writing
                    (sample_services (Ok two_pages)) "3fa9c1" weights
                    failed_enrichment) (VStr "error")); [reflexivity|].
    discriminate.
  - apply (proj1 (generate_memo_refuses_without_writing
                    (sample_services (Ok two_pages)) "3fa9c1" weights
                    initial)).
    reflexivity.
Defined.

(** ** The reading endpoints: the properties *)

Section Reading.

Import FirestoreManager.

Lemma fetch_specific_deal_eq deal_id w :
  fetch_specific_deal deal_id w
  = (w, if truthy (read w deal_id) then Ok (read w deal_id)
        else Raise (HTTPException 500 "404: Deal not found")).
Proof.
  unfold fetch_specific_deal. prog_simpl.
  destruct (truthy (read w deal_id)); cbn [negb]; prog_simpl; reflexivity.
Qed.

Lemma get_processing_status_eq processing_status deal_id w :
  get_processing_status processing_status deal_id w
  = (w, if truthy (read w deal_id)
        then match py_get (read w deal_id) "metadata" (VDict [])
                   ≫= processing_status with
             | Ok response => Ok response
             | Raise e => Raise (HTTPException 500 (exn_str e))
             end
        else Raise (HTTPException 500 "404: Deal not found")).
Proof.
  unfold get_processing_status. prog_simpl.
  destruct (truthy (read w deal_id)); cbn [negb]; prog_simpl; [|reflexivity].
  destruct (py_get (read w deal_id) "metadata" (VDict [])) as [metadata|e];
    prog_simpl; [|reflexivity].
  destruct (processing_status metadata); reflexivity.
Qed.

Lemma download_memo_eq download_file deal_id w :
  download_memo download_file deal_id w
  = (w, if negb (truthy (read w deal_id))
        then Raise (HTTPException 404 "Memo not found")
        else
          present ← py_in "memo" (read w deal_id);
          if (present : bool) then
            memo ← subscript (read w deal_id) "memo";
            gs_url ← subscript memo "docx_url";
            body ← download_file gs_url ("/tmp/" +:+ deal_id +:+ "_memo.docx");
            Ok (streaming_response body docx_media_type
                  ("attachment; filename=" +:+ deal_id +:+ "_memo.docx"))
          else Raise (HTTPException 404 "Memo not found")).
Proof.
  unfold download_memo. prog_simpl.
  destruct (truthy (read w deal_id)); cbn [negb]; prog_simpl; [|reflexivity].
  destruct (py_in "memo" (read w deal_id)) as [[|]|e]; res_simpl; prog_simpl;
    cbn [negb]; try reflexivity.
  destruct (subscript (read w deal_id) "memo") as [memo|e]; prog_simpl;
    [|reflexivity].
  destruct (subscript memo "docx_url") as [gs_url|e]; prog_simpl;
    [|reflexivity].
  cbn zeta. destruct (download_file gs_url _); prog_simpl; reflexivity.
Qed.

(** The memo download right after a successful memo generation. *)
Lemma download_memo_generated download_file deal_id w sv weightage doc
    memo_text docx_url :
  db w !! deal_id = Some doc ->
  status_of (db w) deal_id = Some (VStr "processed") ->
  summarizer_generate_memo sv doc weightage = Ok memo_text ->
  create_memo_docx sv deal_id memo_text = Ok docx_url ->
  snd (download_memo download_file deal_id
         (fst (generate_memo sv deal_id weightage w)))
  = match download_file docx_url ("/tmp/" +:+ deal_id +:+ "_memo.docx") with
    | Ok body =>
        Ok (streaming_response body docx_media_type
              ("attachment; filename=" +:+ deal_id +:+ "_memo.docx"))
    | Raise e => Raise e
    end.
Proof.
  intros Hdoc Hst Hmemo Hdocx.
  rewrite download_memo_eq.
  rewrite (generate_memo_eq _ _ _ _ doc Hdoc Hst), Hmemo, Hdocx.
  cbn [fst snd].
  pose proof (memo_after_memo
                (db (FirestoreManager.write w
                       (Updated deal_id [("metadata.weightage", weightage)])))
                deal_id sv memo_text docx_url) as Hfield.
  unfold field in Hfield. unfold FirestoreManager.read.
  change (db (FirestoreManager.write
                (FirestoreManager.write w
                   (Updated deal_id [("metadata.weightage", weightage)]))
                (Updated deal_id (memo_patch sv memo_text docx_url))))
    with (FirestoreManager.apply_op
            (db (FirestoreManager.write w
                   (Updated deal_id [("metadata.weightage", weightage)])))
            (Updated deal_id (memo_patch sv memo_text docx_url))).
  destruct (FirestoreManager.apply_op _ _ !! deal_id) as [record|];
    [|discriminate Hfield].
  destruct record as [| | | | |fields|]; try discriminate Hfield.
  cbn [get_path] in Hfield.
  destruct (dict_get fields "memo") as [memo|] eqn:Hget;
    [|discriminate Hfield].
  cbn [get_path] in Hfield. injection Hfield as ->.
  cbn [from_option id]. rewrite (dict_get_truthy _ _ _ Hget).
  cbn [negb py_in]. unfold dict_has. rewrite Hget. res_simpl.
  cbn [subscript]. rewrite Hget. res_simpl.
  cbn [subscript dict_get String.eqb Ascii.eqb Bool.eqb]. res_simpl.
  by destruct (download_file docx_url _).
Qed.

End Reading.

(** X16: fetching a deal writes nothing; it returns the record as stored,
    so the record of a fresh upload comes back with its metadata and the
    URL of its file, and a deal without a record is answered 500, the 404
    raised inside the [try] block being caught by its own [except]
    clause. *)
Theorem fetch_specific_deal_returns_the_record (deal_id : string)
    (w : world) :
  fst (fetch_specific_deal deal_id w) = w /\
  (forall doc,
      db w !! deal_id = Some doc -> truthy doc = true ->
      snd (fetch_specific_deal deal_id w) = Ok doc) /\
  (db w !! deal_id = None ->
   snd (fetch_specific_deal deal_id w)
   = Raise (HTTPException 500 "404: Deal not found")) /\
  (forall sv url,
      upload_file sv ("deals/" +:+ deal_id +:+ "/pitch_deck.pdf") = Ok url ->
      snd (fetch_specific_deal deal_id (fst (upload_deal sv deal_id true w)))
      = Ok (VDict [("metadata", initial_metadata sv deal_id);
                   ("raw_files", VDict [("pitch_deck_url", url)])])).
Proof.
  split; [by rewrite fetch_specific_deal_eq|].
  split; [|split].
  - intros doc Hdoc Htruthy. rewrite fetch_specific_deal_eq.
    unfold FirestoreManager.read. rewrite Hdoc. cbn [from_option id snd].
    by rewrite Htruthy.
  - intros Hnone. rewrite fetch_specific_deal_eq.
    unfold FirestoreManager.read. by rewrite Hnone.
  - intros sv url Hup. rewrite fetch_specific_deal_eq, upload_deal_eq.
    unfold store_files. rewrite Hup. res_simpl.
    unfold FirestoreManager.read.
    cbn [fst snd with_task db FirestoreManager.write
         FirestoreManager.apply_op].
    rewrite !lookup_insert_eq. reflexivity.
Qed.

Lemma fetch_specific_deal_returns_the_record_witness :
  snd (fetch_specific_deal "3fa9c1" uploaded)
  = Ok (VDict [("metadata",
                initial_metadata (sample_services (Ok two_pages)) "3fa9c1");
               ("raw_files", VDict deck_urls)]) /\
  snd (fetch_specific_deal "3fa9c1" initial)
  = Raise (HTTPException 500 "404: Deal not found").
Proof.
  split.
  - apply (proj2 (proj2 (proj2
             (fetch_specific_deal_returns_the_record "3fa9c1" initial)))
             (sample_services (Ok two_pages)) deck).
    reflexivity.
  - apply (proj1 (proj2 (proj2
             (fetch_specific_deal_returns_the_record "3fa9c1" initial)))).
    reflexivity.
Defined.

(** X17: a status poll writes nothing and builds its response from the
    [metadata] sub-document of the record; whatever exception the schema
    raises, and the 404 for a deal without a record, is answered 500.
    After a background task whose [try] block raised, the metadata the
    poll reads has status [error] and the text of the exception under
    [error]. *)
Theorem status_poll_reads_the_metadata
    (processing_status : value -> result value) (deal_id : string)
    (w : world) :
  fst (get_processing_status processing_status deal_id w) = w /\
  (db w !! deal_id = None ->
   snd (get_processing_status processing_status deal_id w)
   = Raise (HTTPException 500 "404: Deal not found")) /\
  (forall d metadata,
      db w !! deal_id = Some (VDict d) ->
      dict_get d "metadata" = Some metadata ->
      snd (get_processing_status processing_status deal_id w)
      = match processing_status metadata with
        | Ok response => Ok response
        | Raise e => Raise (HTTPException 500 (exn_str e))
        end) /\
  (forall sv file_urls e,
      snd (process_deal_try sv deal_id file_urls w) = Raise e ->
      exists metadata,
        dict_get metadata "status" = Some (VStr "error") /\
        dict_get metadata "error" = Some (VStr (exn_str e)) /\
        snd (get_processing_status processing_status deal_id
               (fst (process_deal sv deal_id file_urls w)))
        = match processing_status (VDict metadata) with
          | Ok response => Ok response
          | Raise e' => Raise (HTTPException 500 (exn_str e'))
          end).
Proof.
  assert (Hknown : forall w' d metadata,
    db w' !! deal_id = Some (VDict d) ->
    dict_get d "metadata" = Some metadata ->
    snd (get_processing_status processing_status deal_id w')
    = match processing_status metadata with
      | Ok response => Ok response
      | Raise e => Raise (HTTPException 500 (exn_str e))
      end).
  { intros w' d metadata Hd Hmd. rewrite get_processing_status_eq.
    unfold FirestoreManager.read. rewrite Hd. cbn [from_option id snd].
    rewrite (dict_get_truthy _ _ _ Hmd). cbn [py_get]. rewrite Hmd.
    reflexivity. }
  split; [by rewrite get_processing_status_eq|].
  split; [|split; [apply Hknown|]].
  - intros Hnone. rewrite get_processing_status_eq.
    unfold FirestoreManager.read. by rewrite Hnone.
  - intros sv file_urls e. rewrite process_deal_eq, process_deal_try_eq.
    cbn zeta.
    destruct (process_stages _ _ _) as [patch|e0]; cbn [fst snd];
      [discriminate|]. intros [= <-].
    pose proof (status_after_error_patch
                  (db (FirestoreManager.write w
                         (Updated deal_id (status_patch "processing"))))
                  deal_id e0) as Hst.
    pose proof (error_after_error_patch
                  (db (FirestoreManager.write w
                         (Updated deal_id (status_patch "processing"))))
                  deal_id e0) as Herr.
    destruct (metadata_field_inv _ _ _ _ Hst) as (d & m & Hd & Hmd & Hs).
    destruct (metadata_field_inv _ _ _ _ Herr) as (d' & m' & Hd' & Hmd' & He).
    assert (d' = d) as -> by congruence.
    assert (m' = m) as -> by congruence.
    exists m. split; [done|]. split; [done|].
    by apply (Hknown _ d).
Qed.

Lemma status_poll_reads_the_metadata_witness :
  exists metadata,
    dict_get metadata "status" = Some (VStr "error") /\
    dict_get metadata "error" = Some (VStr "search quota exceeded") /\
    snd (get_processing_status (fun metadata => Ok metadata) "3fa9c1"
           failed_enrichment)
    = Ok (VDict metadata).
Proof.
  exact (proj2 (proj2 (proj2
           (status_poll_reads_the_metadata (fun metadata => Ok metadata)
              "3fa9c1" (without_task uploaded []))))
           (enrichment_down (Ok two_pages)) deck_urls
           (UpstreamError "search quota exceeded") eq_refl).
Defined.

(** X18: the memo download is the one endpoint whose 404 reaches the
    client: for a deal without a record, or with a record that has no
    memo, it raises the 404 outside any [try] block and writes nothing.
    After a successful memo generation it downloads the file at exactly
    the URL the generation returned, to the local path of the deal, and
    serves it under the name of the deal. *)
Theorem download_memo_serves_the_generated_file
    (download_file : value -> string -> result value) (deal_id : string)
    (w : world) :
  fst (download_memo download_file deal_id w) = w /\
  (db w !! deal_id = None ->
   snd (download_memo download_file deal_id w)
   = Raise (HTTPException 404 "Memo not found")) /\
  (forall d,
      db w !! deal_id = Some (VDict d) -> dict_get d "memo" = None ->
      snd (download_memo download_file deal_id w)
      = Raise (HTTPException 404 "Memo not found")) /\
  (forall sv weightage doc memo_text docx_url,
      db w !! deal_id = Some doc ->
      status_of (db w) deal_id = Some (VStr "processed") ->
      summarizer_generate_memo sv doc weightage = Ok memo_text ->
      create_memo_docx sv deal_id memo_text = Ok docx_url ->
      snd (download_memo download_file deal_id
             (fst (generate_memo sv deal_id weightage w)))
      = match download_file docx_url ("/tmp/" +:+ deal_id +:+ "_memo.docx") with
        | Ok body =>
            Ok (streaming_response body docx_media_type
                  ("attachment; filename=" +:+ deal_id +:+ "_memo.docx"))
        | Raise e => Raise e
        end).
Proof.
  split; [by rewrite download_memo_eq|]. split; [|split].
  - intros Hnone. rewrite download_memo_eq. unfold FirestoreManager.read.
    by rewrite Hnone.
  - intros d Hd Hmemo. rewrite download_memo_eq. unfold FirestoreManager.read.
    rewrite Hd. cbn [from_option id snd py_in]. unfold dict_has.
    rewrite Hmemo. res_simpl. by destruct (negb (truthy (VDict d))).
  - apply download_memo_generated.
Qed.

Lemma download_memo_serves_the_generated_file_witness :
  snd (download_memo (fun gs_url _ => Ok gs_url) "3fa9c1" uploaded)
  = Raise (HTTPException 404 "Memo not found") /\
  snd (download_memo (fun gs_url _ => Ok gs_url) "3fa9c1"
         (fst (generate_memo (sample_services (Ok two_pages)) "3fa9c1"
                 weights processed)))
  = Ok (streaming_response (VStr "gs://bucket/memos/3fa9c1.docx")
          docx_media_type "attachment; filename=3fa9c1_memo.docx").
Proof.
  split.
  - apply (proj1 (proj2 (proj2
             (download_memo_serves_the_generated_file
                (fun gs_url _ => Ok gs_url) "3fa9c1" uploaded))) _ eq_refl).
    reflexivity.
  - exact (proj2 (proj2 (proj2
             (download_memo_serves_the_generated_file
                (fun gs_url _ => Ok gs_url) "3fa9c1" processed)))
             (sample_services (Ok two_pages)) weights _
             (VStr "Investment memo") (VStr "gs://bucket/memos/3fa9c1.docx")
             eq_refl eq_refl eq_refl eq_refl).
Defined.

(** ** The pitch-deck download: splitting the storage URL *)

Section Splitting.

Lemma append_nil (s : string) : "" +:+ s = s.
Proof. reflexivity. Qed.

Lemma append_cons (c : ascii) (s t : string) :
  String c s +:+ t = String c (s +:+ t).
Proof. reflexivity. Qed.

Lemma append_assoc (s t u : string) : (s +:+ t) +:+ u = s +:+ (t +:+ u).
Proof.
  induction s as [|c s IH]; [done|]. by rewrite !append_cons, IH.
Qed.

Lemma split_on_cons (sep : ascii) (s : string) :
  exists w ws, split_on sep s = w :: ws.
Proof.
  induction s as [|c s (w & ws & IH)]; cbn [split_on]; [by eauto|].
  destruct (Ascii.eqb c sep); [by eauto|]. rewrite IH. by eauto.
Qed.

Lemma split_on_no_sep (sep : ascii) (s : string) :
  has_char sep s = false -> split_on sep s = [s].
Proof.
  unfold has_char. induction s as [|c s IH]; [done|].
  cbn [list_ascii_of_string existsb split_on].
  destruct (Ascii.eqb c sep); [done|]. cbn [orb]. intros H.
  by rewrite IH.
Qed.

(** Splitting at a separator splits what is before it and what is after
    it. *)
Lemma split_on_app (sep : ascii) (a t : string) :
  split_on sep (a +:+ String sep t) = split_on sep a ++ split_on sep t.
Proof.
  induction a as [|c a IH].
  - rewrite append_nil. cbn [split_on]. by rewrite Ascii.eqb_refl.
  - rewrite append_cons. cbn [split_on]. destruct (Ascii.eqb c sep).
    + by rewrite IH.
    + rewrite IH. by destruct (split_on_cons sep a) as (w & ws & ->).
Qed.

Lemma split_on_parts (sep : ascii) (s : string) :
  Forall (fun part => has_char sep part = false) (split_on sep s).
Proof.
  induction s as [|c s IH]; cbn [split_on]; [by repeat constructor|].
  destruct (Ascii.eqb c sep) eqn:Hc; [by constructor|].
  destruct (split_on sep s) as [|w ws]; [by repeat constructor; cbn; rewrite Hc|].
  apply Forall_cons in IH as [Hw Hws]. constructor; [|done].
  unfold has_char in *. cbn [list_ascii_of_string existsb]. by rewrite Hc.
Qed.

Lemma join_cons_cons (sep p q : string) (rest : list string) :
  join sep (p :: q :: rest) = p +:+ sep +:+ join sep (q :: rest).
Proof. reflexivity. Qed.

(** Joining the parts with the separator gives the string back. *)
Lemma join_split_on (sep : ascii) (s : string) :
  join (String sep EmptyString) (split_on sep s) = s.
Proof.
  induction s as [|c s IH]; [done|]. cbn [split_on].
  destruct (Ascii.eqb_spec c sep) as [->|_].
  - destruct (split_on_cons sep s) as (w & ws & Hs). rewrite Hs in *.
    by rewrite join_cons_cons, IH.
  - destruct (split_on_cons sep s) as (w & ws & Hs). rewrite Hs in *.
    destruct ws as [|w' ws]; [cbn [join] in *; by rewrite IH|].
    rewrite join_cons_cons in *. by rewrite append_cons, IH.
Qed.

Lemma join_snoc (sep : string) (parts : list string) (p : string) :
  exists before, join sep (parts ++ [p]) = before +:+ p.
Proof.
  induction parts as [|q parts (before & IH)]; [by exists ""|].
  cbn [app]. destruct (parts ++ [p]) as [|r rest] eqn:Hr.
  - by destruct parts.
  - rewrite join_cons_cons, IH. exists (q +:+ sep +:+ before).
    by rewrite !append_assoc.
Qed.

Lemma last_segment_parts (s : string) :
  exists parts, split_on "/" s = parts ++ [last_segment s].
Proof.
  unfold last_segment. destruct (split_on_cons "/" s) as (w & ws & ->).
  destruct (exists_last (l := w :: ws)) as (parts & p & ->); [done|].
  exists parts. by rewrite last_snoc.
Qed.

(** The file name taken from an object name has no slash, and the object
    name ends with it. *)
Lemma last_segment_spec (s : string) :
  has_char "/" (last_segment s) = false /\
  exists before, s = before +:+ last_segment s.
Proof.
  destruct (last_segment_parts s) as [parts Hparts]. split.
  - pose proof (split_on_parts "/" s) as Hall. rewrite Hparts in Hall.
    apply Forall_app in Hall as [_ Hlast]. by apply Forall_cons in Hlast as [? _].
  - destruct (join_snoc "/" parts (last_segment s)) as [before Hjoin].
    exists before. by rewrite <- Hjoin, <- Hparts, join_split_on.
Qed.

Lemma last_segment_app (a t : string) :
  has_char "/" t = false -> last_segment (a +:+ String "/" t) = t.
Proof.
  intros Ht. unfold last_segment.
  rewrite split_on_app, (split_on_no_sep "/" t Ht).
  by rewrite last_snoc.
Qed.

Lemma prefix_nil (s : string) : String.prefix "" s = true.
Proof. by destruct s. Qed.

Lemma split_once_app (sep : ascii) (a t : string) :
  has_char sep a = false -> split_once sep (a +:+ String sep t) = [a; t].
Proof.
  unfold has_char. induction a as [|c a IH].
  - intros _. rewrite append_nil. cbn [split_once]. by rewrite Ascii.eqb_refl.
  - rewrite append_cons. cbn [list_ascii_of_string existsb split_once].
    destruct (Ascii.eqb c sep); [done|]. cbn [orb]. intros H.
    by rewrite IH.
Qed.

Lemma split_once_no_sep (sep : ascii) (s : string) :
  has_char sep s = false -> split_once sep s = [s].
Proof.
  unfold has_char. induction s as [|c s IH]; [done|].
  cbn [list_ascii_of_string existsb split_once].
  destruct (Ascii.eqb c sep); [done|]. cbn [orb]. intros H.
  by rewrite IH.
Qed.

End Splitting.

Section PitchDeck.

Import FirestoreManager.

Lemma download_pitch_deck_eq download_to_file deal_id w :
  download_pitch_deck download_to_file deal_id w
  = (w, match download_pitch_deck_try download_to_file (read w deal_id) with
        | Done response => Ok response
        | Failed e => Raise (HTTPException 500 (download_exn_str e))
        end).
Proof. reflexivity. Qed.

(** The [try] block on a record whose [raw_files] holds a string under
    [pitch_deck_url]. *)
Lemma download_pitch_deck_try_url download_to_file d raw_files c s :
  dict_get d "raw_files" = Some (VDict raw_files) ->
  dict_get raw_files "pitch_deck_url" = Some (VStr (String c s)) ->
  download_pitch_deck_try download_to_file (VDict d)
  = if negb (String.prefix "gs://" (String c s)) then Failed AssertionError
    else
      match split_once "/" (drop_chars 5 (String c s)) with
      | bucket_name :: blob_name :: _ =>
          match download_to_file bucket_name blob_name with
          | Raise e => Failed (Plain e)
          | Ok file_stream =>
              Done (streaming_response file_stream "application/pdf"
                      ("attachment; filename=" +:+ last_segment blob_name))
          end
      | _ => Failed (IndexError "list index out of range")
      end.
Proof.
  intros Hrf Hurl. unfold download_pitch_deck_try.
  rewrite (dict_get_truthy _ _ _ Hrf). cbn [negb py_get]. rewrite Hrf.
  cbn [from_option id]. res_simpl. cbn [py_get]. rewrite Hurl.
  cbn [from_option id truthy nonempty negb]. reflexivity.
Qed.

End PitchDeck.

(** X19: the pitch-deck download splits the stored URL
    [gs://<bucket>/<object>] at the first slash after the scheme: it asks
    the bucket named before that slash for the object named after it,
    slashes included, and serves the file under the last segment of the
    object name, which holds no slash and with which the object name
    ends. *)
Theorem gs_url_is_split_into_bucket_and_object
    (download_to_file : string -> string -> result value) (d raw_files : dict)
    (bucket object : string) :
  has_char "/" bucket = false ->
  dict_get d "raw_files" = Some (VDict raw_files) ->
  dict_get raw_files "pitch_deck_url"
  = Some (VStr ("gs://" +:+ bucket +:+ "/" +:+ object)) ->
  download_pitch_deck_try download_to_file (VDict d)
  = match download_to_file bucket object with
    | Ok file_stream =>
        Done (streaming_response file_stream "application/pdf"
                ("attachment; filename=" +:+ last_segment object))
    | Raise e => Failed (Plain e)
    end /\
  has_char "/" (last_segment object) = false /\
  exists before, object = before +:+ last_segment object.
Proof.
  intros Hbucket Hrf Hurl. split; [|apply last_segment_spec].
  change (VStr ("gs://" +:+ bucket +:+ "/" +:+ object))
    with (VStr (String "g" ("s://" +:+ bucket +:+ String "/" object)))
    in Hurl.
  rewrite (download_pitch_deck_try_url _ _ _ _ _ Hrf Hurl).
  change (String.prefix "gs://"
            (String "g" ("s://" +:+ bucket +:+ String "/" object)))
    with (String.prefix "" (bucket +:+ String "/" object)).
  rewrite prefix_nil.
  change (drop_chars 5 (String "g" ("s://" +:+ bucket +:+ String "/" object)))
    with (bucket +:+ String "/" object).
  cbn [negb]. rewrite (split_once_app "/" bucket object Hbucket).
  by destruct (download_to_file bucket object).
Qed.

Lemma gs_url_is_split_into_bucket_and_object_witness :
  download_pitch_deck_try (fun bucket object => Ok (VStr (bucket +:+ "|" +:+ object)))
    (VDict [("raw_files", VDict [("pitch_deck_url", deck)])])
  = Done (streaming_response (VStr "bucket|deals/3fa9c1/pitch_deck.pdf")
            "application/pdf" "attachment; filename=pitch_deck.pdf").
Proof.
  exact (proj1 (gs_url_is_split_into_bucket_and_object
                  (fun bucket object => Ok (VStr (bucket +:+ "|" +:+ object)))
                  [("raw_files", VDict [("pitch_deck_url", deck)])]
                  [("pitch_deck_url", deck)] "bucket"
                  "deals/3fa9c1/pitch_deck.pdf" eq_refl eq_refl eq_refl)).
Defined.

(** X20: upload, then download.  When the bucket stores the file of a new
    deal under [gs://<bucket>/deals/<deal_id>/pitch_deck.pdf], the
    pitch-deck download of that deal asks that bucket for that object and
    serves it under the name [pitch_deck.pdf], whatever the identifier
    is. *)
Theorem uploaded_deck_is_served_as_pitch_deck_pdf (sv : services)
    (download_to_file : string -> string -> result value) (deal_id : string)
    (w : world) (bucket : string) :
  has_char "/" bucket = false ->
  upload_file sv ("deals/" +:+ deal_id +:+ "/pitch_deck.pdf")
  = Ok (VStr ("gs://" +:+ bucket +:+ "/"
              +:+ ("deals/" +:+ deal_id +:+ "/pitch_deck.pdf"))) ->
  snd (download_pitch_deck download_to_file deal_id
         (fst (upload_deal sv deal_id true w)))
  = match download_to_file bucket
            ("deals/" +:+ deal_id +:+ "/pitch_deck.pdf") with
    | Ok file_stream =>
        Ok (streaming_response file_stream "application/pdf"
              "attachment; filename=pitch_deck.pdf")
    | Raise e => Raise (HTTPException 500 (exn_str e))
    end.
Proof.
  intros Hbucket Hup. rewrite download_pitch_deck_eq, upload_deal_eq.
  unfold store_files. rewrite Hup. res_simpl. unfold FirestoreManager.read.
  cbn [fst snd with_task db FirestoreManager.write FirestoreManager.apply_op].
  rewrite !lookup_insert_eq. cbn [from_option id].
  set (path := "deals/" +:+ deal_id +:+ "/pitch_deck.pdf").
  change (VStr ("gs://" +:+ bucket +:+ "/" +:+ path))
    with (VStr (String "g" ("s://" +:+ bucket +:+ String "/" path))).
  change (FirestoreManager.merge_patch
            (VDict [("metadata", initial_metadata sv deal_id)])
            [("raw_files",
              VDict [("pitch_deck_url",
                      VStr (String "g"
                              ("s://" +:+ bucket +:+ String "/" path)))])])
    with (VDict [("metadata", initial_metadata sv deal_id);
                 ("raw_files",
                  VDict [("pitch_deck_url",
                          VStr (String "g"
                                  ("s://" +:+ bucket
                                   +:+ String "/" path)))])]).
  rewrite (download_pitch_deck_try_url download_to_file
             [("metadata", initial_metadata sv deal_id);
              ("raw_files",
               VDict [("pitch_deck_url",
                       VStr (String "g"
                               ("s://" +:+ bucket +:+ String "/" path)))])]
             [("pitch_deck_url",
               VStr (String "g" ("s://" +:+ bucket +:+ String "/" path)))]
             "g" ("s://" +:+ bucket +:+ String "/" path) eq_refl eq_refl).
  change (String.prefix "gs://"
            (String "g" ("s://" +:+ bucket +:+ String "/" path)))
    with (String.prefix "" (bucket +:+ String "/" path)).
  rewrite prefix_nil. cbn [negb].
  change (drop_chars 5 (String "g" ("s://" +:+ bucket +:+ String "/" path)))
    with (bucket +:+ String "/" path).
  rewrite (split_once_app "/" bucket path Hbucket).
  assert (Hname : last_segment path = "pitch_deck.pdf").
  { unfold path.
    change ("deals/" +:+ deal_id +:+ "/pitch_deck.pdf")
      with ("deals/" +:+ deal_id +:+ String "/" "pitch_deck.pdf").
    rewrite <- append_assoc. by apply last_segment_app. }
  rewrite Hname.
  by destruct (download_to_file bucket path).
Qed.

Lemma uploaded_deck_is_served_as_pitch_deck_pdf_witness :
  snd (download_pitch_deck (fun bucket object => Ok (VStr object)) "3fa9c1"
         uploaded)
  = Ok (streaming_response (VStr "deals/3fa9c1/pitch_deck.pdf")
          "application/pdf" "attachment; filename=pitch_deck.pdf").
Proof.
  exact (uploaded_deck_is_served_as_pitch_deck_pdf
           (sample_services (Ok two_pages))
           (fun bucket object => Ok (VStr object)) "3fa9c1" initial "bucket"
           eq_refl eq_refl).
Defined.

(** X21: the pitch-deck download writes nothing, and whatever goes wrong
    in it is answered 500: a deal without a record and a record without a
    pitch-deck URL (the text of the 404 raised inside the [try] block), a
    URL that does not start with [gs://] (the failed [assert], with an
    empty detail) and a URL that names a bucket but no object (the index
    error of [parts[1]]). *)
Theorem pitch_deck_download_failures_are_answered_500
    (download_to_file : string -> string -> result value) (deal_id : string)
    (w : world) :
  fst (download_pitch_deck download_to_file deal_id w) = w /\
  (forall e,
      snd (download_pitch_deck download_to_file deal_id w) = Raise e ->
      exists detail, e = HTTPException 500 detail) /\
  (db w !! deal_id = None ->
   snd (download_pitch_deck download_to_file deal_id w)
   = Raise (HTTPException 500 "404: Deal not found")) /\
  (forall d,
      db w !! deal_id = Some (VDict d) ->
      truthy (VDict d) = true ->
      dict_get d "raw_files" = None ->
      snd (download_pitch_deck download_to_file deal_id w)
      = Raise (HTTPException 500 "404: Pitch deck not found")) /\
  (forall d raw_files c s,
      db w !! deal_id = Some (VDict d) ->
      dict_get d "raw_files" = Some (VDict raw_files) ->
      dict_get raw_files "pitch_deck_url" = Some (VStr (String c s)) ->
      String.prefix "gs://" (String c s) = false ->
      snd (download_pitch_deck download_to_file deal_id w)
      = Raise (HTTPException 500 "")) /\
  (forall d raw_files bucket,
      db w !! deal_id = Some (VDict d) ->
      dict_get d "raw_files" = Some (VDict raw_files) ->
      dict_get raw_files "pitch_deck_url"
      = Some (VStr ("gs://" +:+ bucket)) ->
      has_char "/" bucket = false ->
      snd (download_pitch_deck download_to_file deal_id w)
      = Raise (HTTPException 500 "list index out of range")).
Proof.
  rewrite download_pitch_deck_eq. cbn [fst snd].
  unfold FirestoreManager.read.
  split; [done|]. split; [|split; [|split; [|split]]].
  - intros e. destruct (download_pitch_deck_try _ _); [done|].
    intros [= <-]. by eauto.
  - intros ->. reflexivity.
  - intros d -> Htruthy Hrf. cbn [from_option id].
    unfold download_pitch_deck_try.
    rewrite Htruthy. cbn [negb py_get]. rewrite Hrf.
    reflexivity.
  - intros d raw_files c s -> Hrf Hurl Hprefix. cbn [from_option id].
    rewrite (download_pitch_deck_try_url _ _ _ _ _ Hrf Hurl), Hprefix.
    reflexivity.
  - intros d raw_files bucket -> Hrf Hurl Hbucket. cbn [from_option id].
    change (VStr ("gs://" +:+ bucket))
      with (VStr (String "g" ("s://" +:+ bucket))) in Hurl.
    rewrite (download_pitch_deck_try_url _ _ _ _ _ Hrf Hurl).
    change (String.prefix "gs://" (String "g" ("s://" +:+ bucket)))
      with (String.prefix "" bucket).
    rewrite prefix_nil. cbn [negb].
    change (drop_chars 5 (String "g" ("s://" +:+ bucket))) with bucket.
    by rewrite (split_once_no_sep "/" bucket Hbucket).
Qed.

Lemma pitch_deck_download_failures_are_answered_500_witness :
  snd (download_pitch_deck (fun _ _ => Ok VNone) "3fa9c1" initial)
  = Raise (HTTPException 500 "404: Deal not found") /\
  snd (download_pitch_deck (fun _ _ => Ok VNone) "3fa9c1"
         (fst (upload_deal storage_down "3fa9c1" true initial)))
  = Raise (HTTPException 500 "404: Pitch deck not found") /\
  snd (download_pitch_deck (fun _ _ => Ok VNone) "3fa9c1"
         (FirestoreManager.write initial
            (Created "3fa9c1"
               (VDict [("raw_files",
                        VDict [("pitch_deck_url", VStr "gs://bucket")])]))))
  = Raise (HTTPException 500 "list index out of range").
Proof.
  split; [|split].
  - apply (proj1 (proj2 (proj2
             (pitch_deck_download_failures_are_answered_500
                (fun _ _ => Ok VNone) "3fa9c1" initial)))).
    reflexivity.
  - exact (proj1 (proj2 (proj2 (proj2
             (pitch_deck_download_failures_are_answered_500
                (fun _ _ => Ok VNone) "3fa9c1"
                (fst (upload_deal storage_down "3fa9c1" true initial))))))
             _ eq_refl eq_refl eq_refl).
  - exact (proj2 (proj2 (proj2 (proj2 (proj2
             (pitch_deck_download_failures_are_answered_500
                (fun _ _ => Ok VNone) "3fa9c1"
                (FirestoreManager.write initial
                   (Created "3fa9c1"
                      (VDict [("raw_files",
                               VDict [("pitch_deck_url",
                                       VStr "gs://bucket")])]))))))))
             _ _ "bucket" eq_refl eq_refl eq_refl eq_refl).
Defined.

(** ** The background task from end to end *)

Section EndToEnd.

Import FirestoreManager.

Lemma field_cons (s : gmap string value) deal_id k q v :
  field s deal_id [k] = Some v -> field s deal_id (k :: q) = get_path v q.
Proof.
  unfold field. destruct (s !! deal_id) as [doc|]; [|done].
  destruct doc as [| | | | |d|]; try done. cbn [get_path].
  destruct (dict_get d k); [|done]. by intros [= ->].
Qed.

Lemma process_pdf_summarized (sv : services) (gcs_path : value)
    (summary s f x c : value) :
  summarize_pitch_deck sv
    (PDFProcessor.full_text_of (PDFProcessor._extract_text_from_pdf sv gcs_path))
  = Ok summary ->
  subscript summary "summary_res" = Ok s ->
  subscript summary "founder_response" = Ok f ->
  subscript summary "sector_response" = Ok x ->
  subscript summary "company_name_response" = Ok c ->
  PDFProcessor.process_pdf sv gcs_path
  = VDict [("raw", PDFProcessor.raw_of
                     (PDFProcessor._extract_text_from_pdf sv gcs_path));
           ("concise", s);
           ("founder_response", f);
           ("sector_response", x);
           ("company_name_response", c)].
Proof.
  intros Hsum Hs Hf Hx Hc. unfold PDFProcessor.process_pdf.
  rewrite Hsum. res_simpl. rewrite Hf. res_simpl. rewrite Hx. res_simpl.
  rewrite Hs. res_simpl. rewrite Hc. reflexivity.
Qed.

(** The run of the background task when every service answers. *)
Lemma process_deal_summarized (sv : services) (deal_id : string)
    (file_urls : dict) (gcs_path : value) (w : world)
    (summary s f x c public_data : value) :
  dict_get file_urls "pitch_deck_url" = Some gcs_path ->
  summarize_pitch_deck sv
    (PDFProcessor.full_text_of (PDFProcessor._extract_text_from_pdf sv gcs_path))
  = Ok summary ->
  subscript summary "summary_res" = Ok s ->
  subscript summary "founder_response" = Ok f ->
  subscript summary "sector_response" = Ok x ->
  subscript summary "company_name_response" = Ok c ->
  gather_data sv c f x = Ok public_data ->
  process_deal sv deal_id file_urls w
  = (write (write w (Updated deal_id (status_patch "processing")))
       (Updated deal_id
          (processed_patch
             (VDict [("pitch_deck",
                      VDict [("raw",
                              PDFProcessor.raw_of
                                (PDFProcessor._extract_text_from_pdf
                                   sv gcs_path));
                             ("concise", s)])])
             public_data (utcnow sv) c f x)),
     Ok tt).
Proof.
  intros Hurl Hsum Hs Hf Hx Hc Hgather.
  rewrite process_deal_eq. cbn zeta. rewrite deal_data_after_write.
  destruct (metadata_after_status_patch
              (default (VDict []) (db w !! deal_id)) "processing") as [m Hm].
  by rewrite (process_stages_with_deck sv file_urls gcs_path _ m _ s f x c
                public_data Hurl
                (process_pdf_summarized _ _ _ _ _ _ _ Hsum Hs Hf Hx Hc)
                Hm Hgather).
Qed.

End EndToEnd.

(** X22: a background task whose services all answer leaves the deal
    [processed] with exactly what they returned: the page texts of the
    extraction under [extracted_text.pitch_deck.raw], page [i] (from 0)
    under the key [str(i + 1)], the summary under [concise], the company
    name, the founders and the sector of the summarizer under [metadata],
    and under [public_data] what the search returned for those three. *)
Theorem processed_deal_holds_the_pages_and_the_summary (sv : services)
    (deal_id : string) (file_urls : dict) (gcs_path : value) (w : world)
    (summary s f x c public_data : value) :
  dict_get file_urls "pitch_deck_url" = Some gcs_path ->
  summarize_pitch_deck sv
    (PDFProcessor.full_text_of (PDFProcessor._extract_text_from_pdf sv gcs_path))
  = Ok summary ->
  subscript summary "summary_res" = Ok s ->
  subscript summary "founder_response" = Ok f ->
  subscript summary "sector_response" = Ok x ->
  subscript summary "company_name_response" = Ok c ->
  gather_data sv c f x = Ok public_data ->
  status_of (db (fst (process_deal sv deal_id file_urls w))) deal_id
  = Some (VStr "processed") /\
  field (db (fst (process_deal sv deal_id file_urls w))) deal_id
    ["extracted_text"]
  = Some (VDict [("pitch_deck",
                  VDict [("raw", PDFProcessor.raw_of
                                   (PDFProcessor._extract_text_from_pdf
                                      sv gcs_path));
                         ("concise", s)])]) /\
  (forall i t,
      PDFProcessor._extract_text_from_pdf sv gcs_path !! i = Some t ->
      field (db (fst (process_deal sv deal_id file_urls w))) deal_id
        ["extracted_text"; "pitch_deck"; "raw"; str_of_nat (i + 1)]
      = Some (VStr t)) /\
  field (db (fst (process_deal sv deal_id file_urls w))) deal_id
    ["metadata"; "company_name"] = Some c /\
  field (db (fst (process_deal sv deal_id file_urls w))) deal_id
    ["metadata"; "founder_names"] = Some f /\
  field (db (fst (process_deal sv deal_id file_urls w))) deal_id
    ["metadata"; "sector"] = Some x /\
  field (db (fst (process_deal sv deal_id file_urls w))) deal_id
    ["public_data"] = Some public_data.
Proof.
  intros Hurl Hsum Hs Hf Hx Hc Hgather.
  rewrite (process_deal_summarized sv deal_id file_urls gcs_path w summary
             s f x c public_data) by done.
  cbn [fst FirestoreManager.write db].
  destruct (processed_patch_fields
              (FirestoreManager.apply_op (db w)
                 (Updated deal_id (status_patch "processing")))
              deal_id
              (VDict [("pitch_deck",
                       VDict [("raw",
                               PDFProcessor.raw_of
                                 (PDFProcessor._extract_text_from_pdf
                                    sv gcs_path));
                              ("concise", s)])])
              public_data (utcnow sv) c f x)
    as (Het & Hpd & Hst & _ & Hcn & Hfn & Hsec).
  split; [exact Hst|]. split; [exact Het|].
  split; [|by repeat split].
  intros i t Hi. rewrite (field_cons _ _ _ _ _ Het).
  cbn [get_path dict_get String.eqb Ascii.eqb Bool.eqb].
  unfold PDFProcessor.raw_of, PDFProcessor.enumerate.
  rewrite (imap_ext _ (fun j y => (0 + j, y))) by done.
  change (i + 1) with (0 + i + 1). by rewrite raw_of_lookup_from, Hi.
Qed.

Lemma processed_deal_holds_the_pages_and_the_summary_witness :
  field (db processed) "3fa9c1"
    ["extracted_text"; "pitch_deck"; "raw"; "2"] = Some (VStr "Team") /\
  field (db processed) "3fa9c1" ["metadata"; "company_name"]
  = Some (VStr "Paylane").
Proof.
  destruct (processed_deal_holds_the_pages_and_the_summary
              (sample_services (Ok two_pages)) "3fa9c1" deck_urls deck
              (without_task uploaded []) sample_summary _ _ _ _ _
              eq_refl eq_refl eq_refl eq_refl eq_refl eq_refl eq_refl)
    as (_ & _ & Hpage & Hname & _).
  split; [exact (Hpage 1 "Team" eq_refl)|exact Hname].
Defined.

(** X23: when the summarizer raises, [process_pdf] returns its safe
    structure, which has no entity fields; the background task then fails
    at the enrichment call, and the deal ends in [error] with the text of
    the [KeyError] under [metadata.error], not the text of the exception of
    the summarizer, and without any extracted text. *)
Theorem summarizer_failure_is_recorded_as_a_key_error (sv : services)
    (deal_id : string) (file_urls : dict) (gcs_path : value) (w : world)
    (e : exn) :
  dict_get file_urls "pitch_deck_url" = Some gcs_path ->
  summarize_pitch_deck sv
    (PDFProcessor.full_text_of (PDFProcessor._extract_text_from_pdf sv gcs_path))
  = Raise e ->
  PDFProcessor.process_pdf sv gcs_path = PDFProcessor.ocr_error_structure /\
  status_of (db (fst (process_deal sv deal_id file_urls w))) deal_id
  = Some (VStr "error") /\
  field (db (fst (process_deal sv deal_id file_urls w))) deal_id
    ["metadata"; "error"]
  = Some (VStr "'company_name_response'") /\
  field (db (fst (process_deal sv deal_id file_urls w))) deal_id
    ["extracted_text"]
  = field (db w) deal_id ["extracted_text"].
Proof.
  intros Hurl Hsum.
  destruct (summarizer_failure_ends_in_error sv deal_id file_urls gcs_path w e
              Hurl Hsum) as (Hpdf & Htry & Hst).
  split; [exact Hpdf|]. split; [exact Hst|].
  revert Htry. rewrite process_deal_eq, process_deal_try_eq. cbn zeta.
  destruct (process_stages _ _ _) as [patch|e0]; cbn [fst snd];
    [discriminate|]. intros [= ->]. cbn [FirestoreManager.write db].
  split; [apply error_after_error_patch|].
  by rewrite !field_updated_diverge.
Qed.

Lemma summarizer_failure_is_recorded_as_a_key_error_witness :
  field (db (fst (process_deal (summarizer_down (Ok two_pages)) "3fa9c1"
                    deck_urls (without_task uploaded []))))
    "3fa9c1" ["metadata"; "error"]
  = Some (VStr "'company_name_response'").
Proof.
  exact (proj1 (proj2 (proj2
           (summarizer_failure_is_recorded_as_a_key_error
              (summarizer_down (Ok two_pages)) "3fa9c1" deck_urls deck
              (without_task uploaded []) (UpstreamError "model overloaded")
              eq_refl eq_refl)))).
Defined.

(** ** The system over time: the task queue and the statuses *)

Section Statuses.

Import FirestoreManager.

(** A write that changes no status keeps the statuses among the four. *)
Lemma keeps_valid (w : world) (o : store_op) :
  keeps_status o ->
  (forall deal_id, Forall is_status (status_history deal_id w)) ->
  (forall deal_id s, status_of (db w) deal_id = Some s -> is_status s) ->
  (forall deal_id, Forall is_status (status_history deal_id (write w o))) /\
  (forall deal_id s,
      status_of (db (write w o)) deal_id = Some s -> is_status s).
Proof.
  intros Hkeep Hhist Hnow.
  assert (Hnext : forall deal_id s,
    status_of (apply_op (db w) o) deal_id = Some s -> is_status s).
  { intros deal_id s Hs. destruct (Hkeep (db w) deal_id) as [Heq|Heq];
      rewrite Heq in Hs; [exact (Hnow deal_id s Hs)|done]. }
  split; [|exact Hnext]. intros deal_id. rewrite status_history_write.
  apply Forall_app. split; [apply Hhist|].
  destruct (status_of (apply_op (db w) o) deal_id) as [s|] eqn:Hs;
    [|constructor].
  constructor; [exact (Hnext deal_id s Hs)|constructor].
Qed.

(** So does a write that sets one of the four. *)
Lemma sets_valid (w : world) (o : store_op) (status : string) :
  sets_status o status -> is_status (VStr status) ->
  (forall deal_id, Forall is_status (status_history deal_id w)) ->
  (forall deal_id s, status_of (db w) deal_id = Some s -> is_status s) ->
  (forall deal_id, Forall is_status (status_history deal_id (write w o))) /\
  (forall deal_id s,
      status_of (db (write w o)) deal_id = Some s -> is_status s).
Proof.
  intros Hset Hstatus Hhist Hnow.
  assert (Hnext : forall deal_id s,
    status_of (apply_op (db w) o) deal_id = Some s -> is_status s).
  { intros deal_id s Hs. destruct (decide (deal_id = op_id o)) as [->|Hne].
    - rewrite Hset in Hs. by injection Hs as <-.
    - rewrite write_other in Hs by done. exact (Hnow deal_id s Hs). }
  split; [|exact Hnext]. intros deal_id. rewrite status_history_write.
  apply Forall_app. split; [apply Hhist|].
  destruct (status_of (apply_op (db w) o) deal_id) as [s|] eqn:Hs;
    [|constructor].
  constructor; [exact (Hnext deal_id s Hs)|constructor].
Qed.

(** The next write of a program in any role changes no status or sets
    one of the four, and the program has a role afterwards. *)
Lemma plays_put {A} (r : role) o (k : result unit -> prog A) :
  plays r (Thread (Put o k)) ->
  (keeps_status o \/
   exists status, sets_status o status /\ is_status (VStr status)) /\
  exists r', plays r' (Thread (k (Ok tt))).
Proof.
  destruct r as [|id|id|id|id]; cbn [plays].
  - intros Hr. inversion Hr; subst. split; [by left|].
    exists Quiet. cbn. auto.
  - intros (o' & k' & [= -> ->] & _ & Hset & Hk & _). split.
    + right. exists "uploading". split; [done|by left].
    + by exists (Announcing id).
  - intros Hr. inversion Hr; subst. split; [by left|].
    exists (Announcing id). cbn. auto.
  - intros (o' & k' & [= -> ->] & _ & Hset & Hk). split.
    + right. exists "processing". split; [done|]. right. by left.
    + exists (Finishing id). cbn. auto.
  - intros Hr. inversion Hr as [| |o' k' status Hid Hset Hst Hk Hfail]; subst.
    split.
    + right. exists status. split; [done|].
      destruct Hst as [-> | ->]; unfold is_status; auto.
    + by exists Quiet.
Qed.

Lemma plays_spawn {A} (r : role) deal_id file_urls (k : prog A) :
  plays r (Thread (Spawn deal_id file_urls k)) -> plays Quiet (Thread k).
Proof.
  destruct r; cbn [plays].
  - inversion 1.
  - by intros (o & k' & Heq & _).
  - by inversion 1; subst.
  - by intros (o & k' & Heq & _).
  - inversion 1.
Qed.

(** Every step keeps the programs in flight in their roles and the
    statuses among the four, whatever identifiers are drawn. *)
Lemma statuses_step (sys sys' : system) (roles : list role) :
  Forall2 plays roles (pool sys) ->
  (forall deal_id, Forall is_status (status_history deal_id (state sys))) ->
  (forall deal_id s,
      status_of (db (state sys)) deal_id = Some s -> is_status s) ->
  step sys sys' ->
  (exists roles', Forall2 plays roles' (pool sys')) /\
  (forall deal_id, Forall is_status (status_history deal_id (state sys'))) /\
  (forall deal_id s,
      status_of (db (state sys')) deal_id = Some s -> is_status s).
Proof.
  intros Hplays Hhist Hnow Hstep.
  assert (Hjoin : forall r t,
    plays r t -> exists roles', Forall2 plays roles' (pool sys ++ [t])).
  { intros r t Hr. exists (roles ++ [r]).
    apply Forall2_app; [done|]. by repeat constructor. }
  destruct Hstep as [sv id pitch_deck sys
    |sv id weightage sys|id sys
    |processing_status id sys|id sys
    |download_file id sys|download_to_file id sys
    |sv id file_urls earlier later sys Htasks
    |A id k before behind sys Hpool
    |A id k e before behind sys Hpool
    |A o k before behind sys Hpool
    |A o k e before behind sys Hpool
    |A id file_urls k before behind sys Hpool
    |A r before behind sys Hpool
    |t before behind sys Hpool]; cbn [state pool].
  - split; [|done]. apply (Hjoin (Creating id)), upload_deal_creating.
  - split; [|done]. apply (Hjoin Quiet), generate_memo_quiet.
  - split; [|done]. apply (Hjoin Quiet), delete_specific_deal_quiet.
  - split; [|done]. apply (Hjoin Quiet), get_processing_status_quiet.
  - split; [|done]. apply (Hjoin Quiet), fetch_specific_deal_quiet.
  - split; [|done]. apply (Hjoin Quiet), download_memo_quiet.
  - split; [|done]. apply (Hjoin Quiet), download_pitch_deck_quiet.
  - split; [|done]. apply (Hjoin (Starting id)), process_deal_starting.
  - split; [|done]. rewrite Hpool in Hplays.
    apply pool_split in Hplays as (rs1 & r & rs2 & -> & H1 & Hr & H2).
    exists (rs1 ++ r :: rs2). apply pool_join; [done| |done].
    by apply (plays_get r id k).
  - split; [|done]. rewrite Hpool in Hplays.
    apply pool_split in Hplays as (rs1 & r & rs2 & -> & H1 & Hr & H2).
    exists (rs1 ++ r :: rs2). apply pool_join; [done| |done].
    by apply (plays_get r id k).
  - rewrite Hpool in Hplays.
    apply pool_split in Hplays as (rs1 & r & rs2 & -> & H1 & Hr & H2).
    destruct (plays_put r o k Hr) as [Hwrite [r' Hr']]. split.
    + exists (rs1 ++ r' :: rs2). by apply pool_join.
    + destruct Hwrite as [Hkeep|(status & Hset & Hstatus)].
      * by apply keeps_valid.
      * by apply (sets_valid _ _ status).
  - split; [|done]. rewrite Hpool in Hplays.
    apply pool_split in Hplays as (rs1 & r & rs2 & -> & H1 & Hr & H2).
    destruct (plays_put_fails r o k e Hr) as (r' & Hr' & _).
    exists (rs1 ++ r' :: rs2). by apply pool_join.
  - split; [|done]. rewrite Hpool in Hplays.
    apply pool_split in Hplays as (rs1 & r & rs2 & -> & H1 & Hr & H2).
    exists (rs1 ++ Quiet :: rs2). apply pool_join; [done| |done].
    by apply (plays_spawn r id file_urls).
  - split; [|done]. rewrite Hpool in Hplays.
    apply pool_split in Hplays as (rs1 & r0 & rs2 & -> & H1 & Hr & H2).
    exists (rs1 ++ rs2). by apply Forall2_app.
  - split; [|done]. rewrite Hpool in Hplays.
    apply pool_split in Hplays as (rs1 & r0 & rs2 & -> & H1 & Hr & H2).
    exists (rs1 ++ rs2). by apply Forall2_app.
Qed.

Lemma statuses_reachable (sys : system) :
  reachable sys ->
  (exists roles, Forall2 plays roles (pool sys)) /\
  (forall deal_id, Forall is_status (status_history deal_id (state sys))) /\
  (forall deal_id s,
      status_of (db (state sys)) deal_id = Some s -> is_status s).
Proof.
  induction 1 as [|sys sys' _ ([roles Hplays] & Hhist & Hnow) Hstep].
  - split; [exists []; constructor|]. split.
    + intros deal_id. constructor.
    + intros deal_id s Hs. unfold status_of, field in Hs.
      cbn [start state initial db] in Hs. by rewrite lookup_empty in Hs.
  - by apply (statuses_step sys sys' roles).
Qed.

(** Two uploads that draw the same identifier, before any task runs. *)
Lemma double_upload_reachable :
  reachable
    {| state := fst (upload_deal (sample_services (Ok two_pages)) "3fa9c1"
                       true uploaded);
       pool := []; drawn := ["3fa9c1"; "3fa9c1"] |}.
Proof.
  eapply reachable_rtc;
    [|exact (run_to_end
               (upload_deal (sample_services (Ok two_pages)) "3fa9c1" true)
               {| state := uploaded;
                  pool := [] ++ [Thread (upload_deal
                                   (sample_services (Ok two_pages))
                                   "3fa9c1" true)];
                  drawn := ["3fa9c1"; "3fa9c1"] |} [] [] eq_refl)].
  apply (reachable_step
           {| state := uploaded; pool := []; drawn := ["3fa9c1"] |});
    [apply uploaded_reachable|].
  apply (step_upload _ "3fa9c1" true
           {| state := uploaded; pool := []; drawn := ["3fa9c1"] |}).
Qed.

End Statuses.

(** X24: at every moment of every run of the service, with requests and
    background tasks interleaving at each access to the store, every
    status a deal has had, and so the status a poll reads, is one of
    [uploading], [processing], [processed] and [error]. *)
Theorem every_status_is_one_of_the_four (sys : system) (deal_id : string) :
  reachable sys ->
  Forall is_status (status_history deal_id (state sys)) /\
  forall s, status_of (db (state sys)) deal_id = Some s -> is_status s.
Proof.
  intros Hreach.
  destruct (statuses_reachable _ Hreach) as (_ & Hhist & Hnow).
  split; [apply Hhist|apply Hnow].
Qed.

Lemma every_status_is_one_of_the_four_witness :
  Forall is_status (status_history "3fa9c1" failed_enrichment).
Proof.
  exact (proj1 (every_status_is_one_of_the_four
                  {| state := failed_enrichment; pool := [];
                     drawn := ["3fa9c1"] |} "3fa9c1"
                  (task_run_reachable (enrichment_down (Ok two_pages)) []))).
Defined.

(** X25: at every moment of every run of the service in which [uuid4]
    has drawn no identifier twice, no deal has two background tasks
    waiting, and a deal whose task is waiting has had no other status than
    [uploading]: a task is scheduled once, by the upload that created the
    deal.  Nothing checks the identifier drawn: when two uploads draw the
    same one, two tasks wait for the same deal. *)
Theorem no_deal_is_scheduled_twice :
  (forall sys,
      reachable sys -> NoDup (drawn sys) ->
      NoDup (map fst (tasks (state sys))) /\
      forall deal_id file_urls,
        (deal_id, file_urls) ∈ tasks (state sys) ->
        Forall (fun s => s = VStr "uploading")
          (status_history deal_id (state sys))) /\
  (exists sys,
      reachable sys /\ map fst (tasks (state sys)) = ["3fa9c1"; "3fa9c1"]).
Proof.
  split.
  - intros sys Hreach Hids.
    destruct (sinv_reachable _ Hreach Hids) as [roles Hinv]. split.
    + pose proof (sinv_nodup _ _ Hinv) as Hnd. unfold holders in Hnd.
      by apply NoDup_app in Hnd as (_ & _ & Hnd).
    + apply (sinv_tasks _ _ Hinv).
  - eexists. split; [apply double_upload_reachable|]. reflexivity.
Qed.

Lemma no_deal_is_scheduled_twice_witness :
  NoDup (map fst (tasks uploaded)) /\
  Forall (fun s => s = VStr "uploading") (status_history "3fa9c1" uploaded).
Proof.
  destruct (proj1 no_deal_is_scheduled_twice _ uploaded_reachable
              (NoDup_singleton "3fa9c1")) as [Hnd Hq].
  split; [exact Hnd|].
  apply (Hq "3fa9c1" deck_urls). apply list_elem_of_singleton. reflexivity.
Defined.

(** ** The background task and the whole pipeline in one piece *)

(** What a run of the background task leaves behind, however the calls
    to the store fare. *)
Lemma process_deal_run_shape (sv : services) (deal_id : string)
    (file_urls : dict) (schedule rest : list answer) (w w' : world)
    (end_ : outcome unit) :
  run (process_deal sv deal_id file_urls) schedule w = (w', end_, rest) ->
  (end_ = Finished (Ok tt) ->
   (status_of (db w') deal_id = Some (VStr "processed") \/
    status_of (db w') deal_id = Some (VStr "error")) /\
   exists patch,
     map op (journal w')
     = map op (journal w)
       ++ [Updated deal_id (status_patch "processing"); Updated deal_id patch]
     \/ map op (journal w') = map op (journal w) ++ [Updated deal_id patch]) /\
  (end_ <> Finished (Ok tt) ->
   w' = w \/
   w' = FirestoreManager.write w (Updated deal_id (status_patch "processing"))) /\
  tasks w' = tasks w /\
  (forall other, other <> deal_id -> db w' !! other = db w !! other).
Proof.
  rewrite run_process_deal, run_process_deal_try. cbn zeta.
  set (w1 := FirestoreManager.write w
               (Updated deal_id (status_patch "processing"))).
  match goal with |- _ -> ?G => set (P := G) end.
  assert (Hcommit : forall patch,
    map op (journal (FirestoreManager.write w1 (Updated deal_id patch)))
    = map op (journal w)
      ++ [Updated deal_id (status_patch "processing"); Updated deal_id patch]).
  { intros patch. unfold w1. by rewrite !journal_write, <- app_assoc. }
  assert (Hothers : forall w0 patch other,
    w0 = w \/ w0 = w1 ->
    other <> deal_id ->
    db (FirestoreManager.write w0 (Updated deal_id patch)) !! other
    = db w !! other).
  { intros w0 patch other [-> | ->] Hne; cbn [FirestoreManager.write db w1];
      by rewrite !lookup_apply_op_ne. }
  assert (Hothers1 : forall other,
    other <> deal_id -> db w1 !! other = db w !! other).
  { intros other Hne. unfold w1. cbn [FirestoreManager.write db].
    by rewrite lookup_apply_op_ne. }
  assert (Hstops : forall w0 (end0 : outcome unit) (left_ : list answer),
    w0 = w \/ w0 = w1 -> end0 <> Finished (Ok tt) ->
    (w0, end0, left_) = (w', end_, rest) -> P).
  { intros w0 end0 left_ Hw0 Hend [= <- <- <-]. unfold P.
    split; [done|]. split; [done|].
    destruct Hw0 as [-> | ->]; [done|]. split; [done|exact Hothers1]. }
  assert (Hhandled : forall w0 e (left_ : list answer),
    w0 = w \/ w0 = w1 ->
    match left_ with
    | Cancelled :: rest' => (w0, Aborted, rest')
    | Fails e' :: rest' => (w0, Finished (Raise e'), rest')
    | _ => (FirestoreManager.write w0 (Updated deal_id (error_patch e)),
            Finished (Ok tt), tl left_)
    end = (w', end_, rest) -> P).
  { intros w0 e left_ Hw0 Hrun.
    assert (Hwritten :
      (FirestoreManager.write w0 (Updated deal_id (error_patch e)),
       Finished (Ok tt), tl left_) = (w', end_, rest) -> P).
    { intros [= <- <- <-]. unfold P. split; [intros _; split|].
      - right. cbn [FirestoreManager.write db].
        apply status_after_error_patch.
      - exists (error_patch e). destruct Hw0 as [-> | ->].
        + right. apply journal_write.
        + left. apply Hcommit.
      - split; [done|]. split; [by destruct Hw0 as [-> | ->]|].
        intros other Hne. by apply Hothers. }
    destruct left_ as [|[|e'|] rest'];
      [by apply Hwritten|by apply Hwritten|..].
    - apply (Hstops w0 (Finished (Raise e')) rest' Hw0); [done|exact Hrun].
    - apply (Hstops w0 Aborted rest' Hw0); [done|exact Hrun]. }
  assert (Hcommitted : forall patch (left_ : list answer),
    process_stages sv file_urls (read w1 deal_id) = Ok patch ->
    (FirestoreManager.write w1 (Updated deal_id patch), Finished (Ok tt), left_)
    = (w', end_, rest) -> P).
  { intros patch left_ Hstages [= <- <- <-].
    apply process_stages_ok in Hstages
      as (et & tr & pd & c & f & x & _ & _ & _ & _ & _ & ->).
    unfold P. split; [intros _; split|].
    - left. cbn [FirestoreManager.write db]. apply processed_patch_fields.
    - eexists. left. apply Hcommit.
    - split; [done|]. split; [done|]. intros other Hne. apply Hothers; auto. }
  destruct schedule as [|[|e|] s1]; cbn [tl].
  - destruct (extract_stage sv file_urls) as [[extracted_text temp_res]|e];
      [|apply (Hhandled w1 e []); by right].
    destruct (process_stages sv file_urls (read w1 deal_id))
      as [patch|e] eqn:Hstages; [|apply (Hhandled w1 e []); by right].
    by apply Hcommitted.
  - destruct (extract_stage sv file_urls) as [[extracted_text temp_res]|e];
      [|apply (Hhandled w1 e s1); by right].
    destruct s1 as [|[|e|] s2]; cbn [tl].
    + destruct (process_stages sv file_urls (read w1 deal_id))
        as [patch|e] eqn:Hstages; [|apply (Hhandled w1 e []); by right].
      by apply Hcommitted.
    + destruct (process_stages sv file_urls (read w1 deal_id))
        as [patch|e] eqn:Hstages; [|apply (Hhandled w1 e s2); by right].
      destruct s2 as [|[|e|] s3]; cbn [tl].
      * by apply Hcommitted.
      * by apply Hcommitted.
      * apply (Hhandled w1 e s3). by right.
      * apply Hstops; [by right|done].
    + apply (Hhandled w1 e s2). by right.
    + apply Hstops; [by right|done].
  - apply (Hhandled w e s1). by left.
  - apply Hstops; [by left|done].
Qed.

(** X26: a background task that returns normally never leaves its deal
    in [processing].  However the calls to the store fare, a task that
    returns normally has written [processed] or [error] last, after the
    write of [processing] or, when the store refused that one, alone; a
    task that does not return normally, because the store refused the
    write of its handler or because it was cancelled, has written nothing
    or [processing] only.  The task writes to its own deal only and leaves
    the queue of tasks as it was, and with a store that answers every call
    it returns normally after exactly two writes. *)
Theorem task_ends_in_processed_or_error (sv : services) (deal_id : string)
    (file_urls : dict) (schedule rest : list answer) (w w' : world)
    (end_ : outcome unit) :
  run (process_deal sv deal_id file_urls) schedule w = (w', end_, rest) ->
  (end_ = Finished (Ok tt) ->
   (status_of (db w') deal_id = Some (VStr "processed") \/
    status_of (db w') deal_id = Some (VStr "error")) /\
   exists patch,
     map op (journal w')
     = map op (journal w)
       ++ [Updated deal_id (status_patch "processing"); Updated deal_id patch]
     \/ map op (journal w') = map op (journal w) ++ [Updated deal_id patch]) /\
  (end_ <> Finished (Ok tt) ->
   w' = w \/
   w' = FirestoreManager.write w (Updated deal_id (status_patch "processing"))) /\
  tasks w' = tasks w /\
  (forall other, other <> deal_id -> db w' !! other = db w !! other) /\
  (Forall (fun a => a = Answers) schedule ->
   end_ = Finished (Ok tt) /\
   exists patch,
     map op (journal w')
     = map op (journal w)
       ++ [Updated deal_id (status_patch "processing"); Updated deal_id patch]).
Proof.
  intros Hrun.
  destruct (process_deal_run_shape _ _ _ _ _ _ _ _ Hrun)
    as (Hnormal & Hstopped & Htasks & Hothers).
  split; [exact Hnormal|]. split; [exact Hstopped|]. split; [exact Htasks|].
  split; [exact Hothers|]. intros Hall.
  destruct (run_answers (process_deal sv deal_id file_urls) schedule w Hall)
    as [rest0 Heq].
  rewrite Heq in Hrun.
  pose proof (f_equal (fun x => fst (fst x)) Hrun) as Hw.
  pose proof (f_equal (fun x => snd (fst x)) Hrun) as Hend.
  cbn [fst snd] in Hw, Hend. rewrite <- Hw, <- Hend.
  rewrite process_deal_eq. cbn zeta.
  destruct (process_stages _ _ _) as [patch|e]; cbn [fst snd];
    (split; [done|]); eexists; by rewrite !journal_write, <- app_assoc.
Qed.

Lemma task_ends_in_processed_or_error_witness :
  status_of (db processed) "3fa9c1" = Some (VStr "processed") \/
  status_of (db processed) "3fa9c1" = Some (VStr "error").
Proof.
  exact (proj1 (proj1 (task_ends_in_processed_or_error
                         (sample_services (Ok two_pages)) "3fa9c1" deck_urls
                         [] [] (without_task uploaded []) processed
                         (Finished (Ok tt)) eq_refl)
                  eq_refl)).
Defined.

(** X27: the pipeline from end to end.  An upload, its background task, a
    memo generation and a memo download, run one after the other with
    every service answering: the task is handed the URL the upload stored,
    the deal goes through [uploading], [processing] and [processed] and
    stays there, and the download fetches the file at the URL the memo
    generation returned. *)
Theorem upload_process_memo_download (sv : services)
    (download_file : value -> string -> result value) (deal_id : string)
    (weightage : value) (w : world)
    (url summary s f x c public_data memo_text docx_url body : value) :
  upload_file sv ("deals/" +:+ deal_id +:+ "/pitch_deck.pdf") = Ok url ->
  summarize_pitch_deck sv
    (PDFProcessor.full_text_of (PDFProcessor._extract_text_from_pdf sv url))
  = Ok summary ->
  subscript summary "summary_res" = Ok s ->
  subscript summary "founder_response" = Ok f ->
  subscript summary "sector_response" = Ok x ->
  subscript summary "company_name_response" = Ok c ->
  gather_data sv c f x = Ok public_data ->
  (forall doc, summarizer_generate_memo sv doc weightage = Ok memo_text) ->
  create_memo_docx sv deal_id memo_text = Ok docx_url ->
  download_file docx_url ("/tmp/" +:+ deal_id +:+ "_memo.docx") = Ok body ->
  tasks (fst (upload_deal sv deal_id true w))
  = tasks w ++ [(deal_id, [("pitch_deck_url", url)])] /\
  status_history deal_id
    (fst (generate_memo sv deal_id weightage
            (fst (process_deal sv deal_id [("pitch_deck_url", url)]
                    (without_task (fst (upload_deal sv deal_id true w))
                       (tasks w))))))
  = status_history deal_id w
    ++ [VStr "uploading"; VStr "uploading"; VStr "processing";
        VStr "processed"; VStr "processed"; VStr "processed"] /\
  snd (download_memo download_file deal_id
         (fst (generate_memo sv deal_id weightage
                 (fst (process_deal sv deal_id [("pitch_deck_url", url)]
                         (without_task (fst (upload_deal sv deal_id true w))
                            (tasks w)))))))
  = Ok (streaming_response body docx_media_type
          ("attachment; filename=" +:+ deal_id +:+ "_memo.docx")).
Proof.
  intros Hup Hsum Hs Hf Hx Hc Hgather Hmemo Hdocx Hfile.
  set (w1 := fst (upload_deal sv deal_id true w)).
  set (w2 := fst (process_deal sv deal_id [("pitch_deck_url", url)]
                    (without_task w1 (tasks w)))).
  assert (Hw1 : w1 = with_task
                  (FirestoreManager.write
                     (FirestoreManager.write w
                        (Created deal_id
                           (VDict [("metadata", initial_metadata sv deal_id)])))
                     (Updated deal_id
                        [("raw_files", VDict [("pitch_deck_url", url)])]))
                  deal_id [("pitch_deck_url", url)]).
  { unfold w1. rewrite upload_deal_eq. unfold store_files. by rewrite Hup. }
  assert (Hw2 : w2 = FirestoreManager.write
                  (FirestoreManager.write (without_task w1 (tasks w))
                     (Updated deal_id (status_patch "processing")))
                  (Updated deal_id
                     (processed_patch
                        (VDict [("pitch_deck",
                                 VDict [("raw",
                                         PDFProcessor.raw_of
                                           (PDFProcessor._extract_text_from_pdf
                                              sv url));
                                        ("concise", s)])])
                        public_data (utcnow sv) c f x))).
  { unfold w2.
    by rewrite (process_deal_summarized sv deal_id [("pitch_deck_url", url)]
                  url _ summary s f x c public_data). }
  assert (Hst2' :
    status_of
      (FirestoreManager.apply_op
         (FirestoreManager.apply_op (db (without_task w1 (tasks w)))
            (Updated deal_id (status_patch "processing")))
         (Updated deal_id
            (processed_patch
               (VDict [("pitch_deck",
                        VDict [("raw",
                                PDFProcessor.raw_of
                                  (PDFProcessor._extract_text_from_pdf
                                     sv url));
                               ("concise", s)])])
               public_data (utcnow sv) c f x))) deal_id
    = Some (VStr "processed")) by apply processed_patch_fields.
  assert (Hst2 : status_of (db w2) deal_id = Some (VStr "processed"))
    by (by rewrite Hw2).
  assert (Hh2 : status_history deal_id w2
                = status_history deal_id w
                  ++ [VStr "uploading"; VStr "uploading"; VStr "processing";
                      VStr "processed"]).
  { rewrite Hw2, !status_history_write. cbn [FirestoreManager.write db].
    rewrite Hst2', status_after_status_patch.
    change (status_history deal_id (without_task w1 (tasks w)))
      with (status_history deal_id w1).
    rewrite Hw1.
    change (status_history deal_id
              (with_task
                 (FirestoreManager.write
                    (FirestoreManager.write w
                       (Created deal_id
                          (VDict [("metadata", initial_metadata sv deal_id)])))
                    (Updated deal_id
                       [("raw_files", VDict [("pitch_deck_url", url)])]))
                 deal_id [("pitch_deck_url", url)]))
      with (status_history deal_id
              (FirestoreManager.write
                 (FirestoreManager.write w
                    (Created deal_id
                       (VDict [("metadata", initial_metadata sv deal_id)])))
                 (Updated deal_id
                    [("raw_files", VDict [("pitch_deck_url", url)])]))).
    rewrite !status_history_write. cbn [FirestoreManager.write db].
    rewrite status_after_raw_files, status_after_created.
    by rewrite <- !app_assoc. }
  split; [by rewrite Hw1|].
  destruct (metadata_field_inv _ _ _ _ Hst2) as (d & m & Hdoc & _ & _).
  split.
  - rewrite (generate_memo_eq _ _ _ _ _ Hdoc Hst2), Hmemo, Hdocx.
    cbn [fst]. rewrite !status_history_write.
    cbn [FirestoreManager.write db].
    rewrite status_after_memo, !status_after_weightage, Hst2, Hh2.
    by rewrite <- !app_assoc.
  - rewrite (download_memo_generated download_file deal_id w2 sv weightage _
               memo_text docx_url Hdoc Hst2 (Hmemo _) Hdocx).
    by rewrite Hfile.
Qed.

Lemma upload_process_memo_download_witness :
  status_history "3fa9c1"
    (fst (generate_memo (sample_services (Ok two_pages)) "3fa9c1" weights
            processed))
  = [VStr "uploading"; VStr "uploading"; VStr "processing";
     VStr "processed"; VStr "processed"; VStr "processed"] /\
  snd (download_memo (fun gs_url _ => Ok gs_url) "3fa9c1"
         (fst (generate_memo (sample_services (Ok two_pages)) "3fa9c1" weights
                 processed)))
  = Ok (streaming_response (VStr "gs://bucket/memos/3fa9c1.docx")
          docx_media_type "attachment; filename=3fa9c1_memo.docx").
Proof.
  destruct (upload_process_memo_download (sample_services (Ok two_pages))
              (fun gs_url _ => Ok gs_url) "3fa9c1" weights initial deck
              sample_summary _ _ _ _ _ (VStr "Investment memo")
              (VStr "gs://bucket/memos/3fa9c1.docx")
              (VStr "gs://bucket/memos/3fa9c1.docx")
              eq_refl eq_refl eq_refl eq_refl eq_refl eq_refl eq_refl
              (fun _ => eq_refl) eq_refl eq_refl)
    as (_ & Hhistory & Hdownload).
  split; [exact Hhistory|exact Hdownload].
Defined.
